(* ===== verification/_CoqProject ===== *)
-Q . S2P
Prelude.v
JsString.v
Template.v
Json.v
Content.v
Sections.v
Static.v
Zip.v
Crc32.v
ZipFormat.v
Pipeline.v
Build.v
Modal.v
Carousel.v
Page.v
Site.v
Motion.v
