(* ===== verification/Prelude.v ===== *)
(** * buildfolio: a verification of the portfolio generator

    The repository is a React site whose one piece of real logic is the
    portfolio generator, [src/src/utils/generatePortfolio.js].  A visitor
    fills the form of [src/src/components/CloneModal.jsx]; on submit the
    modal calls [generatePortfolio(formData)], which

    - builds one JSZip archive: [zip.folder('src')], [src.folder('components')]
      and [src.folder('utils')], then one [file(name, text)] call per emitted
      file (lines 5-39);
    - computes the text of every personalised file from [formData] with the
      [generate*Content] functions: each is one JavaScript template literal
      whose [${...}] slots read the form (name, title, about, email, phone,
      location, social links, projects, comma-separated skills), with
      [JSON.stringify] for the project and skill arrays and [Math.random]
      for the skill levels;
    - copies six static bodies ([getNavbarComponent] ... [getMainContent]);
    - awaits [zip.generateAsync({type:'blob'})] and hands the blob to
      [saveAs] under the name [<name with \s+ replaced by '-', lower-cased>
      -portfolio.zip] (lines 42-43).

    The modal keeps [isGenerating] and the form in React state; the site's
    own [Projects.jsx] (and the generated copy of it) keeps a carousel index
    moved by [nextProject]/[prevProject].

    ** Files of the development (in dependency order)

    - [Prelude]   (this file): the [js] scope, the [js] hint database, the
      development's tactics and the generic lemmas on strings and lists.
    - [JsString]: the JavaScript string builtins the generator calls
      ([split], [join], [trim], [toLowerCase], [replace(/\s+/g, r)],
      truthiness, [filter(Boolean)], [Array.prototype.map] with index,
      [slice]) over byte strings, with their laws (split/join round trip,
      trim idempotence, the slug equivalence).
    - [Template]: template literals as lists of pieces ([Lit] text of the
      source, [Hole] a value read from the input) and their rendering;
      [JSON.stringify(v, null, 2)] over a JSON value type; a lexer of
      double-quoted JavaScript string literals.
    - [Json]: a JSON reader ([lex_json_string], and [parse_value] with a
      fuel, for strings, booleans, arrays and objects) and the proof that
      it reads back what [stringify] writes.
    - [Content]: the form record ([formData], its [projects]) and the data
      each generator derives from it before rendering (the filtered
      projects with exploded [tech], image index and colour; the skill
      tokens, the six meter records with their categories and levels; the
      social and contact entries).  The random source is a parameter
      ([rng : nat -> spec_float], the i-th [Math.random()] draw) and levels
      are IEEE doubles computed with Rocq's [SpecFloat].
    - [Sections]: one definition per [generate*Content] function, the text
      of each template transcribed from the source, with the slot contents
      of [Content].
    - [Static]: the six static file bodies.
    - [Zip]: the part of JSZip the generator uses ([folder], [file] with
      [createFolders], parent-folder creation), as a typeclass [ZipApi] and
      its [gmap]-based implementation.
    - [Crc32]: JSZip's table-driven CRC-32 and the bit-at-a-time
      reference, proved equal ([crc32_table_ref]).
    - [ZipFormat]: the bytes of [generateAsync] with JSZip's defaults
      (STORE, DOS): local headers, central directory and end record as
      [generateZipParts] writes them, [decToHex] with its wrap-around, and
      a reader; [read_generate] is the byte-level round trip.
    - [Pipeline]: [generatePortfolio] itself: the sequence of archive
      calls, the asynchronous serialization (which may reject) and the
      download ([saveAs] returns nothing and cannot fail), as a small
      result monad over the trace of downloads; with JSZip's serializer
      ([jszip_store]) the whole pipeline is proved end to end.
    - [Build]: the archive as the input of [npm] and [vite]: the object
      the text of [package.json] denotes ([Manifest.package_json]), and
      the import declarations of the eleven generated JavaScript modules
      with Vite's resolution of relative and bare specifiers
      ([Imports.project_closed], a checker proved sound).
    - [Modal]: [CloneModal]'s state and handlers ([handleSubmit] with its
      two asynchronous continuations, [addProject], [updateProject], the
      resume input, the backdrop/dialog/close-button clicks) as a step
      relation, with its reachability invariants.
    - [Carousel]: [nextProject]/[prevProject] of [Projects.jsx].
    - [Page]: the page shell: [ScrollProgress] (the scroll ratio and its
      three displays in IEEE doubles), [Navbar] ([isScrolled], the mobile
      menu) and [App] (the loading timer, the scroll listeners, [onClone])
      composed with [Modal] into one step relation.
    - [Site]: the presentation components: the custom cursor's window
      listeners, the [useInView] latch that starts the sections'
      entrance animations, the data the sections render, and the contact
      form with its [handleSubmit].
    - [Motion]: the framer-motion declarations of [Hero], [About], [Contact],
      [Skills] and the navigation bar (initial frame, [inView]-gated
      target, transition with its delays as doubles) and the frame each
      element settles at.

    ** What the theorems show

    Each component file ends with its theorems; the manifest lists the
    main ones as claims C1..Cn.  They cover: the archive holds each of the
    fourteen files at its fixed path with its generated text (a refinement
    of the spec's output mapping, proved against the [ZipLaws] interface)
    and, for the JSZip model, exactly those paths and the three folders
    whatever the input; end to end, [generatePortfolio] with JSZip's STORE serializer
    asks for one download whose bytes read back as exactly the archive's
    entries, every output file among them with its text (the spec's
    archive round trip, at the level of bytes); every value placed
    between double quotes sits between an opening and a closing quote and
    stays one string literal unless it holds a quote, backslash or line
    break; the archive name and the package name share one slug, which is
    the spec's slug; the project array is, entry by entry, the source's
    [{ ...p, tech, image, color }] of the projects with a truthy title
    (image [sig=i], colour [i mod 3]), and the section falls back to the
    "No projects" paragraph exactly when none is left; the skills section
    has min(6, n) meter entries and n tags; empty optional fields never
    produce a contact or social line; the random source only reaches
    [Skills.jsx]; the modal's form always has at least one project, a
    failed generation returns it to the idle state with the form kept,
    [updateProject] writes one field of one project and nothing else, and
    the whole page refines the modal's own step relation; the carousel
    index stays in range; the scroll indicator is exactly 100% at the
    bottom, where its ring is painted whole (the dash 176 covers the
    circumference [56 pi], by [pi <= 22/7]), and 0% at the top, where none
    of it is; until their observer reports them at the threshold every
    animated element of About, Skills and Contact is at opacity, scale or
    width zero, and fully shown after; every line the contact form logs
    had its three fields filled; [package.json] is [JSON.stringify] of the
    manifest object exactly when the slug needs no escape, and then
    [JSON.parse] reads it back; and every import of every generated
    module resolves, to a file of the archive or to a package the
    manifest depends on.

    ** Findings recorded as theorems

    - the README has no Twitter line (the spec says every social link);
    - the hero splits the name on a single space, not on whitespace runs,
      so a double space yields an empty word; a project title of spaces
      only is kept (the spec says trimmed); empty [tech] tokens are kept
      (the spec says dropped); a skills input of separators only yields no
      skill ([Content.content_spec_divergences]);
    - user text is inserted unescaped into JSX and JS string literals
      ([Sections.dq_slots_literal] shows the literal closing early);
    - the archive lacks [index.html] and the Vite and Tailwind configs
      that [package.json] and the README rely on (no such path in
      [Pipeline.output_files], and [Pipeline.build_zip_refines] shows no
      other path holds a file);
    - the scroll indicator divides by [scrollHeight - innerHeight]
      unguarded: on a page no taller than the window it shows [NaN%];
    - the custom cursor forgets its hover state on the icon inside a
      button ([Site.Cursor.cursor_hover_innermost]);
    - the slug is written unescaped between the quotes of [package.json]:
      for every name whose slug holds a quote, a backslash or a control
      character the text is not the manifest's [JSON.stringify], and a
      name with a double quote makes it unreadable or injects members
      ([Build.Manifest.package_json_reads_back]);
    - [generatePortfolio] never reports a failed download: [saveAs]
      returns nothing, so the spec's [DeliveryError] is never raised
      ([Pipeline.delivered_archive] holds for every host).

    The manifest also records findings without a theorem: a skill level
    can be exactly 95.0 ([75 + Math.random() * 20] rounds up for the
    largest double below 1, the spec promises [75,95)); the navigation
    links of the site point at ids no section has, and the hero's buttons
    have no handler; the contact form's [handleSubmit] only logs; and the
    hero section of the generated site has no [id], so its Home link
    ([#home]) has no target.

    ** Modelling choices

    Strings are Rocq [string]s read as the UTF-8 bytes JSZip writes; the
    whitespace of [trim] and [\s] is the ASCII one (tab, LF, VT, FF, CR,
    space) and [toLowerCase] maps ASCII letters: non-ASCII whitespace and
    letters are outside the model.  Template text containing a double
    quote is written with [~] in its place and decoded by [Template.q]
    (the source never contains [~]).  Number-to-string conversion of
    [JSON.stringify] is a parameter ([show_number]).  Doubles are
    [SpecFloat] values (53-bit mantissa, [emax] 1024).  JSZip is a
    library: its folder/file bookkeeping ([Zip]) and its STORE writer
    ([ZipFormat], [Crc32]) are modelled from its documented behaviour;
    the order in which it lists entries (insertion order) is left open,
    the theorems holding for every order.  In
    [Pipeline.generatePortfolio] the serializer stays abstract (a
    [generateAsync] that may fail) and [saveAs] appends its download to
    the trace; [Pipeline.archive_bytes] is the serializer's successful
    result.

    Fuel: JSZip's [folderAdd] recursion through parent folders runs with
    fuel [S (length path)], enough because each parent path is strictly
    shorter ([Zip.JSZip.parentFolder_shorter]).  The JSON reader
    [Json.parse_json] runs with the length of its text as fuel, enough
    because [Json.parse_value] spends one unit per value and per element
    ([Json.stringify_at_reads_back]) and each costs at least one byte
    ([Json.json_size_le_length]).

    The import declarations of a module are read from its first block of
    lines (up to the first blank line), one declaration per line, as every
    generated module writes them; Vite's resolution is its documented
    default (the path itself, then [.mjs], [.js], [.mts], [.ts], [.jsx],
    [.tsx], [.json]); a bare specifier names the package of its first
    segment (two for a scoped [@scope/name]).  framer-motion's
    [animate={{}}] leaves an element at its initial frame, and an element
    settles at its target's values (the last keyframe of a list); this is
    the library's documented behaviour.

    [useInView] follows the documented contract of
    [react-intersection-observer] (in view once a report reaches the
    threshold, then no longer observed): [Site.InView.report] stops
    observing when [inView] becomes true.  The library's source is not in
    the repository; were the hook to stop observing on [isIntersecting]
    alone, a first report below the threshold would leave the section
    hidden for good, and the About/Skills/Contact theorem would hold only
    for reports that first arrive at or above the threshold.  The
    browser's email check of the contact form is a parameter.

    Not modelled: framer-motion's interpolation curves and springs between
    the initial frame and the settled one (only where an element starts
    and where it settles is), the mobile menu's enter/exit animation, the
    Spline 3D scenes and the typewriter effect (rendering with no state the
    rest depends on), the browser's layout of JSX and CSS, whether the npm
    packages named in [package.json] export the names imported from them,
    and the compression of file contents other than STORE (JSZip's
    default). *)

From Stdlib Require Import String Ascii List Bool Arith Lia.
Import ListNotations.

Declare Scope js_scope.
Delimit Scope js_scope with js.

(** String equality and JavaScript's strict equality on strings. *)
Notation "s1 '===' s2" := (String.eqb s1 s2) (at level 70, no associativity) : js_scope.

Create HintDb js.
Create Rewrite HintDb js_rw.

(** ** Generic lemmas on byte strings *)

Lemma str_app_assoc (a b c : string) : (a ++ b ++ c)%string = ((a ++ b) ++ c)%string.
Proof. induction a as [|x a IH]; simpl; [reflexivity | now rewrite IH]. Qed.

Lemma str_app_nil_r (a : string) : (a ++ "")%string = a.
Proof. induction a as [|x a IH]; simpl; [reflexivity | now rewrite IH]. Qed.

Lemma str_length_app (a b : string) : String.length (a ++ b) = String.length a + String.length b.
Proof. induction a as [|x a IH]; simpl; [reflexivity | now rewrite IH]. Qed.

Lemma str_eqb_refl_true (s : string) : (s =? s)%string = true.
Proof. apply String.eqb_refl. Qed.

#[export] Hint Rewrite str_app_nil_r str_length_app str_eqb_refl_true : js_rw.
#[export] Hint Rewrite <- str_app_assoc : js_rw.

(** ** Generic lemmas on lists *)

Lemma length_filter_le {A} (f : A -> bool) (l : list A) : length (filter f l) <= length l.
Proof. induction l as [|x l IH]; simpl; [lia | destruct (f x); simpl; lia]. Qed.

Lemma filter_all_true {A} (f : A -> bool) (l : list A) :
  (forall x, In x l -> f x = true) -> filter f l = l.
Proof.
  induction l as [|x l IH]; intros H; simpl; [reflexivity|].
  rewrite (H x (or_introl eq_refl)), IH; auto with datatypes.
Qed.

Lemma filter_none {A} (f : A -> bool) (l : list A) :
  filter f l = [] <-> (forall x, In x l -> f x = false).
Proof.
  induction l as [|x l IH]; simpl; [tauto|].
  destruct (f x) eqn:E; split.
  - discriminate.
  - intros H. now rewrite (H x (or_introl eq_refl)) in E.
  - intros H y [<-|Hy]; [exact E | now apply IH].
  - intros H. apply IH. auto.
Qed.

#[export] Hint Resolve length_filter_le : js.

(** ** Writing one index of a list *)

(** [a[i] = x] on a copy of [a], for an index in range. *)
Definition replace_nth {A} (i : nat) (x : A) (l : list A) : list A :=
  firstn i l ++ x :: skipn (S i) l.

Lemma length_replace_nth {A} (l : list A) i x :
  i < length l -> length (replace_nth i x l) = length l.
Proof.
  intros H. unfold replace_nth. rewrite length_app, length_firstn.
  change (length (x :: skipn (S i) l)) with (S (length (skipn (S i) l))).
  rewrite length_skipn. lia.
Qed.

Lemma nth_replace_nth {A} (l : list A) i x :
  i < length l -> nth_error (replace_nth i x l) i = Some x.
Proof.
  intros H. unfold replace_nth.
  rewrite nth_error_app2; rewrite length_firstn; [|lia].
  replace (i - Nat.min i (length l)) with 0 by lia. reflexivity.
Qed.

Lemma nth_replace_nth_other {A} (l : list A) i j x :
  i < length l -> j <> i -> nth_error (replace_nth i x l) j = nth_error l j.
Proof.
  intros H Hj. unfold replace_nth. destruct (Nat.lt_ge_cases j i) as [Hlt|Hge].
  - rewrite nth_error_app1 by (rewrite length_firstn; lia). rewrite nth_error_firstn. destruct (Nat.ltb_spec j i); [reflexivity | lia].
  - rewrite nth_error_app2 by (rewrite length_firstn; lia). rewrite length_firstn.
    replace (j - Nat.min i (length l)) with (S (j - S i)) by lia. cbn [nth_error].
    rewrite nth_error_skipn. f_equal. lia.
Qed.

(** ** Lists of string keys *)

(** No key occurs twice, as a boolean: decided by computation on a
    concrete list and reflected by [str_nodupb_NoDup]. *)
Fixpoint str_nodupb (l : list string) : bool :=
  match l with
  | [] => true
  | x :: l' => negb (existsb (String.eqb x) l') && str_nodupb l'
  end.

Lemma str_nodupb_NoDup l : str_nodupb l = true -> NoDup l.
Proof.
  induction l as [|x l IH]; simpl; intros H; [constructor|].
  apply andb_prop in H as [H1 H2]. constructor; [|auto].
  intros Hin. apply negb_true_iff in H1.
  assert (existsb (String.eqb x) l = true) as Hc
    by (apply existsb_exists; exists x; split; [exact Hin | apply String.eqb_refl]).
  congruence.
Qed.

Lemma find_key_none {A} (key : A -> string) (l : list A) p :
  ~ In p (map key l) -> find (fun x => (key x =? p)%string) l = None.
Proof.
  induction l as [|x l IH]; simpl; intros Hn; [reflexivity|].
  destruct (String.eqb_spec (key x) p); [tauto|]. apply IH. tauto.
Qed.

Lemma find_key_nodup {A} (key : A -> string) (l : list A) x :
  NoDup (map key l) -> In x l -> find (fun y => (key y =? key x)%string) l = Some x.
Proof.
  induction l as [|y l IH]; simpl; intros Hnd Hin; [contradiction|].
  inversion Hnd as [|? ? Hy Hnd']; subst.
  destruct Hin as [<-|Hin]; [now rewrite String.eqb_refl|].
  destruct (String.eqb_spec (key y) (key x)) as [E|E]; [|now apply IH].
  exfalso. apply Hy. rewrite E. now apply in_map.
Qed.

(** ** Tactics *)

(** Case on every [if] of the goal, remembering the condition. *)
Ltac destruct_ifs :=
  repeat match goal with
         | |- context [if ?c then _ else _] =>
             let E := fresh "E" in destruct c eqn:E
         end.

(** Close a goal about concrete strings or lists by computation. *)
Ltac by_compute := vm_compute; reflexivity.
