(* ===== verification/JsString.v ===== *)
(** * JavaScript builtins used by the generator

    [String.prototype.split] with a one-character separator,
    [Array.prototype.join], [trim], [toLowerCase], [replace(/\s+/g, r)],
    string truthiness and [filter(Boolean)], [Array.prototype.map] with
    its index argument and [slice(0, n)], over byte strings (see the
    modelling choices of [Prelude]).  They are language builtins, not code
    of the repository; their laws are what the generator's theorems use. *)

From S2P Require Import Prelude.
From Stdlib Require Import String Ascii List Bool Arith Lia.
Import ListNotations.

Module Js.

Local Open Scope string_scope.

(** [\s] and the characters [trim] removes, restricted to ASCII. *)
Definition is_ws (a : ascii) : bool :=
  let n := nat_of_ascii a in ((9 <=? n) && (n <=? 13))%nat || (n =? 32)%nat.

(** A string is truthy when it is not empty. *)
Definition truthy (s : string) : bool := negb (s =? "").

(** [s.split(c)]: the pieces between the occurrences of [c];
    the empty string splits to [[""]]. *)
Fixpoint split (c : ascii) (s : string) : list string :=
  match s with
  | EmptyString => [""]
  | String a s' =>
      let r := split c s' in
      if Ascii.eqb a c then "" :: r
      else match r with
           | h :: t => String a h :: t
           | [] => [String a ""]
           end
  end.

(** [l.join(sep)]. *)
Definition join (sep : string) (l : list string) : string := String.concat sep l.

Fixpoint trimStart (s : string) : string :=
  match s with
  | EmptyString => EmptyString
  | String a s' => if is_ws a then trimStart s' else s
  end.

Fixpoint trimEnd (s : string) : string :=
  match s with
  | EmptyString => EmptyString
  | String a s' =>
      let t := trimEnd s' in
      if is_ws a && (t =? "") then "" else String a t
  end.

(** [s.trim()]. *)
Definition trim (s : string) : string := trimEnd (trimStart s).

Definition lower_ascii (a : ascii) : ascii :=
  let n := nat_of_ascii a in
  if ((65 <=? n) && (n <=? 90))%nat then ascii_of_nat (n + 32) else a.

(** [s.toLowerCase()]. *)
Fixpoint toLowerCase (s : string) : string :=
  match s with
  | EmptyString => EmptyString
  | String a s' => String (lower_ascii a) (toLowerCase s')
  end.

(** [s.replace(/\s+/g, r)]: every maximal run of whitespace becomes [r].
    [in_run] says whether the previous character was whitespace. *)
Fixpoint replace_ws_from (r : string) (in_run : bool) (s : string) : string :=
  match s with
  | EmptyString => EmptyString
  | String a s' =>
      if is_ws a then
        if in_run then replace_ws_from r true s' else r ++ replace_ws_from r true s'
      else String a (replace_ws_from r false s')
  end.

Definition replace_ws (r : string) (s : string) : string := replace_ws_from r false s.

(** [l.filter(Boolean)] on strings. *)
Definition filter_Boolean (l : list string) : list string := filter truthy l.

(** [l.map((x, i) => f i x)]. *)
Fixpoint mapi_from {A B} (f : nat -> A -> B) (i : nat) (l : list A) : list B :=
  match l with
  | [] => []
  | x :: l' => f i x :: mapi_from f (S i) l'
  end.

Definition mapi {A B} (f : nat -> A -> B) (l : list A) : list B := mapi_from f 0 l.

(** [l.slice(0, n)]. *)
Definition slice0 {A} (n : nat) (l : list A) : list A := firstn n l.

(** ** Predicates used by the laws *)

Fixpoint has_ws (s : string) : bool :=
  match s with
  | EmptyString => false
  | String a s' => is_ws a || has_ws s'
  end.

Fixpoint has_char (c : ascii) (s : string) : bool :=
  match s with
  | EmptyString => false
  | String a s' => Ascii.eqb a c || has_char c s'
  end.

Definition starts_ws (s : string) : bool :=
  match s with EmptyString => false | String a _ => is_ws a end.

Fixpoint ends_ws (s : string) : bool :=
  match s with
  | EmptyString => false
  | String a EmptyString => is_ws a
  | String _ s' => ends_ws s'
  end.

Fixpoint has_upper (s : string) : bool :=
  match s with
  | EmptyString => false
  | String a s' => negb (Ascii.eqb (lower_ascii a) a) || has_upper s'
  end.

(** ** Laws *)

Lemma truthy_false s : truthy s = false <-> s = "".
Proof. unfold truthy. destruct (String.eqb_spec s ""); simpl; intuition congruence. Qed.

Lemma truthy_true s : truthy s = true <-> s <> "".
Proof. unfold truthy. destruct (String.eqb_spec s ""); simpl; intuition congruence. Qed.

Lemma split_not_nil c s : split c s <> [].
Proof.
  destruct s as [|a s]; simpl; [discriminate|].
  destruct (Ascii.eqb a c); [discriminate|]. destruct (split c s); discriminate.
Qed.

(** [s.split(c).join(c)] gives [s] back. *)
Lemma join_split c s : join (String c "") (split c s) = s.
Proof.
  unfold join. induction s as [|a s IH]; [reflexivity|]. simpl.
  destruct (Ascii.eqb_spec a c) as [-> | Hne].
  - destruct (split c s) as [|h t] eqn:E; [now destruct (split_not_nil c s)|].
    simpl in *. now rewrite IH.
  - destruct (split c s) as [|h t] eqn:E; [now destruct (split_not_nil c s)|].
    simpl in *. destruct t; simpl in *; now rewrite IH.
Qed.

Lemma split_no_sep c s : forall t, In t (split c s) -> has_char c t = false.
Proof.
  induction s as [|a s IH]; simpl; intros t Ht.
  - destruct Ht as [<-|[]]; reflexivity.
  - destruct (Ascii.eqb_spec a c) as [-> | Hne].
    + destruct Ht as [<-|Ht]; [reflexivity | now apply IH].
    + destruct (split c s) as [|h tl] eqn:E; [now destruct (split_not_nil c s)|].
      destruct Ht as [<-|Ht]; simpl.
      * rewrite (IH h (or_introl eq_refl)). now destruct (Ascii.eqb_spec a c).
      * apply IH; now right.
Qed.

Lemma trimStart_not_ws s : starts_ws (trimStart s) = false.
Proof.
  induction s as [|a s IH]; simpl; [reflexivity|].
  destruct (is_ws a) eqn:E; simpl; auto.
Qed.

Lemma trimEnd_not_ws s : ends_ws (trimEnd s) = false.
Proof.
  induction s as [|a s IH]; simpl; [reflexivity|].
  destruct (trimEnd s) as [|b t] eqn:E; simpl.
  - destruct (is_ws a) eqn:W; simpl; rewrite ?W; reflexivity.
  - rewrite andb_false_r. exact IH.
Qed.

Lemma trimEnd_empty_or_nonws_head s :
  trimEnd s = "" \/ starts_ws (trimEnd s) = starts_ws s.
Proof.
  destruct s as [|a s]; simpl; [now left|].
  destruct (is_ws a && (trimEnd s =? "")); [now left | now right].
Qed.

Lemma trimStart_id s : starts_ws s = false -> trimStart s = s.
Proof. destruct s as [|a s]; simpl; [reflexivity|]. now intros ->. Qed.

Lemma trimEnd_id s : ends_ws s = false -> trimEnd s = s.
Proof.
  induction s as [|a s IH]; simpl; [reflexivity|].
  destruct s as [|b s'].
  - simpl. intros ->. reflexivity.
  - intros H. rewrite (IH H). simpl. now rewrite andb_false_r.
Qed.

(** [s.trim()] neither starts nor ends with whitespace. *)
Lemma trim_trimmed s : starts_ws (trim s) = false /\ ends_ws (trim s) = false.
Proof.
  unfold trim. split; [|apply trimEnd_not_ws].
  destruct (trimEnd_empty_or_nonws_head (trimStart s)) as [-> | ->]; [reflexivity|].
  apply trimStart_not_ws.
Qed.

(** [trim] is idempotent. *)
Lemma trim_idem s : trim (trim s) = trim s.
Proof.
  destruct (trim_trimmed s) as [H1 H2].
  unfold trim at 1. rewrite (trimStart_id _ H1). now apply trimEnd_id.
Qed.

(** Every character of [s] satisfies [P]. *)
Fixpoint str_all (P : ascii -> bool) (s : string) : bool :=
  match s with
  | EmptyString => true
  | String a s' => P a && str_all P s'
  end.

(** Two separators in a row make an empty piece, which is never the
    first one. *)
Lemma split_double_sep c a b :
  exists l1 l2, l1 <> [] /\ split c (a ++ String c (String c b)) = (l1 ++ "" :: l2)%list.
Proof.
  induction a as [|x a IH]; simpl.
  - rewrite Ascii.eqb_refl. exists [""], (split c b). split; [discriminate | reflexivity].
  - destruct IH as [l1 [l2 [Hne E]]]. rewrite E.
    destruct (Ascii.eqb x c).
    + exists ("" :: l1), l2. split; [discriminate | reflexivity].
    + destruct l1 as [|h t]; [congruence|]. exists (String x h :: t), l2.
      split; [discriminate | reflexivity].
Qed.

(** A piece of [s] is made of characters of [s] other than the separator. *)
Lemma split_pieces_forall c (P : ascii -> bool) s :
  str_all (fun a => Ascii.eqb a c || P a) s = true ->
  forall t, In t (split c s) -> str_all P t = true.
Proof.
  induction s as [|a s IH]; simpl; intros H t Ht.
  - destruct Ht as [<-|[]]; reflexivity.
  - apply andb_prop in H as [Ha Hs]. specialize (IH Hs).
    destruct (Ascii.eqb a c) eqn:E.
    + destruct Ht as [<-|Ht]; [reflexivity | auto].
    + destruct (split c s) as [|h tl] eqn:Es; [now destruct (split_not_nil c s)|].
      destruct Ht as [<-|Ht]; [|auto with datatypes].
      simpl in Ha |- *. rewrite Ha. apply IH. now left.
Qed.

(** [trim] empties a string of whitespace. *)
Lemma trim_all_ws s : str_all is_ws s = true -> trim s = "".
Proof.
  unfold trim. intros H. replace (trimStart s) with "" by
    (induction s as [|a s IH]; simpl in *; [reflexivity|];
     apply andb_prop in H as [-> H]; auto).
  reflexivity.
Qed.

Lemma lower_ascii_ws a : is_ws (lower_ascii a) = is_ws a.
Proof. destruct a as [[] [] [] [] [] [] [] []]; reflexivity. Qed.

Lemma has_char_trimStart c s : has_char c s = false -> has_char c (trimStart s) = false.
Proof.
  induction s as [|a s IH]; simpl; [reflexivity|].
  intros H. apply orb_false_iff in H as [Ha Hs].
  destruct (is_ws a); [now apply IH | simpl; now rewrite Ha, Hs].
Qed.

Lemma has_char_trimEnd c s : has_char c s = false -> has_char c (trimEnd s) = false.
Proof.
  induction s as [|a s IH]; simpl; [reflexivity|].
  intros H. apply orb_false_iff in H as [Ha Hs].
  destruct (is_ws a && (trimEnd s =? "")); [reflexivity|]. simpl. now rewrite Ha, IH.
Qed.

(** [trim] keeps a character out if it was out. *)
Lemma has_char_trim c s : has_char c s = false -> has_char c (trim s) = false.
Proof. intros H. now apply has_char_trimEnd, has_char_trimStart. Qed.

Lemma toLowerCase_app a b : toLowerCase (a ++ b) = toLowerCase a ++ toLowerCase b.
Proof. induction a as [|x a IH]; simpl; [reflexivity | now rewrite IH]. Qed.

(** Lower-casing and collapsing whitespace runs commute, for a
    replacement that lower-casing leaves unchanged. *)
Lemma toLowerCase_replace_ws r in_run s :
  toLowerCase r = r ->
  toLowerCase (replace_ws_from r in_run s) = replace_ws_from r in_run (toLowerCase s).
Proof.
  intros Hr. revert in_run. induction s as [|a s IH]; intros in_run; simpl; [reflexivity|].
  rewrite lower_ascii_ws. destruct (is_ws a), in_run; simpl;
    rewrite ?toLowerCase_app, ?Hr, ?IH; reflexivity.
Qed.

(** Per-character facts, checked on all 256 bytes. *)
Lemma lower_ascii_idem a : lower_ascii (lower_ascii a) = lower_ascii a.
Proof. destruct a as [[] [] [] [] [] [] [] []]; reflexivity. Qed.

Lemma toLowerCase_idem s : toLowerCase (toLowerCase s) = toLowerCase s.
Proof. induction s as [|a s IH]; simpl; [reflexivity|]. now rewrite lower_ascii_idem, IH. Qed.

Lemma has_upper_toLowerCase s : has_upper (toLowerCase s) = false.
Proof.
  induction s as [|a s IH]; simpl; [reflexivity|].
  rewrite lower_ascii_idem, Ascii.eqb_refl. exact IH.
Qed.

Lemma has_ws_toLowerCase s : has_ws (toLowerCase s) = has_ws s.
Proof. induction s as [|a s IH]; simpl; [reflexivity|]. now rewrite lower_ascii_ws, IH. Qed.

Lemma has_ws_app a b : has_ws (a ++ b) = has_ws a || has_ws b.
Proof. induction a as [|x a IH]; simpl; [reflexivity|]. now rewrite IH, orb_assoc. Qed.

(** With a replacement free of whitespace, no whitespace is left. *)
Lemma replace_ws_no_ws r in_run s :
  has_ws r = false -> has_ws (replace_ws_from r in_run s) = false.
Proof.
  intros Hr. revert in_run. induction s as [|a s IH]; intros in_run; simpl; [reflexivity|].
  destruct (is_ws a) eqn:W; [destruct in_run; rewrite ?has_ws_app, ?Hr; apply IH|].
  simpl. rewrite W. apply IH.
Qed.

(** A string without whitespace is left alone. *)
Lemma replace_ws_id r s : has_ws s = false -> replace_ws_from r false s = s.
Proof.
  induction s as [|a s IH]; simpl; intros H; [reflexivity|].
  apply orb_false_iff in H as [Ha Hs]. rewrite Ha, IH by exact Hs. reflexivity.
Qed.

Lemma length_mapi_from {A B} (f : nat -> A -> B) i l : length (mapi_from f i l) = length l.
Proof. revert i. induction l as [|x l IH]; intros i; simpl; [reflexivity | now rewrite IH]. Qed.

Lemma length_mapi {A B} (f : nat -> A -> B) l : length (mapi f l) = length l.
Proof. apply length_mapi_from. Qed.

Lemma nth_error_mapi_from {A B} (f : nat -> A -> B) i l k :
  nth_error (mapi_from f i l) k = option_map (f (i + k)) (nth_error l k).
Proof.
  revert i k. induction l as [|x l IH]; intros i [|k]; simpl; try reflexivity.
  - now rewrite Nat.add_0_r.
  - rewrite IH. now rewrite Nat.add_succ_r.
Qed.

(** The i-th item of [l.map((x, i) => f(i, x))] is [f(i, l[i])]. *)
Lemma nth_error_mapi {A B} (f : nat -> A -> B) l k :
  nth_error (mapi f l) k = option_map (f k) (nth_error l k).
Proof. apply nth_error_mapi_from. Qed.

End Js.
