(* ===== verification/Template.v ===== *)
(** * Template literals and [JSON.stringify]

    A JavaScript template literal [`a${x}b${y}c`] evaluates to the
    concatenation of its text and of the string values of its slots.  We
    keep that structure: a [template] is a list of pieces, [Lit] for text
    written in the source (at any nesting depth of the literal) and [Hole]
    for a value computed from the input; [render] concatenates them.  A
    slot holding a nested literal ([${c ? `..${v}..` : ''}]) is flattened
    into the nested literal's pieces, which renders to the same string
    ([render_app]); a slot holding [xs.map(f).join(sep)] is [join_t]
    ([render_join_t]).

    [JSON.stringify(v, null, 2)] is [stringify] over the [json] values the
    generator builds (strings, numbers, arrays, objects), following
    SerializeJSONProperty / QuoteJSONString of ECMA-262 with a gap of two
    spaces; the conversion of a number to a string is the parameter
    [show_number]. *)

From S2P Require Import Prelude JsString.
From Stdlib Require Import String Ascii List Bool Arith Lia.
From Corelib Require Import SpecFloat.
Import ListNotations.

#[local] Set Warnings "-register-all".

Module Template.

Local Open Scope string_scope.

Inductive piece : Type :=
| Lit (s : string)
| Hole (s : string).

Definition template := list piece.

Definition piece_text (p : piece) : string :=
  match p with Lit s | Hole s => s end.

Definition render (t : template) : string :=
  fold_right (fun p acc => piece_text p ++ acc) "" t.

Notation "'⟦' t '⟧'" := (render t) (at level 0, t at level 200) : js_scope.

(** The characters the templates need. *)
Definition dq : ascii := "034"%char.
Definition nl : string := String "010"%char "".
Definition bs : string := String "092"%char "".

(** Template text is written with [~] for the double quote. *)
Fixpoint q (s : string) : string :=
  match s with
  | EmptyString => EmptyString
  | String a s' => String (if Ascii.eqb a "~"%char then dq else a) (q s')
  end.

(** [${xs.map(f).join(sep)}], with [f] a template literal. *)
Fixpoint join_t (sep : string) (l : list template) : template :=
  match l with
  | [] => []
  | [t] => t
  | t :: l' => app t (Lit sep :: join_t sep l')
  end.

(** ** JSON values and [JSON.stringify(v, null, 2)] *)

Inductive json : Type :=
| JStr (s : string)
| JNum (n : spec_float)
| JBool (b : bool)
| JArr (l : list json)
| JObj (kvs : list (string * json)).

Definition hex_digit (n : nat) : ascii :=
  if (n <? 10)%nat then ascii_of_nat (48 + n) else ascii_of_nat (87 + n).

(** QuoteJSONString, one code unit. *)
Definition json_escape_char (a : ascii) : string :=
  let n := nat_of_ascii a in
  if (n =? 8)%nat then bs ++ "b"
  else if (n =? 9)%nat then bs ++ "t"
  else if (n =? 10)%nat then bs ++ "n"
  else if (n =? 12)%nat then bs ++ "f"
  else if (n =? 13)%nat then bs ++ "r"
  else if (n =? 34)%nat then bs ++ String dq ""
  else if (n =? 92)%nat then bs ++ bs
  else if (n <? 32)%nat then bs ++ "u00" ++ String (hex_digit (n / 16)) (String (hex_digit (n mod 16)) "")
  else String a "".

Fixpoint json_escape (s : string) : string :=
  match s with
  | EmptyString => EmptyString
  | String a s' => json_escape_char a ++ json_escape s'
  end.

Definition json_quote (s : string) : string := String dq (json_escape s ++ String dq "").

Section Stringify.

Context (show_number : spec_float -> string).

Definition json_number (n : spec_float) : string :=
  match n with
  | S754_nan | S754_infinity _ => "null"
  | _ => show_number n
  end.

(** SerializeJSONArray / SerializeJSONObject with gap ["  "]; [ind] is
    the current indent. *)
Fixpoint stringify_at (ind : string) (v : json) {struct v} : string :=
  let ind' := ind ++ "  " in
  match v with
  | JStr s => json_quote s
  | JNum n => json_number n
  | JBool b => if b then "true" else "false"
  | JArr [] => "[]"
  | JArr l =>
      "[" ++ nl ++ ind' ++ Js.join ("," ++ nl ++ ind') (map (stringify_at ind') l)
          ++ nl ++ ind ++ "]"
  | JObj [] => "{}"
  | JObj kvs =>
      "{" ++ nl ++ ind'
          ++ Js.join ("," ++ nl ++ ind')
               (map (fun kv => json_quote (fst kv) ++ ": " ++ stringify_at ind' (snd kv)) kvs)
          ++ nl ++ ind ++ "}"
  end.

Definition stringify (v : json) : string := stringify_at "" v.

End Stringify.

(** ** Lexing a double-quoted JavaScript string literal *)

Definition is_line_terminator (a : ascii) : bool :=
  (Ascii.eqb a "010"%char || Ascii.eqb a "013"%char)%bool.

(** The body of a literal whose opening quote was just read: the body as
    written and the text after the closing quote; [None] when a line ends
    or the text ends first.  A backslash escapes the next character. *)
Fixpoint lex_dq (s : string) : option (string * string) :=
  match s with
  | EmptyString => None
  | String a s' =>
      if Ascii.eqb a dq then Some (EmptyString, s')
      else if is_line_terminator a then None
      else if Ascii.eqb a "092"%char then
        match s' with
        | String b s'' =>
            match lex_dq s'' with
            | Some (body, rest) => Some (String a (String b body), rest)
            | None => None
            end
        | EmptyString => None
        end
      else match lex_dq s' with
           | Some (body, rest) => Some (String a body, rest)
           | None => None
           end
  end.

Definition starts_dq (s : string) : bool :=
  match s with EmptyString => false | String a _ => Ascii.eqb a dq end.

(** The text ends with a double quote. *)
Fixpoint ends_dq (s : string) : bool :=
  match s with
  | EmptyString => false
  | String a EmptyString => Ascii.eqb a dq
  | String _ t => ends_dq t
  end.

Definition tail_of (s : string) : string :=
  match s with EmptyString => EmptyString | String _ t => t end.

(** Text that can sit between double quotes as it is. *)
Fixpoint dq_safe (s : string) : bool :=
  match s with
  | EmptyString => true
  | String a s' =>
      negb (Ascii.eqb a dq) && negb (Ascii.eqb a "092"%char) && negb (is_line_terminator a)
      && dq_safe s'
  end.

(** ** Occurrences of template text *)

Definition is_lit (s : string) (p : piece) : bool :=
  match p with Lit s' => (s' =? s)%string | Hole _ => false end.

(** Does the text [s] occur as a piece of the template? *)
Definition has_lit (s : string) (t : template) : bool := existsb (is_lit s) t.

(** How many times does it occur? *)
Definition count_lit (s : string) (t : template) : nat := length (filter (is_lit s) t).

(** ** Laws of rendering *)

Lemma render_app (t1 t2 : template) : render (t1 ++ t2)%list = render t1 ++ render t2.
Proof.
  induction t1 as [|p t1 IH]; simpl; [reflexivity|].
  now rewrite IH, str_app_assoc.
Qed.

Lemma render_cons (p : piece) (t : template) : render (p :: t) = piece_text p ++ render t.
Proof. reflexivity. Qed.

(** The flattened [map(...).join(sep)] renders as the JavaScript join of
    the rendered items. *)
Lemma render_join_t (sep : string) (l : list template) :
  render (join_t sep l) = Js.join sep (map render l).
Proof.
  unfold Js.join. induction l as [|t l IH]; [reflexivity|].
  destruct l as [|t' l]; [reflexivity|].
  change (join_t sep (t :: t' :: l)) with (t ++ Lit sep :: join_t sep (t' :: l))%list.
  rewrite render_app, render_cons, IH. reflexivity.
Qed.

Lemma in_join_t (sep : string) (l : list template) (p : piece) :
  In p (join_t sep l) <-> (exists t, In t l /\ In p t) \/ (p = Lit sep /\ 2 <= length l)%nat.
Proof.
  induction l as [|t l IH]; simpl.
  - split; [tauto|]. intros [[t [[] _]]|[_ H]]; lia.
  - destruct l as [|t' l].
    + split.
      * intros H. left. exists t. auto.
      * intros [[t0 [[<-|[]] H]]|[_ H]]; [exact H | simpl in H; lia].
    + rewrite in_app_iff. simpl. rewrite IH. simpl. split.
      * intros [H|[H|[[t0 [Ht0 Hp]]|[Hp _]]]].
        -- left. eauto.
        -- right. split; [auto|lia].
        -- left. exists t0. auto.
        -- right. split; [auto|lia].
      * intros [[t0 [[<-|Ht0] Hp]]|[Hp _]]; auto.
        right. right. left. eauto.
Qed.

Lemma has_lit_In s t : has_lit s t = true <-> In (Lit s) t.
Proof.
  unfold has_lit. rewrite existsb_exists. split.
  - intros [[s'|s'] [Hin H]]; simpl in H; [|discriminate].
    apply String.eqb_eq in H. now subst.
  - intros H. exists (Lit s). split; [exact H | apply String.eqb_refl].
Qed.

Lemma count_lit_app s t1 t2 : count_lit s (t1 ++ t2)%list = count_lit s t1 + count_lit s t2.
Proof. unfold count_lit. now rewrite filter_app, length_app. Qed.

Lemma count_lit_hole s x t : count_lit s (Hole x :: t) = count_lit s t.
Proof. reflexivity. Qed.

Lemma count_lit_nil s : count_lit s [] = 0.
Proof. reflexivity. Qed.

Lemma has_lit_app s t1 t2 : has_lit s (t1 ++ t2)%list = has_lit s t1 || has_lit s t2.
Proof. apply existsb_app. Qed.

Lemma count_lit_other s a t : (a =? s)%string = false -> count_lit s (Lit a :: t) = count_lit s t.
Proof. intros H. unfold count_lit. simpl. now rewrite H. Qed.

(** Counting through [map(...).join(sep)] when [s] is not the separator. *)
Lemma count_lit_join_t s sep l :
  (sep =? s)%string = false ->
  count_lit s (join_t sep l) = list_sum (map (count_lit s) l).
Proof.
  intros Hs. induction l as [|t l IH]; [reflexivity|].
  destruct l as [|t' l]; [simpl; lia|].
  change (join_t sep (t :: t' :: l)) with (t ++ Lit sep :: join_t sep (t' :: l))%list.
  rewrite count_lit_app, count_lit_other, IH by exact Hs. reflexivity.
Qed.

Lemma list_sum_const {A} (f : A -> nat) (l : list A) k :
  (forall x, In x l -> f x = k) -> list_sum (map f l) = k * length l.
Proof.
  induction l as [|x l IH]; simpl; intros H; [lia|].
  rewrite H, IH by auto. lia.
Qed.

(** Safe text followed by a closing quote is read back as the whole body. *)
Lemma lex_dq_safe v t : dq_safe v = true -> lex_dq (v ++ String dq t) = Some (v, t).
Proof.
  induction v as [|a v IH]; simpl; [reflexivity|].
  intros H. apply andb_prop in H as [H Hv]. apply andb_prop in H as [H Hlt].
  apply andb_prop in H as [Hq Hb]. apply negb_true_iff in Hq, Hb, Hlt.
  rewrite Hq, Hlt, Hb, IH by exact Hv. reflexivity.
Qed.

(** A closing text that starts with a quote ends the literal there. *)
Lemma lex_dq_closing v c :
  dq_safe v = true -> starts_dq c = true -> lex_dq (v ++ c) = Some (v, tail_of c).
Proof.
  intros Hv Hc. destruct c as [|a t]; [discriminate|].
  simpl in Hc. apply Ascii.eqb_eq in Hc as ->. now apply lex_dq_safe.
Qed.

#[export] Hint Rewrite render_app render_cons render_join_t count_lit_app : js_rw.

(** Count a literal through the fixed pieces of a template, comparing
    the concrete texts by computation. *)
Ltac count_lits :=
  repeat first [ rewrite count_lit_hole | rewrite count_lit_nil
               | rewrite count_lit_other by (vm_compute; reflexivity) ].

End Template.
