(* ===== verification/Json.v ===== *)
(** * Reading back what [JSON.stringify] wrote

    The generated [Projects.jsx] and [Skills.jsx] embed the output of
    [JSON.stringify(v, null, 2)] as a JavaScript expression.  This file
    gives a JSON reader ([lex_json_string] for string literals,
    [parse_value] for strings, booleans, arrays and objects, bounded by a
    fuel) and proves that it reads
    back every string [Template.json_quote] writes and every number-free
    value [Template.stringify] writes: the embedded text denotes exactly
    the value the generator built. *)

From S2P Require Import Prelude JsString Template.
From Stdlib Require Import String Ascii List Bool Arith Lia.
From Corelib Require Import SpecFloat.
Import ListNotations.
Import Template.

Module Json.

Local Open Scope string_scope.

Definition cons_body (c : ascii) (o : option (string * string)) : option (string * string) :=
  match o with
  | Some (body, rest) => Some (String c body, rest)
  | None => None
  end.

Definition hex_value (a : ascii) : option nat :=
  let n := nat_of_ascii a in
  if ((48 <=? n) && (n <=? 57))%nat then Some (n - 48)
  else if ((97 <=? n) && (n <=? 102))%nat then Some (n - 87)
  else if ((65 <=? n) && (n <=? 70))%nat then Some (n - 55)
  else None.

(** [\uXXXX] below [Ā] is one byte of the model. *)
Definition unicode_escape (h1 h2 h3 h4 : ascii) : option ascii :=
  match hex_value h1, hex_value h2, hex_value h3, hex_value h4 with
  | Some 0, Some 0, Some d3, Some d4 => Some (ascii_of_nat (16 * d3 + d4))
  | _, _, _, _ => None
  end.

(** The one-character escapes of JSON. *)
Definition simple_escape (b : ascii) : option ascii :=
  let n := nat_of_ascii b in
  if (n =? 34)%nat then Some dq
  else if (n =? 92)%nat then Some "092"%char
  else if (n =? 47)%nat then Some "/"%char
  else if (n =? 98)%nat then Some "008"%char
  else if (n =? 102)%nat then Some "012"%char
  else if (n =? 110)%nat then Some "010"%char
  else if (n =? 114)%nat then Some "013"%char
  else if (n =? 116)%nat then Some "009"%char
  else None.

(** The body of a JSON string literal whose opening quote was read: the
    decoded text and what follows the closing quote. *)
Fixpoint lex_json_string (s : string) : option (string * string) :=
  match s with
  | EmptyString => None
  | String a s' =>
      if Ascii.eqb a dq then Some (EmptyString, s')
      else if Ascii.eqb a "092"%char then
        match s' with
        | String b s'' =>
            match simple_escape b with
            | Some c => cons_body c (lex_json_string s'')
            | None =>
                if Ascii.eqb b "u"%char then
                  match s'' with
                  | String h1 (String h2 (String h3 (String h4 s5))) =>
                      match unicode_escape h1 h2 h3 h4 with
                      | Some c => cons_body c (lex_json_string s5)
                      | None => None
                      end
                  | _ => None
                  end
                else None
            end
        | EmptyString => None
        end
      else if (nat_of_ascii a <? 32)%nat then None
      else cons_body a (lex_json_string s')
  end.

(** ** Strings read back *)

(** Checked on all 256 bytes: an escaped byte is read back as that byte. *)
Lemma lex_json_escape_char a t :
  lex_json_string (json_escape_char a ++ t) = cons_body a (lex_json_string t).
Proof. destruct a as [[] [] [] [] [] [] [] []]; reflexivity. Qed.

Lemma lex_json_escape s t :
  lex_json_string (json_escape s ++ String dq t) = Some (s, t).
Proof.
  induction s as [|a s IH]; [reflexivity|]. simpl.
  rewrite <- str_app_assoc, lex_json_escape_char, IH. reflexivity.
Qed.

(** A quoted string, then anything, reads back as the string. *)
Theorem json_quote_roundtrip s rest :
  lex_json_string (tail_of (json_quote s ++ rest)) = Some (s, rest).
Proof.
  unfold json_quote. simpl. rewrite <- str_app_assoc. apply lex_json_escape.
Qed.

(** ** Values *)

Definition is_json_ws (a : ascii) : bool :=
  let n := nat_of_ascii a in ((n =? 32) || (n =? 10) || (n =? 13) || (n =? 9))%nat.

Fixpoint skip_ws (s : string) : string :=
  match s with
  | String a s' => if is_json_ws a then skip_ws s' else s
  | EmptyString => EmptyString
  end.

Fixpoint all_ws (s : string) : bool :=
  match s with
  | String a s' => is_json_ws a && all_ws s'
  | EmptyString => true
  end.

Definition head_is (c : ascii) (s : string) : bool :=
  match s with String a _ => Ascii.eqb a c | EmptyString => false end.

(** A reader of number-free JSON texts.  Each call spends one unit of
    [fuel]; [json_size] below is enough. *)
Fixpoint parse_value (fuel : nat) (s : string) {struct fuel} : option (json * string) :=
  match fuel with
  | O => None
  | S f =>
      match skip_ws s with
      | String a r =>
          if Ascii.eqb a dq then
            match lex_json_string r with Some (str, r') => Some (JStr str, r') | None => None end
          else if Ascii.eqb a "["%char then
            if head_is "]" (skip_ws r) then Some (JArr [], tail_of (skip_ws r))
            else match parse_elems f r with Some (l, r') => Some (JArr l, r') | None => None end
          else if Ascii.eqb a "{"%char then
            if head_is "}" (skip_ws r) then Some (JObj [], tail_of (skip_ws r))
            else match parse_members f r with Some (l, r') => Some (JObj l, r') | None => None end
          else if Ascii.eqb a "t"%char then
            match r with
            | String "r" (String "u" (String "e" r')) => Some (JBool true, r')
            | _ => None
            end
          else if Ascii.eqb a "f"%char then
            match r with
            | String "a" (String "l" (String "s" (String "e" r'))) => Some (JBool false, r')
            | _ => None
            end
          else None
      | EmptyString => None
      end
  end
with parse_elems (fuel : nat) (s : string) {struct fuel} : option (list json * string) :=
  match fuel with
  | O => None
  | S f =>
      match parse_value f s with
      | Some (v, r) =>
          match skip_ws r with
          | String a r' =>
              if Ascii.eqb a ","%char then
                match parse_elems f r' with Some (l, r'') => Some (v :: l, r'') | None => None end
              else if Ascii.eqb a "]"%char then Some ([v], r')
              else None
          | EmptyString => None
          end
      | None => None
      end
  end
with parse_members (fuel : nat) (s : string) {struct fuel}
  : option (list (string * json) * string) :=
  match fuel with
  | O => None
  | S f =>
      match skip_ws s with
      | String a r =>
          if Ascii.eqb a dq then
            match lex_json_string r with
            | Some (k, r1) =>
                match skip_ws r1 with
                | String ":"%char r2 =>
                    match parse_value f r2 with
                    | Some (v, r3) =>
                        match skip_ws r3 with
                        | String d r4 =>
                            if Ascii.eqb d ","%char then
                              match parse_members f r4 with
                              | Some (l, r5) => Some ((k, v) :: l, r5)
                              | None => None
                              end
                            else if Ascii.eqb d "}"%char then Some ([(k, v)], r4)
                            else None
                        | EmptyString => None
                        end
                    | None => None
                    end
                | _ => None
                end
            | None => None
            end
          else None
      | EmptyString => None
      end
  end.

Fixpoint no_num (v : json) : bool :=
  match v with
  | JStr _ => true
  | JNum _ => false
  | JBool _ => true
  | JArr l => forallb no_num l
  | JObj kvs => forallb (fun kv => no_num (snd kv)) kvs
  end.

Lemma no_num_strs l : forallb no_num (map JStr l) = true.
Proof. induction l; simpl; auto. Qed.

Fixpoint json_size (v : json) : nat :=
  match v with
  | JStr _ | JNum _ | JBool _ => 1
  | JArr l => S (list_sum (map json_size l) + length l)
  | JObj kvs => S (list_sum (map (fun kv => json_size (snd kv)) kvs) + length kvs)
  end.

Section JsonInd.
Variable P : json -> Prop.
Hypothesis HStr : forall s, P (JStr s).
Hypothesis HNum : forall n, P (JNum n).
Hypothesis HBool : forall b, P (JBool b).
Hypothesis HArr : forall l, Forall P l -> P (JArr l).
Hypothesis HObj : forall kvs, Forall (fun kv => P (snd kv)) kvs -> P (JObj kvs).

(** Induction through the nested lists of [json]. *)
Fixpoint json_ind' (v : json) : P v :=
  match v with
  | JStr s => HStr s
  | JNum n => HNum n
  | JBool b => HBool b
  | JArr l =>
      HArr l ((fix go (l : list json) : Forall P l :=
                 match l with
                 | [] => Forall_nil _
                 | x :: l' => Forall_cons _ (json_ind' x) (go l')
                 end) l)
  | JObj kvs =>
      HObj kvs ((fix go (kvs : list (string * json)) : Forall (fun kv => P (snd kv)) kvs :=
                   match kvs with
                   | [] => Forall_nil _
                   | kv :: l' => Forall_cons _ (json_ind' (snd kv)) (go l')
                   end) kvs)
  end.
End JsonInd.

(** ** Values read back *)

Lemma all_ws_app w w' : all_ws (w ++ w') = all_ws w && all_ws w'.
Proof. induction w as [|a w IH]; simpl; [reflexivity|]. rewrite IH. apply andb_assoc. Qed.

Lemma skip_ws_app w s : all_ws w = true -> skip_ws (w ++ s) = skip_ws s.
Proof.
  induction w as [|a w IH]; simpl; [reflexivity|].
  intros H. apply andb_true_iff in H as [-> H]. auto.
Qed.

Lemma parse_value_ws fuel w s : all_ws w = true -> parse_value fuel (w ++ s) = parse_value fuel s.
Proof. intros H. destruct fuel; simpl; [reflexivity|]. rewrite skip_ws_app by exact H. reflexivity. Qed.

Lemma parse_value_space fuel s : parse_value fuel (String " " s) = parse_value fuel s.
Proof. exact (parse_value_ws fuel " " s eq_refl). Qed.

Lemma json_quote_app k z : json_quote k ++ z = String dq (json_escape k ++ String dq z).
Proof. unfold json_quote. simpl. rewrite <- str_app_assoc. reflexivity. Qed.

Lemma join_cons_ne sep a l : l <> [] -> Js.join sep (a :: l) = a ++ sep ++ Js.join sep l.
Proof. destruct l; [congruence | reflexivity]. Qed.

Lemma list_sum_cons n l : list_sum (n :: l) = n + list_sum l.
Proof. reflexivity. Qed.

(** A text that opens with a quote, a bracket or a boolean literal. *)
Definition opens (s : string) : bool :=
  match s with
  | String c _ =>
      Ascii.eqb c dq || Ascii.eqb c "["%char || Ascii.eqb c "{"%char ||
      Ascii.eqb c "t"%char || Ascii.eqb c "f"%char
  | EmptyString => false
  end.

Lemma opens_app s r : opens s = true -> opens (s ++ r) = true.
Proof. destruct s; [discriminate | exact id]. Qed.

Lemma opens_skip_ws s : opens s = true -> skip_ws s = s.
Proof. destruct s as [|[[] [] [] [] [] [] [] []] s]; try discriminate; reflexivity. Qed.

Lemma opens_head_is s c : opens s = true -> c = "]"%char \/ c = "}"%char -> head_is c s = false.
Proof.
  intros H [-> | ->]; destruct s as [|[[] [] [] [] [] [] [] []] s]; try discriminate; reflexivity.
Qed.

Lemma opens_join sep a l r : opens a = true -> opens (Js.join sep (a :: l) ++ r) = true.
Proof.
  intros H. destruct l; [apply opens_app, H|].
  rewrite join_cons_ne by discriminate. rewrite <- str_app_assoc. apply opens_app, H.
Qed.

Lemma opens_join_map {A} sep (f : A -> string) x l r :
  opens (f x) = true -> opens (Js.join sep (map f (x :: l)) ++ r) = true.
Proof. apply opens_join. Qed.

Lemma opens_stringify sn ind v : no_num v = true -> opens (stringify_at sn ind v) = true.
Proof. destruct v as [s|n|[]|[|x l]|[|kv kvs]]; simpl; try discriminate; reflexivity. Qed.

#[local] Hint Resolve opens_app opens_join opens_join_map opens_stringify : core.

Section Elements.
Variable f : json -> string.
Definition reads_back (x : json) : Prop :=
  no_num x = true /\ forall fuel rest, json_size x <= fuel -> parse_value fuel (f x ++ rest) = Some (x, rest).

Lemma parse_elems_join l w w' fuel rest :
  Forall reads_back l -> l <> [] -> all_ws w = true -> all_ws w' = true ->
  list_sum (map json_size l) + length l <= fuel ->
  parse_elems fuel (w ++ Js.join ("," ++ w) (map f l) ++ w' ++ "]" ++ rest) = Some (l, rest).
Proof.
  intros Hl. revert fuel. induction Hl as [|x l [_ Hx] Hl IH]; intros fuel Hne Hw Hw' Hf;
    [congruence|].
  destruct fuel as [|fuel]; [simpl in Hf; lia|]. simpl in Hf.
  destruct l as [|y l].
  - simpl. rewrite parse_value_ws, Hx by (auto; lia). simpl.
    rewrite skip_ws_app by exact Hw'. reflexivity.
  - rewrite map_cons, join_cons_ne by discriminate.
    set (J := Js.join _ (map f (y :: l))). rewrite <- !str_app_assoc. simpl.
    rewrite parse_value_ws, Hx by (auto; lia). simpl.
    subst J. rewrite IH by (auto; simpl in *; lia || congruence). reflexivity.
Qed.

End Elements.

Section Members.
Variable f : json -> string.

Definition member (kv : string * json) : string := json_quote (fst kv) ++ ": " ++ f (snd kv).

Lemma parse_members_join kvs w w' fuel rest :
  Forall (fun kv => reads_back f (snd kv)) kvs -> kvs <> [] -> all_ws w = true -> all_ws w' = true ->
  list_sum (map (fun kv => json_size (snd kv)) kvs) + length kvs <= fuel ->
  parse_members fuel (w ++ Js.join ("," ++ w) (map member kvs) ++ w' ++ "}" ++ rest) = Some (kvs, rest).
Proof.
  intros Hl. revert fuel. induction Hl as [|[k x] l [_ Hx] Hl IH]; intros fuel Hne Hw Hw' Hf;
    [congruence|]. cbn [snd] in Hx.
  destruct fuel as [|fuel]; [simpl in Hf; lia|]. simpl in Hf.
  destruct l as [|y l].
  - simpl map. unfold member. cbn [fst snd Js.join String.concat].
    rewrite <- !str_app_assoc, json_quote_app. simpl. rewrite skip_ws_app by exact Hw. simpl.
    rewrite lex_json_escape. simpl.
    rewrite parse_value_space, Hx by lia. rewrite skip_ws_app by exact Hw'. reflexivity.
  - rewrite map_cons, join_cons_ne by discriminate.
    set (J := Js.join _ (map member (y :: l))). unfold member at 1. cbn [fst snd].
    rewrite <- !str_app_assoc, json_quote_app. simpl. rewrite skip_ws_app by exact Hw. simpl.
    rewrite lex_json_escape. simpl.
    rewrite parse_value_space, Hx by lia. simpl.
    subst J. rewrite IH by (auto; simpl in *; lia || congruence). reflexivity.
Qed.

End Members.

Lemma parse_value_arr fuel r :
  parse_value (S fuel) (String "[" r) =
  if head_is "]" (skip_ws r) then Some (JArr [], tail_of (skip_ws r))
  else match parse_elems fuel r with Some (l, r') => Some (JArr l, r') | None => None end.
Proof. reflexivity. Qed.

Lemma parse_value_obj fuel r :
  parse_value (S fuel) (String "{" r) =
  if head_is "}" (skip_ws r) then Some (JObj [], tail_of (skip_ws r))
  else match parse_members fuel r with Some (l, r') => Some (JObj l, r') | None => None end.
Proof. reflexivity. Qed.

Section Layout.
Variable sn : spec_float -> string.
Variable ind : string.

Lemma stringify_arr l rest : l <> [] ->
  stringify_at sn ind (JArr l) ++ rest =
  String "[" ((nl ++ (ind ++ "  ")) ++ Js.join ("," ++ (nl ++ (ind ++ "  ")))
                (map (stringify_at sn (ind ++ "  ")) l) ++ (nl ++ ind) ++ "]" ++ rest).
Proof. destruct l; [congruence|]. intros _. cbn [stringify_at]. autorewrite with js_rw. reflexivity. Qed.

Lemma stringify_obj kvs rest : kvs <> [] ->
  stringify_at sn ind (JObj kvs) ++ rest =
  String "{" ((nl ++ (ind ++ "  ")) ++ Js.join ("," ++ (nl ++ (ind ++ "  ")))
                (map (member (stringify_at sn (ind ++ "  "))) kvs) ++ (nl ++ ind) ++ "}" ++ rest).
Proof. destruct kvs; [congruence|]. intros _. cbn [stringify_at]. autorewrite with js_rw. reflexivity. Qed.

End Layout.

Lemma indent_ws ind : all_ws ind = true -> all_ws (nl ++ ind) = true /\ all_ws (nl ++ (ind ++ "  ")) = true.
Proof. intros H. simpl. rewrite all_ws_app, H. auto. Qed.

(** [JSON.stringify(v, null, 2)], at any indent and followed by anything,
    reads back as [v]; [json_size v] units of fuel are enough. *)
Lemma stringify_at_reads_back sn v : no_num v = true -> forall ind, all_ws ind = true ->
  forall fuel rest, json_size v <= fuel -> parse_value fuel (stringify_at sn ind v ++ rest) = Some (v, rest).
Proof.
  induction v as [s|n|b|l IH|kvs IH] using json_ind'; intros Hn ind Hind fuel rest Hf;
    simpl in Hn, Hf; destruct fuel as [|fuel]; try lia; try discriminate;
    destruct (indent_ws ind Hind) as [Hw' Hw].
  - cbn [stringify_at]. rewrite json_quote_app. simpl. rewrite lex_json_escape. reflexivity.
  - destruct b; reflexivity.
  - destruct l as [|x l]; [reflexivity|].
    rewrite stringify_arr, parse_value_arr by discriminate.
    rewrite forallb_forall in Hn. rewrite Forall_forall in IH.
    rewrite skip_ws_app, opens_skip_ws, opens_head_is by auto with datatypes.
    assert (HF : Forall (reads_back (stringify_at sn (ind ++ "  "))) (x :: l)).
    { apply Forall_forall. intros y Hy. split; [auto|].
      intros; apply IH; auto; rewrite all_ws_app, Hind; reflexivity. }
    rewrite parse_elems_join by first [discriminate | lia | auto]. reflexivity.
  - destruct kvs as [|[k x] kvs]; [reflexivity|].
    rewrite stringify_obj, parse_value_obj by discriminate.
    assert (Hm : opens (member (stringify_at sn (ind ++ "  ")) (k, x)) = true)
      by (unfold member; rewrite json_quote_app; reflexivity).
    rewrite forallb_forall in Hn. rewrite Forall_forall in IH.
    rewrite skip_ws_app, opens_skip_ws, opens_head_is by auto.
    assert (HF : Forall (fun kv => reads_back (stringify_at sn (ind ++ "  ")) (snd kv)) ((k, x) :: kvs)).
    { apply Forall_forall. intros y Hy. split; [auto|].
      intros; apply IH; auto; rewrite all_ws_app, Hind; reflexivity. }
    rewrite parse_members_join by first [discriminate | lia | auto]. reflexivity.
Qed.

(** ** [JSON.parse] *)

(** [JSON.parse] on number-free texts: one value, then only blanks.  The
    length of the text is enough fuel ([json_size_le_length]). *)
Definition parse_json (s : string) : option json :=
  match parse_value (String.length s) s with
  | Some (v, r) => if all_ws r then Some v else None
  | None => None
  end.

Lemma join_length_ge {A} sep (f : A -> string) l :
  2 <= String.length sep -> l <> [] ->
  list_sum (map (fun x => String.length (f x)) l) + 2 * length l
    <= String.length (Js.join sep (map f l)) + 2.
Proof.
  intros Hs. induction l as [|x l IH]; intros Hne; [congruence|].
  destruct l as [|y l]; [simpl; lia|].
  rewrite (map_cons f x), join_cons_ne by discriminate. autorewrite with js_rw.
  specialize (IH ltac:(discriminate)). simpl in *. lia.
Qed.

Lemma list_sum_map_le {A} (f g : A -> nat) l :
  Forall (fun x => f x <= g x) l -> list_sum (map f l) <= list_sum (map g l).
Proof. induction 1; simpl; lia. Qed.

Lemma json_quote_length k : 2 <= String.length (json_quote k).
Proof. unfold json_quote. simpl. autorewrite with js_rw. simpl. lia. Qed.

(** One unit of fuel per value and per element costs at least one byte. *)
Lemma json_size_le_length sn v ind :
  no_num v = true -> json_size v <= String.length (stringify_at sn ind v).
Proof.
  revert ind. induction v as [s|n|b|l IH|kvs IH] using json_ind'; intros ind Hn;
    simpl in Hn; try discriminate.
  - pose proof (json_quote_length s). simpl. lia.
  - destruct b; simpl; lia.
  - destruct l as [|x l]; [simpl; lia|].
    rewrite forallb_forall in Hn. rewrite Forall_forall in IH.
    pose proof (join_length_ge ("," ++ nl ++ ind ++ "  ") (stringify_at sn (ind ++ "  ")) (x :: l))
      as Hj.
    assert (Hle : list_sum (map json_size (x :: l))
                  <= list_sum (map (fun y => String.length (stringify_at sn (ind ++ "  ") y)) (x :: l))).
    { apply list_sum_map_le, Forall_forall. intros y Hy. apply IH; auto. }
    rewrite <- (str_app_nil_r (stringify_at _ _ _)), stringify_arr by discriminate.
    set (J := Js.join _ (map _ (x :: l))) in *. set (S1 := list_sum _) in Hj, Hle.
    cbn [String.length]. autorewrite with js_rw in *. simpl String.length in *.
    cbn [json_size]. specialize (Hj ltac:(lia) ltac:(discriminate)). lia.
  - destruct kvs as [|kv kvs]; [simpl; lia|].
    rewrite forallb_forall in Hn. rewrite Forall_forall in IH.
    pose proof (join_length_ge ("," ++ nl ++ ind ++ "  ") (member (stringify_at sn (ind ++ "  "))) (kv :: kvs))
      as Hj.
    assert (Hle : list_sum (map (fun y => json_size (snd y)) (kv :: kvs)) + length (kv :: kvs)
                  <= list_sum (map (fun y => String.length (member (stringify_at sn (ind ++ "  ")) y)) (kv :: kvs))).
    { assert (Hs : forall l : list (string * json),
                list_sum (map (fun y => S (json_size (snd y))) l)
                = list_sum (map (fun y => json_size (snd y)) l) + length l).
      { induction l as [|a l IHl]; simpl; lia. }
      rewrite <- Hs. apply list_sum_map_le, Forall_forall. intros y Hy. unfold member.
      autorewrite with js_rw. pose proof (json_quote_length (fst y)).
      pose proof (IH y Hy (ind ++ "  ") (Hn y Hy)). simpl. lia. }
    rewrite <- (str_app_nil_r (stringify_at _ _ _)), stringify_obj by discriminate.
    set (J := Js.join _ (map _ (kv :: kvs))) in *.
    set (S1 := list_sum (map (fun y => String.length _) _)) in Hj, Hle.
    cbn [String.length]. autorewrite with js_rw in *. simpl String.length in *.
    cbn [json_size]. specialize (Hj ltac:(lia) ltac:(discriminate)). lia.
Qed.

(** [JSON.parse(JSON.stringify(v, null, 2))] gives [v] back. *)
Theorem parse_json_stringify sn v : no_num v = true -> parse_json (stringify sn v) = Some v.
Proof.
  intros Hn. unfold parse_json, stringify.
  rewrite <- (str_app_nil_r (stringify_at sn "" v)) at 2.
  rewrite stringify_at_reads_back by (reflexivity || apply json_size_le_length, Hn || exact Hn).
  reflexivity.
Qed.

End Json.
