(* ===== verification/Content.v ===== *)
(** * The form record and the content derived from it

    [Form.formData] is the object [CloneModal.jsx] keeps in state (lines
    8-21) and passes to [generatePortfolio]; [Project.project] is one
    entry of its [projects] array.  The definitions below are the values
    the generator computes from it before it renders any text: the
    project array of [generateProjectsContent] (lines 290, 306-311), the
    skill tokens and meter records of [generateSkillsContent] (lines 419,
    433-437), the words of [generateHeroContent] (line 97) and the slug
    of [generatePackageJson] and of the archive name (lines 43, 163).

    A skill level is [75 + Math.random() * 20] in IEEE double precision:
    [skill_level] computes it with [SpecFloat] (53-bit mantissa, emax
    1024, round to nearest even), and the draws of [Math.random] are the
    parameter [rng] (the i-th call returns [rng i]). *)

From S2P Require Import Prelude JsString Template Json.
From Stdlib Require Import String Ascii List Bool Arith Lia ZArith DecimalString.
From Corelib Require Import SpecFloat.
Import ListNotations.
Import Template.

Module Project.
(** [{ title: '', description: '', tech: '', link: '', github: '' }]. *)
Record project : Type := mkProject {
  title : string;
  description : string;
  tech : string;
  link : string;
  github : string
}.

Definition empty : project := mkProject "" "" "" "" "".
End Project.

Module Form.
(** The modal's [formData]; [resume] is the selected file, if any. *)
Record formData : Type := mkForm {
  name : string;
  title : string;
  email : string;
  phone : string;
  location : string;
  about : string;
  github : string;
  linkedin : string;
  twitter : string;
  projects : list Project.project;
  skills : string;
  resume : option string
}.

Definition initial : formData :=
  mkForm "" "" "" "" "" "" "" "" "" [Project.empty] "" None.
End Form.

Module Content.

Local Open Scope string_scope.

(** Decimal [ToString] of a non-negative integer. *)
Definition nat_to_string (n : nat) : string :=
  NilEmpty.string_of_uint (Nat.to_uint n).

(** ** Projects ([generateProjectsContent], lines 290 and 306-311) *)

(** [formData.projects.filter(p => p.title)]. *)
Definition projects_kept (fd : Form.formData) : list Project.project :=
  filter (fun p => Js.truthy (Project.title p)) (Form.projects fd).

(** [p.tech.split(',').map(t => t.trim())]. *)
Definition tech_list (p : Project.project) : list string :=
  map Js.trim (Js.split ","%char (Project.tech p)).

Definition image_url (i : nat) : string :=
  "https://source.unsplash.com/800x600/?coding,technology&sig=" ++ nat_to_string i.

Definition project_colors : list string :=
  ["from-purple-500 to-pink-500"; "from-blue-500 to-cyan-500"; "from-green-500 to-emerald-500"].

Definition project_color (i : nat) : string := nth (i mod 3) project_colors "".

(** [{ ...p, tech, image, color }]: the spread keeps [p]'s key order and
    [tech] is overwritten in place. *)
Definition project_value (i : nat) (p : Project.project) : json :=
  JObj [("title", JStr (Project.title p));
        ("description", JStr (Project.description p));
        ("tech", JArr (map JStr (tech_list p)));
        ("link", JStr (Project.link p));
        ("github", JStr (Project.github p));
        ("image", JStr (image_url i));
        ("color", JStr (project_color i))].

Definition project_items (fd : Form.formData) : list json :=
  Js.mapi project_value (projects_kept fd).

Definition projects_value (fd : Form.formData) : json := JArr (project_items fd).

(** ** Skills ([generateSkillsContent], lines 419 and 433-437) *)

(** [formData.skills.split(',').map(s => s.trim()).filter(Boolean)]. *)
Definition skill_tokens (fd : Form.formData) : list string :=
  Js.filter_Boolean (map Js.trim (Js.split ","%char (Form.skills fd))).

Definition skill_categories : list string :=
  ["Frontend"; "Backend"; "Database"; "Tools"; "Language"; "Framework"].

Definition skill_category (i : nat) : string := nth (i mod 6) skill_categories "".

(** IEEE binary64. *)
Definition prec : Z := 53.
Definition emax : Z := 1024.
Definition f64 (z : Z) : spec_float := binary_normalize prec emax z 0 false.

(** [75 + Math.random() * 20]: the product is rounded, then the sum. *)
Definition skill_level (r : spec_float) : spec_float :=
  SFadd prec emax (f64 75) (SFmul prec emax r (f64 20)).

Section Skills.

Context (rng : nat -> spec_float).

Definition skill_value (i : nat) (s : string) : json :=
  JObj [("name", JStr s); ("level", JNum (skill_level (rng i))); ("category", JStr (skill_category i))].

(** [skills.slice(0, 6).map((skill, i) => ({ name, level, category }))]. *)
Definition skill_items (fd : Form.formData) : list json :=
  Js.mapi skill_value (Js.slice0 6 (skill_tokens fd)).

Definition skills_value (fd : Form.formData) : json := JArr (skill_items fd).

End Skills.

(** ** Name-derived values *)

(** [formData.name.split(' ')] (line 97). *)
Definition hero_names (fd : Form.formData) : list string := Js.split " "%char (Form.name fd).

(** [name.replace(/\s+/g, '-').toLowerCase()] (lines 43 and 163). *)
Definition slug (name : string) : string := Js.toLowerCase (Js.replace_ws "-" name).

(** ** Inputs of the spec's scenarios *)

Definition ada : Form.formData :=
  Form.mkForm "Ada Lovelace" "Engineer" "a@example.com" "" "" "Builder." "" "" ""
    [] "C++, Math" None.

(** Three projects, the middle one without a title. *)
Definition three_projects : Form.formData :=
  Form.mkForm "Ada Lovelace" "Engineer" "a@example.com" "" "" "Builder." "" "" ""
    [Project.mkProject "Engine" "Analytical" "Brass, Gears" "" "";
     Project.mkProject "" "untitled" "" "" "";
     Project.mkProject "Notes" "On the engine" "Ink" "" ""]
    "C++, Math" None.

(** The double that draws of [Math.random] may reach last: [1 - 2^-53]. *)
Definition last_draw : spec_float := S754_finite false (2 ^ 53 - 1) (-53).

Lemma project_value_no_num i p : Json.no_num (project_value i p) = true.
Proof.
  unfold project_value. simpl. rewrite Json.no_num_strs. reflexivity.
Qed.

Lemma projects_value_no_num fd : Json.no_num (projects_value fd) = true.
Proof.
  unfold projects_value, project_items, Js.mapi. cbn [Json.no_num]. generalize 0.
  induction (projects_kept fd) as [|p l IH]; intros i; [reflexivity|].
  cbn [Js.mapi_from forallb]. rewrite project_value_no_num. apply IH.
Qed.

(** ** Theorems *)

(** C6: the project array of [generateProjectsContent] is
    [formData.projects.filter(p => p.title).map((p, i) => ({ ...p, tech,
    image, color }))] field by field: one entry per project with a truthy
    title, in the order of the form; the i-th entry keeps the project's
    five fields in order, replaces [tech] by the trimmed comma-separated
    tokens, and adds the image URL ending in [sig=i] and the i-th colour
    of the three gradients, cyclically. *)
Theorem project_items_indexed fd :
  length (project_items fd) = length (filter (fun p => Js.truthy (Project.title p)) (Form.projects fd)) /\
  forall i p, nth_error (filter (fun p => Js.truthy (Project.title p)) (Form.projects fd)) i = Some p ->
    nth_error (project_items fd) i = Some (JObj
      [("title", JStr (Project.title p));
       ("description", JStr (Project.description p));
       ("tech", JArr (map (fun t => JStr (Js.trim t)) (Js.split ","%char (Project.tech p))));
       ("link", JStr (Project.link p));
       ("github", JStr (Project.github p));
       ("image", JStr ("https://source.unsplash.com/800x600/?coding,technology&sig=" ++ nat_to_string i));
       ("color", JStr (nth (i mod 3) ["from-purple-500 to-pink-500"; "from-blue-500 to-cyan-500";
                                      "from-green-500 to-emerald-500"] ""))]).
Proof.
  unfold project_items. split; [apply Js.length_mapi|].
  intros i p H. rewrite Js.nth_error_mapi. unfold projects_kept. rewrite H.
  simpl. unfold project_value, tech_list, image_url, project_color, project_colors.
  now rewrite map_map.
Qed.

Lemma project_items_indexed_witness :
  length (project_items three_projects) = 2 /\
  nth_error (project_items three_projects) 1 = Some (JObj
      [("title", JStr "Notes"); ("description", JStr "On the engine");
       ("tech", JArr [JStr "Ink"]); ("link", JStr ""); ("github", JStr "");
       ("image", JStr "https://source.unsplash.com/800x600/?coding,technology&sig=1");
       ("color", JStr "from-blue-500 to-cyan-500")]).
Proof.
  split.
  - rewrite (proj1 (project_items_indexed three_projects)). reflexivity.
  - apply (proj2 (project_items_indexed three_projects) 1 (Project.mkProject "Notes" "On the engine" "Ink" "" "")).
    reflexivity.
Defined.

(** C24: the skill tokens are non-empty, trimmed and free of commas. *)
Theorem skill_tokens_clean fd t :
  In t (skill_tokens fd) ->
  t <> "" /\ Js.starts_ws t = false /\ Js.ends_ws t = false /\ Js.has_char ","%char t = false.
Proof.
  unfold skill_tokens, Js.filter_Boolean. rewrite filter_In, in_map_iff.
  intros [[u [<- Hu]] Ht]. apply Js.truthy_true in Ht.
  destruct (Js.trim_trimmed u) as [H1 H2]. repeat split; auto.
  now apply Js.has_char_trim, (Js.split_no_sep ","%char (Form.skills fd)).
Qed.

(** C8: the skill meter has [min(6, n)] records for [n] skill tokens, the
    i-th with the i-th token and the category [i mod 6]. *)
Theorem skill_items_count rng fd :
  length (skill_items rng fd) = Nat.min 6 (length (skill_tokens fd)) /\
  forall i s, i < 6 -> nth_error (skill_tokens fd) i = Some s ->
    nth_error (skill_items rng fd) i =
      Some (JObj [("name", JStr s); ("level", JNum (skill_level (rng i)));
                  ("category", JStr (nth i skill_categories ""))]).
Proof.
  unfold skill_items, Js.slice0. split.
  - now rewrite Js.length_mapi, length_firstn.
  - intros i s Hi H. rewrite Js.nth_error_mapi, nth_error_firstn.
    destruct (Nat.ltb_spec i 6); [|lia]. rewrite H. simpl.
    unfold skill_value, skill_category. now rewrite Nat.mod_small.
Qed.

Lemma skill_items_count_witness :
  length (skill_items (fun _ => f64 0) ada) = 2 /\
  nth_error (skill_items (fun _ => f64 0) ada) 1 =
    Some (JObj [("name", JStr "Math"); ("level", JNum (skill_level (f64 0)));
                ("category", JStr "Backend")]).
Proof.
  split.
  - rewrite (proj1 (skill_items_count (fun _ => f64 0) ada)). reflexivity.
  - apply (proj2 (skill_items_count (fun _ => f64 0) ada)); [lia | reflexivity].
Defined.

Lemma skill_tokens_clean_witness :
  "Math" <> "" /\ Js.starts_ws "Math" = false /\ Js.ends_ws "Math" = false /\
  Js.has_char ","%char "Math" = false.
Proof. apply (skill_tokens_clean ada). right. left. reflexivity. Defined.

(** C23: four departures of the content transformer from the spec, for
    every input the form accepts: a double space anywhere in the name
    makes an empty hero word (the name is split on [' '], the spec splits
    on whitespace runs); a project whose title is non-empty but blank is
    kept (the filter is [p => p.title], the spec trims first); an empty
    [tech] field, or a doubled comma in it, gives an empty tag (the tokens
    are trimmed but not filtered); and a skills input made only of commas
    and whitespace, which passes the [required] check, yields no skill. *)
Theorem content_spec_divergences fd p a b :
  (Form.name fd = (a ++ "  " ++ b)%string -> In "" (hero_names fd)) /\
  (In p (Form.projects fd) -> Project.title p <> "" -> Js.trim (Project.title p) = "" ->
   In p (projects_kept fd)) /\
  (Project.tech p = "" \/ Project.tech p = (a ++ ",," ++ b)%string -> In "" (tech_list p)) /\
  (Js.str_all (fun x => Ascii.eqb x ","%char || Js.is_ws x) (Form.skills fd) = true -> skill_tokens fd = []).
Proof.
  repeat split.
  - intros H. unfold hero_names. rewrite H. change ("  " ++ b)%string with (String " " (String " " b)).
    destruct (Js.split_double_sep " "%char a b) as [l1 [l2 [_ ->]]]. apply in_or_app. right. now left.
  - intros Hin Hne _. unfold projects_kept. apply filter_In. split; [exact Hin|]. now apply Js.truthy_true.
  - unfold tech_list. intros [-> | ->]; [now left|]. change (",," ++ b)%string with (String "," (String "," b)).
    destruct (Js.split_double_sep ","%char a b) as [l1 [l2 [_ E]]]. rewrite E, map_app.
    apply in_or_app. right. now left.
  - intros H. unfold skill_tokens, Js.filter_Boolean. apply filter_none. intros t Ht.
    apply in_map_iff in Ht as [u [<- Hu]].
    rewrite (Js.trim_all_ws u (Js.split_pieces_forall _ _ _ H u Hu)). reflexivity.
Qed.

Lemma content_spec_divergences_witness :
  In "" (hero_names (Form.mkForm "Ada  Lovelace" "" "" "" "" "" "" "" "" [] "" None)) /\
  skill_tokens (Form.mkForm "A" "B" "c@d" "" "" "E" "" "" "" [] " , ," None) = [].
Proof.
  split.
  - apply (proj1 (content_spec_divergences (Form.mkForm "Ada  Lovelace" "" "" "" "" "" "" "" "" [] "" None)
                    Project.empty "Ada" "Lovelace")). reflexivity.
  - apply (proj2 (proj2 (proj2 (content_spec_divergences
                    (Form.mkForm "A" "B" "c@d" "" "" "E" "" "" "" [] " , ," None) Project.empty "" "")))).
    reflexivity.
Defined.

(** C18: the slug lower-cases and collapses whitespace runs in either order:
    the code's order (replace, then lower) is the spec's (lower, then
    collapse). *)
Theorem slug_spec_order name : slug name = Js.replace_ws "-" (Js.toLowerCase name).
Proof. unfold slug, Js.replace_ws. now apply Js.toLowerCase_replace_ws. Qed.

(** C19: the slug has no whitespace and no upper-case letter, and slugging
    is idempotent. *)
Theorem slug_clean name :
  Js.has_ws (slug name) = false /\ Js.has_upper (slug name) = false /\ slug (slug name) = slug name.
Proof.
  assert (Hws : Js.has_ws (slug name) = false).
  { unfold slug. rewrite Js.has_ws_toLowerCase. now apply Js.replace_ws_no_ws. }
  split; [exact Hws|]. split; [apply Js.has_upper_toLowerCase|].
  unfold slug at 1. unfold Js.replace_ws. rewrite Js.replace_ws_id by exact Hws.
  unfold slug. apply Js.toLowerCase_idem.
Qed.

End Content.
