(* ===== verification/Sections.v ===== *)
(** * The parametric files

    One definition per [generate*Content] function of
    [src/src/utils/generatePortfolio.js], each returning the function's
    template literal as a [Template.template]: the text of the literal is
    transcribed into the [Definition]s named after the function (their
    comments give the source lines; a double quote is written [~] and
    decoded by [Template.q]), the slots are the values of [Content].
    [Sections.file_text] renders a template into the file's text. *)

From S2P Require Import Prelude JsString Template Json Content.
From Stdlib Require Import String Ascii List Bool Arith Lia.
From Corelib Require Import SpecFloat.
Import ListNotations.
Import Template.

Module Sections.

Local Open Scope string_scope.

(** ** Template text *)

(** Lines 47-76. *)
Definition app_1 : string := Eval vm_compute in q "import React, { useState, useEffect } from 'react';
import { AnimatePresence } from 'framer-motion';
import Hero from './components/Hero';
import About from './components/About';
import Projects from './components/Projects';
import Skills from './components/Skills';
import Contact from './components/Contact';
import Navbar from './components/Navbar';
import CustomCursor from './components/CustomCursor';
import ScrollProgress from './components/ScrollProgress';
import ThreeBackground from './components/ThreeBackground';
import './index.css';

function App() {
  const [isLoading, setIsLoading] = useState(true);

  useEffect(() => {
    setTimeout(() => setIsLoading(false), 2000);
  }, []);

  return (
    <div className=~relative min-h-screen bg-black text-white overflow-x-hidden~>
      <CustomCursor />
      <ScrollProgress />
      <ThreeBackground />
      
      <AnimatePresence>
        {isLoading ? (
          <div className=~fixed inset-0 z-50 flex items-center justify-center bg-black~>
            <div className=~text-4xl font-bold animate-pulse~>Welcome to ".

(** Lines 76-93. *)
Definition app_2 : string := Eval vm_compute in q "'s Portfolio</div>
          </div>
        ) : (
          <>
            <Navbar />
            <Hero />
            <About />
            <Projects />
            <Skills />
            <Contact />
          </>
        )}
      </AnimatePresence>
    </div>
  );
}

export default App;".

(** Lines 98-108. *)
Definition hero_1 : string := Eval vm_compute in q "import React from 'react';
import { motion } from 'framer-motion';
import { TypewriterEffect } from '@aceternity/ui';
import Spline from '@splinetool/react-spline';
import { ChevronDown } from 'lucide-react';

export default function Hero() {
  const words = [
    { text: ~Hi,~, className: ~text-white~ },
    { text: ~I'm~, className: ~text-white~ },
    ".

(** Lines 108-130. *)
Definition hero_2 : string := Eval vm_compute in q ",
  ];

  return (
    <section className=~relative min-h-screen flex items-center justify-center~>
      <div className=~absolute inset-0 z-0~>
        <Spline scene=~https://prod.spline.design/6Wq1Q7YGyM-iab9P/scene.splinecode~ />
      </div>
      
      <div className=~relative z-10 text-center px-4~>
        <motion.div
          initial={{ opacity: 0, y: 20 }}
          animate={{ opacity: 1, y: 0 }}
          transition={{ duration: 0.8 }}
        >
          <TypewriterEffect words={words} className=~text-6xl md:text-8xl font-bold mb-4~ />
          <motion.p 
            className=~text-xl md:text-2xl text-gray-300 mb-8~
            initial={{ opacity: 0 }}
            animate={{ opacity: 1 }}
            transition={{ delay: 1, duration: 0.8 }}
          >
            ".

(** Lines 130-158. *)
Definition hero_3 : string := Eval vm_compute in q "
          </motion.p>
          
          <motion.div
            initial={{ opacity: 0 }}
            animate={{ opacity: 1 }}
            transition={{ delay: 1.5, duration: 0.8 }}
            className=~flex gap-4 justify-center~
          >
            <a href=~#projects~ className=~px-8 py-3 bg-purple-600 hover:bg-purple-700 rounded-full font-semibold transition-all transform hover:scale-105~>
              View Projects
            </a>
            <a href=~#contact~ className=~px-8 py-3 border-2 border-purple-600 hover:bg-purple-600 rounded-full font-semibold transition-all transform hover:scale-105~>
              Contact Me
            </a>
          </motion.div>
        </motion.div>
      </div>
      
      <motion.div
        className=~absolute bottom-10 left-1/2 transform -translate-x-1/2~
        animate={{ y: [0, 10, 0] }}
        transition={{ repeat: Infinity, duration: 2 }}
      >
        <ChevronDown size={32} className=~text-purple-500~ />
      </motion.div>
    </section>
  );
}".

(** Lines 108-108. *)
Definition hero_word_1 : string := Eval vm_compute in q "{ text: ~".

(** Lines 108-108. *)
Definition hero_word_2 : string := Eval vm_compute in q "~, className: ~text-purple-500~ }".

(** Lines 162-163. *)
Definition pkg_1 : string := Eval vm_compute in q "{
  ~name~: ~".

(** Lines 163-196. *)
Definition pkg_2 : string := Eval vm_compute in q "-portfolio~,
  ~private~: true,
  ~version~: ~1.0.0~,
  ~type~: ~module~,
  ~scripts~: {
    ~dev~: ~vite~,
    ~build~: ~vite build~,
    ~preview~: ~vite preview~
  },
  ~dependencies~: {
    ~react~: ~^18.2.0~,
    ~react-dom~: ~^18.2.0~,
    ~three~: ~^0.160.0~,
    ~@react-three/fiber~: ~^8.15.0~,
    ~@react-three/drei~: ~^9.92.0~,
    ~framer-motion~: ~^10.16.0~,
    ~@splinetool/react-spline~: ~^2.2.6~,
    ~@aceternity/ui~: ~^0.1.0~,
    ~lucide-react~: ~^0.303.0~,
    ~clsx~: ~^2.1.0~,
    ~tailwind-merge~: ~^2.2.0~,
    ~react-intersection-observer~: ~^9.5.3~,
    ~react-parallax-tilt~: ~^1.7.175~
  },
  ~devDependencies~: {
    ~@types/react~: ~^18.2.0~,
    ~@types/react-dom~: ~^18.2.0~,
    ~@vitejs/plugin-react~: ~^4.2.0~,
    ~autoprefixer~: ~^10.4.16~,
    ~postcss~: ~^8.4.32~,
    ~tailwindcss~: ~^3.4.0~,
    ~vite~: ~^5.0.0~
  }
}".

(** Lines 201-251. *)
Definition about_1 : string := Eval vm_compute in q "import React from 'react';
import { motion } from 'framer-motion';
import { useInView } from 'react-intersection-observer';
import Tilt from 'react-parallax-tilt';
import { Code2, Palette, Rocket } from 'lucide-react';
import Spline from '@splinetool/react-spline';

export default function About() {
  const [ref, inView] = useInView({
    threshold: 0.3,
    triggerOnce: true,
  });

  const cards = [
    {
      icon: <Code2 size={40} />,
      title: ~Clean Code~,
      description: ~Writing maintainable and scalable code with best practices~
    },
    {
      icon: <Palette size={40} />,
      title: ~Creative Design~, 
      description: ~Bringing ideas to life with stunning visual experiences~
    },
    {
      icon: <Rocket size={40} />,
      title: ~Performance~,
      description: ~Optimizing for speed and exceptional user experience~
    }
  ];

  return (
    <section id=~about~ ref={ref} className=~relative py-20 px-4 md:px-8 lg:px-16~>
      <motion.div
        initial={{ opacity: 0, y: 50 }}
        animate={inView ? { opacity: 1, y: 0 } : {}}
        transition={{ duration: 0.8 }}
        className=~max-w-7xl mx-auto~
      >
        <h2 className=~text-5xl md:text-6xl font-bold text-center mb-16~>
          About <span className=~text-purple-500~>Me</span>
        </h2>
        
        <div className=~grid md:grid-cols-2 gap-12 items-center mb-16~>
          <motion.div
            initial={{ opacity: 0, x: -50 }}
            animate={inView ? { opacity: 1, x: 0 } : {}}
            transition={{ duration: 0.8, delay: 0.2 }}
          >
            <p className=~text-lg text-gray-300 leading-relaxed mb-6~>
              ".

(** Lines 251-286. *)
Definition about_2 : string := Eval vm_compute in q "
            </p>
          </motion.div>
          
          <motion.div
            initial={{ opacity: 0, x: 50 }}
            animate={inView ? { opacity: 1, x: 0 } : {}}
            transition={{ duration: 0.8, delay: 0.4 }}
            className=~relative~
          >
            <div className=~w-full h-96 bg-gradient-to-br from-purple-600 to-pink-600 rounded-2xl overflow-hidden~>
              <Spline scene=~https://prod.spline.design/VzSTJ1LN5DTJh5Cv/scene.splinecode~ />
            </div>
          </motion.div>
        </div>
        
        <div className=~grid md:grid-cols-3 gap-8~>
          {cards.map((card, index) => (
            <Tilt key={index} tiltMaxAngleX={10} tiltMaxAngleY={10}>
              <motion.div
                initial={{ opacity: 0, y: 50 }}
                animate={inView ? { opacity: 1, y: 0 } : {}}
                transition={{ duration: 0.8, delay: 0.6 + index * 0.1 }}
                className=~bg-white/5 backdrop-blur-lg border border-white/10 rounded-2xl p-8 hover:bg-white/10 transition-all~
              >
                <div className=~text-purple-500 mb-4~>{card.icon}</div>
                <h3 className=~text-2xl font-bold mb-2~>{card.title}</h3>
                <p className=~text-gray-400~>{card.description}</p>
              </motion.div>
            </Tilt>
          ))}
        </div>
      </motion.div>
    </section>
  );
}".

(** Lines 292-306. *)
Definition projects_1 : string := Eval vm_compute in q "import React, { useState } from 'react';
import { motion, AnimatePresence } from 'framer-motion';
import { useInView } from 'react-intersection-observer';
import { ExternalLink, Github, ChevronLeft, ChevronRight } from 'lucide-react';
import { BackgroundGradient } from '@aceternity/ui';

export default function Projects() {
  const [ref, inView] = useInView({
    threshold: 0.2,
    triggerOnce: true,
  });

  const [currentProject, setCurrentProject] = useState(0);

  const projects = ".

(** Lines 311-333. *)
Definition projects_2 : string := Eval vm_compute in q ";

  const nextProject = () => {
    setCurrentProject((prev) => (prev + 1) % projects.length);
  };

  const prevProject = () => {
    setCurrentProject((prev) => (prev - 1 + projects.length) % projects.length);
  };

  return (
    <section id=~projects~ ref={ref} className=~relative py-20 px-4 md:px-8 lg:px-16~>
      <motion.div
        initial={{ opacity: 0, y: 50 }}
                animate={inView ? { opacity: 1, y: 0 } : {}}
        transition={{ duration: 0.8 }}
        className=~max-w-7xl mx-auto~
      >
        <h2 className=~text-5xl md:text-6xl font-bold text-center mb-16~>
          Featured <span className=~text-purple-500~>Projects</span>
        </h2>
        
        ".

(** Lines 411-415. *)
Definition projects_3 : string := Eval vm_compute in q "
      </motion.div>
    </section>
  );
}".

(** Lines 333-411. *)
Definition projects_gallery : string := Eval vm_compute in q "
        <div className=~relative~>
          <AnimatePresence mode=~wait~>
            <motion.div
              key={currentProject}
              initial={{ opacity: 0, x: 100 }}
              animate={{ opacity: 1, x: 0 }}
              exit={{ opacity: 0, x: -100 }}
              transition={{ duration: 0.5 }}
              className=~grid md:grid-cols-2 gap-12 items-center~
            >
              <BackgroundGradient className=~rounded-2xl p-1~>
                <div className=~relative overflow-hidden rounded-2xl~>
                  <img 
                    src={projects[currentProject].image} 
                    alt={projects[currentProject].title}
                    className=~w-full h-80 object-cover~
                  />
                  <div className={`absolute inset-0 bg-gradient-to-br ${projects[currentProject].color} opacity-20`} />
                </div>
              </BackgroundGradient>
              
              <div>
                <h3 className=~text-3xl font-bold mb-4~>{projects[currentProject].title}</h3>
                <p className=~text-gray-300 mb-6~>{projects[currentProject].description}</p>
                
                <div className=~flex flex-wrap gap-2 mb-8~>
                  {projects[currentProject].tech.map((tech, index) => (
                    <span 
                      key={index}
                      className=~px-4 py-2 bg-purple-500/20 text-purple-300 rounded-full text-sm~
                    >
                      {tech}
                    </span>
                  ))}
                </div>
                
                <div className=~flex gap-4~>
                  {projects[currentProject].github && (
                    <a 
                      href={projects[currentProject].github}
                      className=~flex items-center gap-2 px-6 py-3 bg-white/10 hover:bg-white/20 rounded-full transition-all~
                    >
                      <Github size={20} />
                      Code
                    </a>
                  )}
                  {projects[currentProject].link && (
                    <a 
                      href={projects[currentProject].link}
                      className=~flex items-center gap-2 px-6 py-3 bg-purple-600 hover:bg-purple-700 rounded-full transition-all~
                    >
                      <ExternalLink size={20} />
                      Live Demo
                    </a>
                  )}
                </div>
              </div>
            </motion.div>
          </AnimatePresence>
          
          {projects.length > 1 && (
            <div className=~flex justify-center gap-4 mt-12~>
              <button 
                onClick={prevProject}
                className=~p-3 bg-white/10 hover:bg-white/20 rounded-full transition-all~
              >
                <ChevronLeft size={24} />
              </button>
              <button 
                onClick={nextProject}
                className=~p-3 bg-white/10 hover:bg-white/20 rounded-full transition-all~
              >
                <ChevronRight size={24} />
              </button>
            </div>
          )}
        </div>
        ".

(** Lines 421-433. *)
Definition skills_1 : string := Eval vm_compute in q "import React from 'react';
import { motion } from 'framer-motion';
import { useInView } from 'react-intersection-observer';
import { Canvas } from '@react-three/fiber';
import { OrbitControls, Text3D, Center } from '@react-three/drei';

export default function Skills() {
  const [ref, inView] = useInView({
    threshold: 0.2,
    triggerOnce: true,
  });

  const skills = ".

(** Lines 437-478. *)
Definition skills_2 : string := Eval vm_compute in q ";

  return (
    <section id=~skills~ ref={ref} className=~relative py-20 px-4 md:px-8 lg:px-16~>
      <motion.div
        initial={{ opacity: 0, y: 50 }}
        animate={inView ? { opacity: 1, y: 0 } : {}}
        transition={{ duration: 0.8 }}
        className=~max-w-7xl mx-auto~
      >
        <h2 className=~text-5xl md:text-6xl font-bold text-center mb-16~>
          Skills & <span className=~text-purple-500~>Expertise</span>
        </h2>
        
        <div className=~grid md:grid-cols-2 lg:grid-cols-3 gap-8 mb-16~>
          {skills.map((skill, index) => (
            <motion.div
              key={skill.name}
              initial={{ opacity: 0, scale: 0.8 }}
              animate={inView ? { opacity: 1, scale: 1 } : {}}
              transition={{ duration: 0.5, delay: index * 0.1 }}
              className=~bg-white/5 backdrop-blur-lg border border-white/10 rounded-2xl p-6~
            >
              <div className=~flex justify-between items-center mb-2~>
                <h3 className=~text-xl font-semibold~>{skill.name}</h3>
                <span className=~text-sm text-purple-400~>{skill.category}</span>
              </div>
              <div className=~relative h-3 bg-white/10 rounded-full overflow-hidden~>
                <motion.div
                  initial={{ width: 0 }}
                  animate={inView ? { width: `${skill.level}%` } : {}}
                  transition={{ duration: 1, delay: 0.5 + index * 0.1 }}
                  className=~absolute h-full bg-gradient-to-r from-purple-500 to-pink-500~
                />
              </div>
              <span className=~text-sm text-gray-400 mt-2~>{Math.round(skill.level)}%</span>
            </motion.div>
          ))}
        </div>
        
        <div className=~flex flex-wrap gap-3 justify-center~>
          ".

(** Lines 482-487. *)
Definition skills_3 : string := Eval vm_compute in q "
        </div>
      </motion.div>
    </section>
  );
}".

(** Lines 479-480. *)
Definition skill_tag_1 : string := Eval vm_compute in q "<span className=~px-4 py-2 bg-purple-500/20 text-purple-300 rounded-full text-sm~>
              ".

(** Lines 480-481. *)
Definition skill_tag_2 : string := Eval vm_compute in q "
            </span>".

(** Lines 491-512. *)
Definition contact_1 : string := Eval vm_compute in q "import React, { useState } from 'react';
import { motion } from 'framer-motion';
import { useInView } from 'react-intersection-observer';
import { Send, Mail, MapPin, Phone, Github, Linkedin, Twitter } from 'lucide-react';
import { BackgroundBeams } from '@aceternity/ui';

export default function Contact() {
  const [ref, inView] = useInView({
    threshold: 0.2,
    triggerOnce: true,
  });

  const [formData, setFormData] = useState({
    name: '',
    email: '',
    message: ''
  });

  const handleSubmit = (e) => {
    e.preventDefault();
    // Handle form submission
    const mailtoLink = `mailto:".

(** Lines 512-517. *)
Definition contact_2 : string := Eval vm_compute in q "?subject=Portfolio Contact from ${formData.name}&body=${encodeURIComponent(formData.message)}`;
    window.open(mailtoLink);
  };

  const socialLinks = [
    ".

(** Lines 517-518. *)
Definition contact_3 : string := Eval vm_compute in q "
    ".

(** Lines 518-519. *)
Definition contact_4 : string := Eval vm_compute in q "
    ".

(** Lines 519-523. *)
Definition contact_5 : string := Eval vm_compute in q "
  ].filter(Boolean);

  const contactInfo = [
    { icon: <Mail size={20} />, text: ~".

(** Lines 523-524. *)
Definition contact_6 : string := Eval vm_compute in q "~ },
    ".

(** Lines 524-525. *)
Definition contact_7 : string := Eval vm_compute in q "
    ".

(** Lines 525-631. *)
Definition contact_8 : string := Eval vm_compute in q "
  ].filter(Boolean);

  return (
    <section id=~contact~ ref={ref} className=~relative py-20 px-4 md:px-8 lg:px-16~>
      <BackgroundBeams />
      <motion.div
        initial={{ opacity: 0, y: 50 }}
        animate={inView ? { opacity: 1, y: 0 } : {}}
        transition={{ duration: 0.8 }}
        className=~max-w-7xl mx-auto relative z-10~
      >
        <h2 className=~text-5xl md:text-6xl font-bold text-center mb-16~>
          Get In <span className=~text-purple-500~>Touch</span>
        </h2>
        
        <div className=~grid md:grid-cols-2 gap-12~>
          <motion.div
            initial={{ opacity: 0, x: -50 }}
            animate={inView ? { opacity: 1, x: 0 } : {}}
            transition={{ duration: 0.8, delay: 0.2 }}
          >
            <h3 className=~text-2xl font-bold mb-6~>Let's work together</h3>
            <p className=~text-gray-300 mb-8~>
              I'm always interested in hearing about new projects and opportunities. 
                            Whether you have a question or just want to say hi, feel free to reach out!
            </p>
            
            <div className=~space-y-4 mb-8~>
              {contactInfo.map((item, index) => (
                <div key={index} className=~flex items-center gap-3 text-gray-300~>
                  <span className=~text-purple-500~>{item.icon}</span>
                  <span>{item.text}</span>
                </div>
              ))}
            </div>
            
            {socialLinks.length > 0 && (
              <div className=~flex gap-4~>
                {socialLinks.map((link, index) => (
                  <motion.a
                    key={index}
                    href={link.href}
                    whileHover={{ scale: 1.1, rotate: 5 }}
                    whileTap={{ scale: 0.95 }}
                    className=~p-3 bg-white/10 hover:bg-purple-500/20 rounded-full transition-all~
                    aria-label={link.label}
                  >
                    {link.icon}
                  </motion.a>
                ))}
              </div>
            )}
          </motion.div>
          
          <motion.form
            initial={{ opacity: 0, x: 50 }}
            animate={inView ? { opacity: 1, x: 0 } : {}}
            transition={{ duration: 0.8, delay: 0.4 }}
            onSubmit={handleSubmit}
            className=~space-y-6~
          >
            <div>
              <input
                type=~text~
                placeholder=~Your Name~
                value={formData.name}
                onChange={(e) => setFormData({ ...formData, name: e.target.value })}
                className=~w-full px-6 py-4 bg-white/5 border border-white/10 rounded-xl focus:border-purple-500 outline-none transition-all~
                required
              />
            </div>
            <div>
              <input
                type=~email~
                placeholder=~Your Email~
                value={formData.email}
                onChange={(e) => setFormData({ ...formData, email: e.target.value })}
                className=~w-full px-6 py-4 bg-white/5 border border-white/10 rounded-xl focus:border-purple-500 outline-none transition-all~
                required
              />
            </div>
            <div>
              <textarea
                placeholder=~Your Message~
                rows={6}
                value={formData.message}
                onChange={(e) => setFormData({ ...formData, message: e.target.value })}
                className=~w-full px-6 py-4 bg-white/5 border border-white/10 rounded-xl focus:border-purple-500 outline-none transition-all resize-none~
                required
              />
            </div>
            <motion.button
              type=~submit~
              whileHover={{ scale: 1.05 }}
              whileTap={{ scale: 0.95 }}
              className=~w-full px-8 py-4 bg-gradient-to-r from-purple-600 to-pink-600 hover:from-purple-700 hover:to-pink-700 rounded-xl font-semibold flex items-center justify-center gap-2 transition-all~
            >
              Send Message
              <Send size={20} />
            </motion.button>
          </motion.form>
        </div>
      </motion.div>
    </section>
  );
}".

(** Lines 517-517. *)
Definition contact_github_1 : string := Eval vm_compute in q "{ icon: <Github size={24} />, href: ~".

(** Lines 517-517. *)
Definition contact_github_2 : string := Eval vm_compute in q "~, label: ~GitHub~ },".

(** Lines 518-518. *)
Definition contact_linkedin_1 : string := Eval vm_compute in q "{ icon: <Linkedin size={24} />, href: ~".

(** Lines 518-518. *)
Definition contact_linkedin_2 : string := Eval vm_compute in q "~, label: ~LinkedIn~ },".

(** Lines 519-519. *)
Definition contact_twitter_1 : string := Eval vm_compute in q "{ icon: <Twitter size={24} />, href: ~".

(** Lines 519-519. *)
Definition contact_twitter_2 : string := Eval vm_compute in q "~, label: ~Twitter~ },".

(** Lines 524-524. *)
Definition contact_phone_1 : string := Eval vm_compute in q "{ icon: <Phone size={20} />, text: ~".

(** Lines 524-524. *)
Definition contact_phone_2 : string := Eval vm_compute in q "~ },".

(** Lines 525-525. *)
Definition contact_location_1 : string := Eval vm_compute in q "{ icon: <MapPin size={20} />, text: ~".

(** Lines 525-525. *)
Definition contact_location_2 : string := Eval vm_compute in q "~ },".

(** Lines 635-635. *)
Definition readme_1 : string := Eval vm_compute in q "# ".

(** Lines 635-687. *)
Definition readme_2 : string := Eval vm_compute in q "'s Portfolio

An interactive 3D portfolio website built with React, Three.js, and Spline.

## ðŸš€ Features

- **Interactive 3D Graphics**: Stunning visual effects with Three.js and Spline
- **Smooth Animations**: Powered by Framer Motion
- **Responsive Design**: Works perfectly on all devices
- **Modern UI Components**: Using Aceternity UI for beautiful interfaces
- **Custom Cursor**: Enhanced user experience with custom cursor effects
- **Scroll Progress**: Visual scroll progress indicator

## ðŸ› ï¸ Technologies Used

- React 18
- Three.js & React Three Fiber
- Spline for 3D scenes
- Framer Motion for animations
- Tailwind CSS for styling
- Aceternity UI components
- Vite for fast development

## ðŸ“¦ Installation

1. Clone this repository
2. Install dependencies:
   ```bash
   npm install
   ```
3. Start the development server:
   ```bash
   npm run dev
   ```

## ðŸ—ï¸ Building for Production

```bash
npm run build
```

## ðŸ“ Customization

To customize this portfolio:

1. Update personal information in components
2. Replace project data with your own
3. Modify color schemes in tailwind.config.js
4. Add your own 3D models or Spline scenes

## ðŸ“§ Contact

- Email: ".

(** Lines 687-688. *)
Definition readme_3 : string := Eval vm_compute in q "
".

(** Lines 688-689. *)
Definition readme_4 : string := Eval vm_compute in q "
".

(** Lines 689-694. *)
Definition readme_5 : string := Eval vm_compute in q "

## ðŸ“„ License

This project is open source and available under the MIT License.
".

(** Lines 688-688. *)
Definition readme_github_1 : string := Eval vm_compute in q "- GitHub: ".

(** Lines 689-689. *)
Definition readme_linkedin_1 : string := Eval vm_compute in q "- LinkedIn: ".

(** ** The generators *)

Local Open Scope list_scope.

(** [`${cond ? `l1${v}l2` : ''}`] with [cond] the truthiness of [v]. *)
Definition opt_entry (v l1 l2 : string) : template :=
  if Js.truthy v then [Lit l1; Hole v; Lit l2] else [].

(** [generateAppContent] (lines 46-94). *)
Definition generateAppContent (fd : Form.formData) : template :=
  [Lit app_1; Hole (Form.name fd); Lit app_2].

(** [`{ text: "${name}", className: "text-purple-500" }`] (line 108). *)
Definition hero_word (n : string) : template := [Lit hero_word_1; Hole n; Lit hero_word_2].

(** [.join(',\n    ')]. *)
Definition hero_sep : string := "," ++ nl ++ "    ".

(** [generateHeroContent] (lines 96-159). *)
Definition generateHeroContent (fd : Form.formData) : template :=
  Lit hero_1 :: join_t hero_sep (map hero_word (Content.hero_names fd))
    ++ [Lit hero_2; Hole (Form.title fd); Lit hero_3].

(** [generatePackageJson(formData.name)] (lines 161-197). *)
Definition generatePackageJson (name : string) : template :=
  [Lit pkg_1; Hole (Content.slug name); Lit pkg_2].

(** [generateAboutContent] (lines 200-287). *)
Definition generateAboutContent (fd : Form.formData) : template :=
  [Lit about_1; Hole (Form.about fd); Lit about_2].

(** The single-quoted string of line 411. *)
Definition projects_fallback : string :=
  Eval vm_compute in q "<p className=~text-center text-gray-400~>No projects added yet.</p>".

(** [`<span ...>${skill}</span>`] (lines 479-481). *)
Definition skill_tag (s : string) : template := [Lit skill_tag_1; Hole s; Lit skill_tag_2].

(** [.join('\n          ')]. *)
Definition skill_tag_sep : string := nl ++ "          ".

Section WithNumbers.

Context (show_number : spec_float -> string).

(** [generateProjectsContent] (lines 289-416): the gallery block when the
    filtered list is non-empty, the one-line paragraph otherwise. *)
Definition generateProjectsContent (fd : Form.formData) : template :=
  [Lit projects_1; Hole (stringify show_number (Content.projects_value fd)); Lit projects_2]
    ++ (if (0 <? length (Content.projects_kept fd))%nat then [Lit projects_gallery]
        else [Lit projects_fallback])
    ++ [Lit projects_3].

Context (rng : nat -> spec_float).

(** [generateSkillsContent] (lines 418-488): the meter records of the
    first six skills, then one tag per skill. *)
Definition generateSkillsContent (fd : Form.formData) : template :=
  [Lit skills_1; Hole (stringify show_number (Content.skills_value rng fd)); Lit skills_2]
    ++ join_t skill_tag_sep (map skill_tag (Content.skill_tokens fd))
    ++ [Lit skills_3].

End WithNumbers.

(** [generateContactContent] (lines 490-632). *)
Definition generateContactContent (fd : Form.formData) : template :=
  [Lit contact_1; Hole (Form.email fd); Lit contact_2]
    ++ opt_entry (Form.github fd) contact_github_1 contact_github_2
    ++ [Lit contact_3]
    ++ opt_entry (Form.linkedin fd) contact_linkedin_1 contact_linkedin_2
    ++ [Lit contact_4]
    ++ opt_entry (Form.twitter fd) contact_twitter_1 contact_twitter_2
    ++ [Lit contact_5; Hole (Form.email fd); Lit contact_6]
    ++ opt_entry (Form.phone fd) contact_phone_1 contact_phone_2
    ++ [Lit contact_7]
    ++ opt_entry (Form.location fd) contact_location_1 contact_location_2
    ++ [Lit contact_8].

(** [generateReadme] (lines 634-695). *)
Definition generateReadme (fd : Form.formData) : template :=
  [Lit readme_1; Hole (Form.name fd); Lit readme_2; Hole (Form.email fd); Lit readme_3]
    ++ opt_entry (Form.github fd) readme_github_1 ""
    ++ [Lit readme_4]
    ++ opt_entry (Form.linkedin fd) readme_linkedin_1 ""
    ++ [Lit readme_5].

(** ** Theorems *)

Lemma has_lit_opt_entry s v l1 l2 :
  has_lit s (opt_entry v l1 l2) = Js.truthy v && ((l1 =? s)%string || (l2 =? s)%string).
Proof. unfold opt_entry. destruct (Js.truthy v); simpl; [now rewrite orb_false_r | reflexivity]. Qed.

Lemma count_lit_tag s a b x :
  (a =? s)%string = true -> (b =? s)%string = false -> count_lit s [Lit a; Hole x; Lit b] = 1.
Proof. intros Ha Hb. unfold count_lit. simpl. now rewrite Ha, Hb. Qed.

(** C7: the projects file carries the gallery block exactly when some
    project has a truthy title, and the one-line paragraph
    [No projects added yet.] exactly when none has. *)
Theorem projects_fallback_iff show_number fd :
  (In (Lit projects_fallback) (generateProjectsContent show_number fd) <-> Content.projects_kept fd = []) /\
  (In (Lit projects_gallery) (generateProjectsContent show_number fd) <-> Content.projects_kept fd <> []).
Proof.
  rewrite <- !has_lit_In. unfold generateProjectsContent.
  generalize (stringify show_number (Content.projects_value fd)) as j.
  destruct (Content.projects_kept fd) as [|p ps]; intros j; vm_compute; intuition (try discriminate; auto).
Qed.

Lemma projects_fallback_iff_witness :
  In (Lit projects_fallback) (generateProjectsContent (fun _ => "0") Content.ada).
Proof. apply (proj1 (projects_fallback_iff (fun _ => "0") Content.ada)). reflexivity. Defined.

(** C17: the skills file has one tag per skill token, all of them, outside
    the meter (which [Content.skill_items_count] caps at six). *)
Theorem skill_tags_count show_number rng fd :
  count_lit skill_tag_1 (generateSkillsContent show_number rng fd) = length (Content.skill_tokens fd).
Proof.
  unfold generateSkillsContent.
  rewrite !count_lit_app, count_lit_join_t, map_map, (list_sum_const _ _ 1)
    by (intros; apply count_lit_tag || by_compute; by_compute).
  count_lits. lia.
Qed.

(** C9: an optional contact field yields its line of [contactInfo] or
    [socialLinks] exactly when it is non-empty. *)
Theorem contact_optional_lines fd :
  (In (Lit contact_phone_1) (generateContactContent fd) <-> Form.phone fd <> "") /\
  (In (Lit contact_location_1) (generateContactContent fd) <-> Form.location fd <> "") /\
  (In (Lit contact_github_1) (generateContactContent fd) <-> Form.github fd <> "") /\
  (In (Lit contact_linkedin_1) (generateContactContent fd) <-> Form.linkedin fd <> "") /\
  (In (Lit contact_twitter_1) (generateContactContent fd) <-> Form.twitter fd <> "").
Proof.
  rewrite <- !has_lit_In, <- !Js.truthy_true. unfold generateContactContent.
  rewrite !has_lit_app, !has_lit_opt_entry.
  generalize (Form.email fd) as e.
  generalize (Js.truthy (Form.phone fd)) as b1. generalize (Js.truthy (Form.location fd)) as b2.
  generalize (Js.truthy (Form.github fd)) as b3. generalize (Js.truthy (Form.linkedin fd)) as b4.
  generalize (Js.truthy (Form.twitter fd)) as b5.
  intros b5 b4 b3 b2 b1 e. vm_compute.
  destruct b1, b2, b3, b4, b5; intuition congruence.
Qed.

(** C21: the README never mentions the Twitter link: its text does not
    depend on the [twitter] field (the spec lists every social link). *)
Theorem readme_ignores_twitter n ti e ph lo ab gh li tw tw' pr sk re :
  generateReadme (Form.mkForm n ti e ph lo ab gh li tw pr sk re) =
  generateReadme (Form.mkForm n ti e ph lo ab gh li tw' pr sk re).
Proof. reflexivity. Qed.

(** C22: the hero has one styled word per piece of the name split on a
    single space, and the pieces joined by spaces give the name back. *)
Theorem hero_words fd :
  count_lit hero_word_1 (generateHeroContent fd) = length (Content.hero_names fd) /\
  Js.join " " (Content.hero_names fd) = Form.name fd.
Proof.
  split; [|apply Js.join_split].
  unfold generateHeroContent. rewrite count_lit_other by by_compute.
  rewrite !count_lit_app, count_lit_join_t, map_map, (list_sum_const _ _ 1)
    by (intros; apply count_lit_tag || by_compute; by_compute).
  count_lits. lia.
Qed.



End Sections.
