(* ===== verification/Static.v ===== *)
(** * The static files

    The six bodies [generatePortfolio] copies unchanged: [getNavbarComponent],
    [getCustomCursorComponent], [getScrollProgressComponent],
    [getThreeBackgroundComponent], [getCSSContent] and [getMainContent]
    (lines 697-1042 of [src/src/utils/generatePortfolio.js]), each the text
    of its template literal (a double quote is written [~]). *)

From S2P Require Import Prelude Template.
From Stdlib Require Import String.
Import Template.

Module Static.

Local Open Scope string_scope.

(** Lines 699-767. *)
Definition getNavbarComponent : string := Eval vm_compute in q "import React, { useState, useEffect } from 'react';
import { motion, AnimatePresence } from 'framer-motion';
import { Menu, X } from 'lucide-react';

export default function Navbar() {
  const [isScrolled, setIsScrolled] = useState(false);
  const [isMobileMenuOpen, setIsMobileMenuOpen] = useState(false);

  useEffect(() => {
    const handleScroll = () => {
      setIsScrolled(window.scrollY > 20);
    };
    window.addEventListener('scroll', handleScroll);
    return () => window.removeEventListener('scroll', handleScroll);
  }, []);

  const navItems = [
    { name: 'Home', href: '#home' },
    { name: 'About', href: '#about' },
    { name: 'Projects', href: '#projects' },
    { name: 'Skills', href: '#skills' },
    { name: 'Contact', href: '#contact' },
  ];

  return (
    <motion.nav
      initial={{ y: -100 }}
      animate={{ y: 0 }}
      className={`fixed top-0 left-0 right-0 z-40 transition-all duration-300 ${
        isScrolled ? 'bg-black/80 backdrop-blur-lg border-b border-white/10' : ''
      }`}
    >
      <div className=~max-w-7xl mx-auto px-4 md:px-8 lg:px-16~>
        <div className=~flex items-center justify-between h-20~>
          <motion.div
            initial={{ opacity: 0, x: -20 }}
            animate={{ opacity: 1, x: 0 }}
            className=~text-2xl font-bold bg-gradient-to-r from-purple-500 to-pink-500 bg-clip-text text-transparent~
          >
            Portfolio
          </motion.div>
          
          <div className=~hidden md:flex items-center gap-8~>
            {navItems.map((item, index) => (
              <motion.a
                key={item.name}
                href={item.href}
                initial={{ opacity: 0, y: -20 }}
                animate={{ opacity: 1, y: 0 }}
                transition={{ delay: index * 0.1 }}
                className=~text-gray-300 hover:text-white transition-colors relative group~
              >
                {item.name}
                <span className=~absolute inset-x-0 -bottom-1 h-0.5 bg-purple-500 scale-x-0 group-hover:scale-x-100 transition-transform~ />
              </motion.a>
            ))}
          </div>
          
          <button
            onClick={() => setIsMobileMenuOpen(!isMobileMenuOpen)}
            className=~md:hidden p-2~
          >
            {isMobileMenuOpen ? <X size={24} /> : <Menu size={24} />}
          </button>
        </div>
      </div>
    </motion.nav>
  );
}".

(** Lines 771-825. *)
Definition getCustomCursorComponent : string := Eval vm_compute in q "import React, { useEffect, useState } from 'react';
import { motion } from 'framer-motion';

export default function CustomCursor() {
  const [mousePosition, setMousePosition] = useState({ x: 0, y: 0 });
  const [isHovering, setIsHovering] = useState(false);

  useEffect(() => {
    const updateMousePosition = (e) => {
      setMousePosition({ x: e.clientX, y: e.clientY });
    };

    const handleMouseOver = (e) => {
      if (e.target.tagName === 'A' || e.target.tagName === 'BUTTON') {
        setIsHovering(true);
      }
    };

    const handleMouseOut = () => {
      setIsHovering(false);
    };

    window.addEventListener('mousemove', updateMousePosition);
    window.addEventListener('mouseover', handleMouseOver);
    window.addEventListener('mouseout', handleMouseOut);

    return () => {
      window.removeEventListener('mousemove', updateMousePosition);
      window.removeEventListener('mouseover', handleMouseOver);
      window.removeEventListener('mouseout', handleMouseOut);
    };
  }, []);

  return (
    <>
      <motion.div
                className=~fixed w-8 h-8 bg-purple-500 rounded-full pointer-events-none z-50 mix-blend-difference~
        animate={{
          x: mousePosition.x - 16,
          y: mousePosition.y - 16,
          scale: isHovering ? 1.5 : 1,
        }}
        transition={{ type: 'spring', stiffness: 500, damping: 28 }}
      />
      <motion.div
        className=~fixed w-2 h-2 bg-white rounded-full pointer-events-none z-50~
        animate={{
          x: mousePosition.x - 4,
          y: mousePosition.y - 4,
        }}
        transition={{ type: 'spring', stiffness: 1000, damping: 28 }}
      />
    </>
  );
}".

(** Lines 829-886. *)
Definition getScrollProgressComponent : string := Eval vm_compute in q "import React, { useState, useEffect } from 'react';
import { motion } from 'framer-motion';

export default function ScrollProgress() {
  const [scrollProgress, setScrollProgress] = useState(0);

  useEffect(() => {
    const updateScrollProgress = () => {
      const scrollHeight = document.documentElement.scrollHeight - window.innerHeight;
      const scrolled = window.scrollY;
      const progress = (scrolled / scrollHeight) * 100;
      setScrollProgress(progress);
    };

    window.addEventListener('scroll', updateScrollProgress);
    return () => window.removeEventListener('scroll', updateScrollProgress);
  }, []);

  return (
    <>
      <motion.div
        className=~fixed top-0 left-0 right-0 h-1 bg-gradient-to-r from-purple-500 to-pink-500 z-50 origin-left~
        style={{ scaleX: scrollProgress / 100 }}
      />
      <div className=~fixed bottom-10 right-10 z-40~>
        <svg className=~w-16 h-16 transform -rotate-90~>
          <circle
            cx=~32~
            cy=~32~
            r=~28~
            stroke=~rgba(255,255,255,0.1)~
            strokeWidth=~4~
            fill=~none~
          />
          <motion.circle
            cx=~32~
            cy=~32~
            r=~28~
            stroke=~url(#gradient)~
            strokeWidth=~4~
            fill=~none~
            strokeDasharray={176}
            strokeDashoffset={176 - (176 * scrollProgress) / 100}
          />
          <defs>
            <linearGradient id=~gradient~>
              <stop offset=~0%~ stopColor=~#8B5CF6~ />
              <stop offset=~100%~ stopColor=~#EC4899~ />
            </linearGradient>
          </defs>
        </svg>
        <div className=~absolute inset-0 flex items-center justify-center text-sm font-semibold~>
          {Math.round(scrollProgress)}%
        </div>
      </div>
    </>
  );
}".

(** Lines 890-933. *)
Definition getThreeBackgroundComponent : string := Eval vm_compute in q "import React, { useRef } from 'react';
import { Canvas, useFrame } from '@react-three/fiber';
import { Sphere, MeshDistortMaterial, Float, Stars } from '@react-three/drei';
import * as THREE from 'three';

function AnimatedSphere() {
  const meshRef = useRef();
  
  useFrame((state) => {
    if (meshRef.current) {
      meshRef.current.rotation.x = state.clock.elapsedTime * 0.2;
      meshRef.current.rotation.y = state.clock.elapsedTime * 0.3;
    }
  });

  return (
    <Float speed={2} rotationIntensity={2} floatIntensity={2}>
      <Sphere ref={meshRef} args={[1, 100, 100]} scale={2.5}>
        <MeshDistortMaterial
          color=~#8B5CF6~
          attach=~material~
          distort={0.5}
          speed={2}
          roughness={0.2}
          metalness={0.8}
        />
      </Sphere>
    </Float>
  );
}

export default function ThreeBackground() {
  return (
    <div className=~fixed inset-0 -z-10~>
      <Canvas camera={{ position: [0, 0, 5], fov: 75 }}>
        <ambientLight intensity={0.5} />
        <directionalLight position={[10, 10, 5]} intensity={1} />
        <pointLight position={[-10, -10, -5]} intensity={0.5} />
        <Stars radius={100} depth={50} count={5000} factor={4} saturation={0} fade />
        <AnimatedSphere />
      </Canvas>
    </div>
  );
}".

(** Lines 937-1029. *)
Definition getCSSContent : string := Eval vm_compute in q "@import url('https://fonts.googleapis.com/css2?family=Inter:wght@300;400;500;600;700;800;900&display=swap');
@tailwind base;
@tailwind components;
@tailwind utilities;

* {
  margin: 0;
  padding: 0;
  box-sizing: border-box;
}

html {
  scroll-behavior: smooth;
  cursor: none;
}

body {
  font-family: 'Inter', sans-serif;
  background: #000;
  color: #fff;
  overflow-x: hidden;
  cursor: none;
}

/* Custom scrollbar */
::-webkit-scrollbar {
  width: 8px;
}

::-webkit-scrollbar-track {
  background: rgba(255, 255, 255, 0.05);
}

::-webkit-scrollbar-thumb {
  background: linear-gradient(to bottom, #8b5cf6, #ec4899);
  border-radius: 4px;
}

::-webkit-scrollbar-thumb:hover {
  background: linear-gradient(to bottom, #7c3aed, #db2777);
}

/* Hide default cursor */
* {
  cursor: none !important;
}

/* Animations */
@keyframes float {
  0%, 100% {
    transform: translateY(0px);
  }
  50% {
    transform: translateY(-20px);
  }
}

@keyframes glow {
  0%, 100% {
    opacity: 1;
  }
  50% {
    opacity: 0.5;
  }
}

.animate-float {
  animation: float 6s ease-in-out infinite;
}

.animate-glow {
  animation: glow 2s ease-in-out infinite;
}

/* Gradient text */
.gradient-text {
  background: linear-gradient(to right, #8b5cf6, #ec4899);
  -webkit-background-clip: text;
  -webkit-text-fill-color: transparent;
  background-clip: text;
}

/* Glass effect */
.glass {
  background: rgba(255, 255, 255, 0.05);
  backdrop-filter: blur(10px);
  border: 1px solid rgba(255, 255, 255, 0.1);
}

/* Section padding */
section {
  @apply py-20 px-4 md:px-8 lg:px-16;
}".

(** Lines 1033-1042. *)
Definition getMainContent : string := Eval vm_compute in q "import React from 'react'
import ReactDOM from 'react-dom/client'
import App from './App.jsx'
import './index.css'

ReactDOM.createRoot(document.getElementById('root')).render(
  <React.StrictMode>
    <App />
  </React.StrictMode>,
)".

End Static.
