(* ===== verification/Zip.v ===== *)
(** * The JSZip archive the generator fills

    JSZip is a library the generator only calls; this file models the
    part of its API the generator uses, from JSZip 3's [object.js]:
    the archive is one map [files] from full path to entry, shared by
    every folder handle ([folder()] returns a clone whose [root] is the
    folder's path, so all handles write into the same map); [file(name,
    data)] writes [root + name] after creating its parent folders
    ([createFolders] defaults to [true]); [folder(name)] creates [root +
    name + "/"] and its parents if absent.

    [ZipApi] is the interface the generator is written against, [ZipLaws]
    what it promises; [JSZip] implements both over a [gmap]. *)

From S2P Require Import Prelude JsString.
From stdpp Require Import base gmap strings.
From Stdlib Require Import String Ascii List Lia.
Import ListNotations.

Module Zip.

Local Open Scope string_scope.

(** A directory entry, or a file with its text. *)
Inductive entry : Type :=
| Dir
| File (content : string).

#[global] Instance entry_eq_dec : EqDecision entry.
Proof. solve_decision. Defined.

(** A handle: the [root] prefix of a [JSZip] object or of a folder clone. *)
Record handle : Type := mkHandle { root : string }.

Definition top : handle := mkHandle "".

(** A path names a directory entry when it ends with a slash. *)
Fixpoint ends_with_slash (s : string) : bool :=
  match s with
  | EmptyString => false
  | String a EmptyString => Ascii.eqb a "/"%char
  | String _ s' => ends_with_slash s'
  end.

(** [forceTrailingSlash]. *)
Definition forceTrailingSlash (path : string) : string :=
  if ends_with_slash path then path else path ++ "/".

(** What the generator needs of an archive. *)
Class ZipApi (Z : Type) := {
  zip_new : Z;
  zip_folder : handle -> string -> Z -> handle * Z;
  zip_file : handle -> string -> string -> Z -> Z;
  zip_read : string -> Z -> option entry
}.

(** What the archive promises: a written file reads back, and nothing
    but the written path holds a new file. *)
Class ZipLaws (Z : Type) `{ZipApi Z} := {
  read_new p : zip_read p zip_new = None;
  read_file_same h n c z : ends_with_slash (root h ++ n) = false ->
    zip_read (root h ++ n) (zip_file h n c z) = Some (File c);
  read_file_other h n c z p : p <> root h ++ n -> ends_with_slash p = false ->
    zip_read p (zip_file h n c z) = zip_read p z;
  read_folder_other h n z p : ends_with_slash p = false ->
    zip_read p (snd (zip_folder h n z)) = zip_read p z;
  folder_root h n z : root (fst (zip_folder h n z)) = forceTrailingSlash (root h ++ n)
}.

(** ** Consequences of the laws, for the clients *)

Section Client.

Context {Arch : Type} `{ZipLaws Arch}.

Lemma read_file_eqb h n c z p :
  ends_with_slash p = false -> ends_with_slash (root h ++ n) = false ->
  zip_read p (zip_file h n c z) = if (p =? root h ++ n)%string then Some (File c) else zip_read p z.
Proof.
  intros Hp Hn. destruct (String.eqb_spec p (root h ++ n)) as [-> | Hne].
  - now apply read_file_same.
  - now apply read_file_other.
Qed.

Lemma read_folder_eq h n z h' z' p :
  zip_folder h n z = (h', z') -> ends_with_slash p = false -> zip_read p z' = zip_read p z.
Proof.
  intros E Hp. replace z' with (snd (zip_folder h n z)) by now rewrite E.
  now apply read_folder_other.
Qed.

Lemma folder_root_eq h n z h' z' :
  zip_folder h n z = (h', z') -> h' = mkHandle (forceTrailingSlash (root h ++ n)).
Proof.
  intros E. destruct h' as [r]. f_equal.
  replace r with (root (fst (zip_folder h n z))) by now rewrite E.
  apply folder_root.
Qed.

(** A sequence of [file] calls, as [(handle, name, text)] triples. *)
Definition wkey (w : handle * string * string) : string :=
  let '(h, n, _) := w in root h ++ n.

Definition run_writes (ws : list (handle * string * string)) (z : Arch) : Arch :=
  fold_left (fun z w => let '(h, n, c) := w in zip_file h n c z) ws z.

Lemma find_app {A} (f : A -> bool) (l1 l2 : list A) :
  find f (l1 ++ l2) = match find f l1 with Some x => Some x | None => find f l2 end.
Proof. induction l1 as [|x l1 IH]; simpl; [reflexivity|]. destruct (f x); auto. Qed.

(** The last write to a path wins; other paths read through. *)
Lemma read_run_writes ws z p :
  ends_with_slash p = false -> Forall (fun w => ends_with_slash (wkey w) = false) ws ->
  zip_read p (run_writes ws z) =
    match find (fun w => (wkey w =? p)%string) (rev ws) with
    | Some (_, _, c) => Some (File c)
    | None => zip_read p z
    end.
Proof.
  intros Hp. revert z. induction ws as [|[[h n] c] ws IH]; intros z Hws; [reflexivity|].
  inversion Hws as [|? ? Hw Hws']; subst. simpl. rewrite IH by assumption.
  rewrite find_app. destruct (find _ (rev ws)) as [[[? ?] ?]|]; [reflexivity|].
  simpl. rewrite read_file_eqb by assumption. rewrite String.eqb_sym.
  destruct (root h ++ n =? p)%string; reflexivity.
Qed.

End Client.

(** ** The JSZip implementation *)

Module JSZip.

Abbreviation files := (gmap string entry).

(** [path.slice(-1) === "/"] then drop it. *)
Fixpoint strip_trailing_slash (s : string) : string :=
  match s with
  | EmptyString => EmptyString
  | String a EmptyString => if Ascii.eqb a "/"%char then EmptyString else s
  | String a s' => String a (strip_trailing_slash s')
  end.

(** The prefix before the last slash, if there is a slash. *)
Fixpoint before_last_slash (s : string) : option string :=
  match s with
  | EmptyString => None
  | String a s' =>
      match before_last_slash s' with
      | Some p => Some (String a p)
      | None => if Ascii.eqb a "/"%char then Some EmptyString else None
      end
  end.

(** [parentFolder]: [lastSlash > 0 ? path.substring(0, lastSlash) : ""]. *)
Definition parentFolder (path : string) : string :=
  match before_last_slash (strip_trailing_slash path) with
  | Some p => p
  | None => EmptyString
  end.

(** [folderAdd(name, true)]: the folder and, first, its parents.  The
    recursion runs on the parent path, which is shorter; [fuel] bounds
    it and [folderAdd] gives it the length of the path. *)
Fixpoint folderAdd_fuel (fuel : nat) (name : string) (fs : files) : files :=
  let n := forceTrailingSlash name in
  match fs !! n with
  | Some _ => fs
  | None =>
      match fuel with
      | O => fs
      | S k =>
          let p := parentFolder n in
          let fs' := if Js.truthy p then folderAdd_fuel k p fs else fs in
          <[n := Dir]> fs'
      end
  end.

Definition folderAdd (name : string) (fs : files) : files :=
  folderAdd_fuel (S (String.length name)) name fs.

(** [fileAdd(name, data, { createFolders: true })]. *)
Definition fileAdd (name : string) (e : entry) (fs : files) : files :=
  let p := parentFolder name in
  let fs' := if Js.truthy p then folderAdd p fs else fs in
  <[name := e]> fs'.

#[global] Instance jszip_api : ZipApi files := {
  zip_new := ∅;
  zip_folder h n fs :=
    let name := root h ++ n in
    let fs' := folderAdd name fs in
    (mkHandle (forceTrailingSlash name), fs');
  zip_file h n c fs := fileAdd (root h ++ n) (File c) fs;
  zip_read p fs := fs !! p
}.

(** ** Lemmas *)

Lemma ends_with_slash_app_slash s : ends_with_slash (s ++ "/") = true.
Proof.
  induction s as [|a s IH]; [reflexivity|].
  simpl. destruct (s ++ "/") eqn:E; [destruct s; discriminate | exact IH].
Qed.

Lemma forceTrailingSlash_ends s : ends_with_slash (forceTrailingSlash s) = true.
Proof.
  unfold forceTrailingSlash. destruct (ends_with_slash s) eqn:E; [exact E|].
  apply ends_with_slash_app_slash.
Qed.

Lemma strip_app_slash s : strip_trailing_slash (s ++ "/") = s.
Proof.
  induction s as [|a s IH]; [reflexivity|].
  simpl. rewrite IH. destruct (s ++ "/") eqn:E; [destruct s; discriminate|]. reflexivity.
Qed.

Lemma strip_length s : String.length (strip_trailing_slash s) <= String.length s.
Proof.
  induction s as [|a s IH]; simpl; [lia|].
  destruct s as [|b s']; simpl in *; [destruct (Ascii.eqb a "/"%char); simpl; lia | lia].
Qed.

Lemma before_last_slash_length s p :
  before_last_slash s = Some p -> String.length p < String.length s.
Proof.
  revert p. induction s as [|a s IH]; simpl; intros p H; [discriminate|].
  destruct (before_last_slash s) as [p'|] eqn:E.
  - injection H as <-. simpl. specialize (IH p' eq_refl). lia.
  - destruct (Ascii.eqb a "/"%char); [injection H as <-; simpl; lia | discriminate].
Qed.

(** The parent of a folder path is shorter than the path. *)
Lemma parentFolder_shorter name :
  Js.truthy (parentFolder (forceTrailingSlash name)) = true ->
  String.length (parentFolder (forceTrailingSlash name)) < String.length name.
Proof.
  unfold parentFolder. intros Ht.
  assert (Hs : String.length (strip_trailing_slash (forceTrailingSlash name)) <= String.length name).
  { unfold forceTrailingSlash. destruct (ends_with_slash name).
    - apply strip_length.
    - rewrite strip_app_slash. lia. }
  destruct (before_last_slash _) as [p|] eqn:E; [|discriminate].
  apply before_last_slash_length in E. lia.
Qed.

(** [folderAdd] writes folder entries only. *)
Lemma folderAdd_fuel_file k name fs p :
  ends_with_slash p = false -> folderAdd_fuel k name fs !! p = fs !! p.
Proof.
  revert name fs. induction k as [|k IH]; intros name fs Hp; simpl;
    destruct (fs !! forceTrailingSlash name); try reflexivity.
  rewrite lookup_insert_ne.
  - destruct (Js.truthy _); [apply IH, Hp | reflexivity].
  - intros <-. rewrite forceTrailingSlash_ends in Hp. discriminate.
Qed.

Lemma folderAdd_file name fs p :
  ends_with_slash p = false -> folderAdd name fs !! p = fs !! p.
Proof. apply folderAdd_fuel_file. Qed.

(** After [folderAdd name], the folder entry exists. *)
Lemma folderAdd_present name fs : is_Some (folderAdd name fs !! forceTrailingSlash name).
Proof.
  unfold folderAdd. simpl. destruct (fs !! forceTrailingSlash name) eqn:E; [eauto|].
  rewrite lookup_insert_eq. eauto.
Qed.

(** ** Archives with the same paths *)

(** Two archives with the same set of paths, whatever the contents. *)
Definition same_paths (fs1 fs2 : files) : Prop := dom fs1 = dom fs2.

#[global] Instance same_paths_equiv : Equivalence same_paths.
Proof. split; unfold same_paths; [intros ?|intros ?? ?|intros ??? ??]; congruence. Qed.

Lemma same_paths_none fs1 fs2 p :
  same_paths fs1 fs2 -> fs1 !! p = None <-> fs2 !! p = None.
Proof. unfold same_paths. intros H. rewrite <- !not_elem_of_dom, H. reflexivity. Qed.

Lemma same_paths_insert p e1 e2 fs1 fs2 :
  same_paths fs1 fs2 -> same_paths (<[p := e1]> fs1) (<[p := e2]> fs2).
Proof. unfold same_paths. intros H. rewrite !dom_insert_L, H. reflexivity. Qed.

(** Which paths [folderAdd] creates depends on the paths only. *)
#[global] Instance folderAdd_fuel_proper k :
  Proper (eq ==> same_paths ==> same_paths) (folderAdd_fuel k).
Proof.
  induction k as [|k IH]; intros name ? <- fs1 fs2 H; simpl;
    pose proof (same_paths_none _ _ (forceTrailingSlash name) H) as HN;
    destruct (fs1 !! forceTrailingSlash name) eqn:E1, (fs2 !! forceTrailingSlash name) eqn:E2;
    try exact H; try (destruct HN as [HN1 HN2]; discriminate (HN2 eq_refl) || discriminate (HN1 eq_refl)).
  apply same_paths_insert. destruct (Js.truthy _); [apply IH; auto | exact H].
Qed.

#[global] Instance folderAdd_proper : Proper (eq ==> same_paths ==> same_paths) folderAdd.
Proof. intros name ? <-. apply folderAdd_fuel_proper. reflexivity. Qed.

(** Which paths [fileAdd] creates does not depend on the data written. *)
Lemma fileAdd_same_paths name e1 e2 fs1 fs2 :
  same_paths fs1 fs2 -> same_paths (fileAdd name e1 fs1) (fileAdd name e2 fs2).
Proof.
  intros H. unfold fileAdd. apply same_paths_insert.
  destruct (Js.truthy _); [now rewrite H | exact H].
Qed.

#[global] Instance jszip_laws : ZipLaws files.
Proof.
  split; simpl.
  - intros p. apply lookup_empty.
  - intros h n c z _. unfold fileAdd. apply lookup_insert_eq.
  - intros h n c z p Hne Hp. unfold fileAdd. rewrite lookup_insert_ne by congruence.
    destruct (Js.truthy _); [apply folderAdd_file, Hp | reflexivity].
  - intros h n z p Hp. apply folderAdd_file, Hp.
  - reflexivity.
Qed.

End JSZip.

End Zip.
