(* ===== verification/Crc32.v ===== *)
(** * CRC-32 as JSZip computes it

    JSZip stamps every entry of the archive with the CRC-32 of its bytes
    (reflected polynomial [0xEDB88320]).  Its [crc32] walks a 256-entry
    table built by [makeTable]: [crc = (crc >>> 8) ^ t[(crc ^ b) & 0xFF]],
    starting from [crc ^ -1] and ending with [crc ^ -1].  This file models
    that routine ([crc32]) on unsigned 32-bit values, the bit-at-a-time
    reference ([crc32_ref]), and proves them equal byte by byte
    ([crc_byte_table_ok]) by the linearity of the shift register.

    JavaScript's [^] yields a signed 32-bit value; only its low 32 bits are
    ever written ([decToHex]), which is the unsigned value used here. *)

From S2P Require Import Prelude.
From Stdlib Require Import ZArith List Lia.
Import ListNotations.

Module Crc32.

Local Open Scope Z_scope.

Definition poly : Z := 3988292384.   (* 0xEDB88320 *)
Definition mask32 : Z := 4294967295. (* 0xFFFFFFFF *)

(** One step of the shift register: [c & 1 ? 0xEDB88320 ^ (c >>> 1) : c >>> 1]. *)
Definition crc_bit (c : Z) : Z :=
  if Z.odd c then Z.lxor poly (Z.shiftr c 1) else Z.shiftr c 1.

(** [makeTable]: entry [n] is eight steps from [n]. *)
Definition table_entry (n : Z) : Z := Nat.iter 8 crc_bit n.
Definition table : list Z := map (fun n => table_entry (Z.of_nat n)) (seq 0 256).

(** The inner loop of JSZip's [crc32], one byte. *)
Definition crc_byte_table (c b : Z) : Z :=
  Z.lxor (Z.shiftr c 8) (nth (Z.to_nat (Z.land (Z.lxor c b) 255)) table 0).

(** The reference: the byte xored in, then eight steps. *)
Definition crc_byte_ref (c b : Z) : Z := Nat.iter 8 crc_bit (Z.lxor c b).

Definition crc32 (data : list Z) : Z :=
  Z.lxor (fold_left crc_byte_table data mask32) mask32.

Definition crc32_ref (data : list Z) : Z :=
  Z.lxor (fold_left crc_byte_ref data mask32) mask32.

Definition is_byte (b : Z) : bool := (0 <=? b) && (b <? 256).

(** ** Lemmas *)

Lemma lxor_odd a b : Z.odd (Z.lxor a b) = xorb (Z.odd a) (Z.odd b).
Proof. exact (Z.lxor_spec a b 0). Qed.

Lemma crc_bit_lxor a b : crc_bit (Z.lxor a b) = Z.lxor (crc_bit a) (crc_bit b).
Proof.
  unfold crc_bit. rewrite lxor_odd, Z.shiftr_lxor.
  destruct (Z.odd a), (Z.odd b); cbn [xorb]; apply Z.bits_inj'; intros n _;
    rewrite !Z.lxor_spec;
    destruct (Z.testbit poly n), (Z.testbit (Z.shiftr a 1) n), (Z.testbit (Z.shiftr b 1) n);
    reflexivity.
Qed.

Lemma iter_crc_bit_lxor k a b :
  Nat.iter k crc_bit (Z.lxor a b) = Z.lxor (Nat.iter k crc_bit a) (Nat.iter k crc_bit b).
Proof. induction k as [|k IH]; simpl; [reflexivity|]. rewrite IH. apply crc_bit_lxor. Qed.

Lemma crc_bit_double y : crc_bit (2 * y) = y.
Proof.
  unfold crc_bit. rewrite Z.odd_mul, Z.odd_2. cbn [andb].
  rewrite Z.shiftr_div_pow2 by lia. change (2 ^ 1) with 2.
  rewrite Z.mul_comm. apply Z.div_mul. lia.
Qed.

(** The high bits pass through the eight steps unchanged, shifted. *)
Lemma iter8_high h : Nat.iter 8 crc_bit (Z.shiftl h 8) = h.
Proof.
  rewrite Z.shiftl_mul_pow2 by lia.
  replace (h * 2 ^ 8) with (2 * (2 * (2 * (2 * (2 * (2 * (2 * (2 * h)))))))) by lia.
  change (Nat.iter 8 crc_bit ?x)
    with (crc_bit (crc_bit (crc_bit (crc_bit (crc_bit (crc_bit (crc_bit (crc_bit x)))))))).
  rewrite !crc_bit_double. reflexivity.
Qed.

Lemma split_low_high x : x = Z.lxor (Z.land x 255) (Z.shiftl (Z.shiftr x 8) 8).
Proof.
  apply Z.bits_inj'. intros n Hn.
  rewrite Z.lxor_spec, Z.land_spec.
  change 255 with (Z.ones 8). rewrite Z.testbit_ones by lia.
  destruct (Z.ltb_spec n 8).
  - rewrite Z.shiftl_spec_low by lia. destruct (Z.leb_spec 0 n); [|lia].
    rewrite Bool.andb_true_r, Bool.xorb_false_r. reflexivity.
  - rewrite Z.shiftl_spec, Z.shiftr_spec by lia.
    replace (n - 8 + 8) with n by lia. rewrite !Bool.andb_false_r. apply Bool.xorb_false_l.
Qed.

Lemma table_nth x : nth (Z.to_nat (Z.land x 255)) table 0 = table_entry (Z.land x 255).
Proof.
  assert (H : 0 <= Z.land x 255 < 256).
  { change 255 with (Z.ones 8). rewrite Z.land_ones by lia. apply Z.mod_pos_bound. lia. }
  unfold table. apply nth_error_nth. rewrite nth_error_map, nth_error_seq.
  destruct (Nat.ltb_spec (Z.to_nat (Z.land x 255)) 256); [|lia].
  cbn [option_map]. rewrite Nat.add_0_l, Z2Nat.id by lia. reflexivity.
Qed.

Lemma shiftr_byte b : is_byte b = true -> Z.shiftr b 8 = 0.
Proof.
  unfold is_byte. intros H. apply andb_prop in H as [H1 H2].
  apply Z.leb_le in H1. apply Z.ltb_lt in H2.
  rewrite Z.shiftr_div_pow2 by lia. apply Z.div_small. lia.
Qed.

(** JSZip's table-driven byte step equals the bit-at-a-time reference for
    every register value and every byte. *)
Lemma crc_byte_table_ok c b : is_byte b = true -> crc_byte_table c b = crc_byte_ref c b.
Proof.
  intros Hb. unfold crc_byte_table, crc_byte_ref.
  rewrite (split_low_high (Z.lxor c b)) at 2.
  rewrite iter_crc_bit_lxor, iter8_high, table_nth, Z.lxor_comm. f_equal.
  rewrite Z.shiftr_lxor, (shiftr_byte b Hb), Z.lxor_0_r. reflexivity.
Qed.

(** ** Theorems *)

(** JSZip's table-driven [crc32] computes the CRC-32 of the
    bit-at-a-time reference on every sequence of bytes. *)
Theorem crc32_table_ref data : forallb is_byte data = true -> crc32 data = crc32_ref data.
Proof.
  intros H. unfold crc32, crc32_ref. f_equal. generalize mask32.
  induction data as [|b data IH]; intros c; [reflexivity|].
  cbn [forallb] in H. apply andb_prop in H as [Hb H]. cbn [fold_left].
  rewrite crc_byte_table_ok by exact Hb. apply IH, H.
Qed.

(** The standard check value: the CRC-32 of the ASCII digits [123456789]
    is [0xCBF43926]. *)
Lemma crc32_table_ref_witness :
  crc32 [49; 50; 51; 52; 53; 54; 55; 56; 57] = crc32_ref [49; 50; 51; 52; 53; 54; 55; 56; 57] /\
  crc32_ref [49; 50; 51; 52; 53; 54; 55; 56; 57] = 3421780262.
Proof. split; [apply crc32_table_ref; reflexivity | by_compute]. Defined.

End Crc32.
