(* ===== verification/ZipFormat.v ===== *)
(** * The bytes of the archive: JSZip's STORE format

    [generatePortfolio] serializes the archive with
    [zip.generateAsync({type: 'blob'})]: JSZip's default compression is
    STORE and its default platform DOS.  The writer ([generate]) follows
    JSZip's [generateZipParts] and [generateCentralDirectoryEnd]: for each
    entry, in the order of the archive's entries, a local file header and
    the content; then one central directory record per entry; then the
    end-of-central-directory record.  Numbers are written by [decToHex]
    (little-endian, [dec & 0xff] then [dec >>> 8]), so a value too wide
    for its field wraps.  Non-ASCII names get the UTF-8 flag and the
    Info-ZIP Unicode Path extra field, as in JSZip.

    The reader ([read_zip]) is what an unzip tool does: it finds the
    end record, walks the central directory and reads each entry's local
    header and content, checking the method, the sizes, the name and the
    CRC-32.  [read_generate] proves that it gives back exactly the entries
    written, in order, as long as every field fits its width. *)

From S2P Require Import Prelude Crc32.
From Stdlib Require Import ZArith List Bool Lia.
Import ListNotations.

Module ZipFormat.

Local Open Scope Z_scope.

(** [decToHex(dec, bytes)]. *)
Fixpoint decToHex (dec : Z) (bytes : nat) : list Z :=
  match bytes with
  | O => []
  | S n => Z.land dec 255 :: decToHex (Z.shiftr (dec mod 2 ^ 32) 8) n
  end.

Definition LOCAL_FILE_HEADER : list Z := [80; 75; 3; 4].
Definition CENTRAL_FILE_HEADER : list Z := [80; 75; 1; 2].
Definition CENTRAL_DIRECTORY_END : list Z := [80; 75; 5; 6].

(** An entry as [generateZipParts] sees it: the UTF-8 bytes of its name,
    its content, whether it is a folder, and the DOS time and date JSZip
    derives from the entry's [date]. *)
Record zfile : Type := mkZFile {
  name : list Z;
  data : list Z;
  dir : bool;
  dosTime : Z;
  dosDate : Z
}.

Definition len {A} (l : list A) : Z := Z.of_nat (length l).

(** [useUTF8ForFileName]: the UTF-8 encoding is longer than the string,
    i.e. the name has a non-ASCII character. *)
Definition useUTF8 (f : zfile) : bool := existsb (fun b => 128 <=? b) (name f).

Definition extraFields (f : zfile) : list Z :=
  if useUTF8 f then
    let unicodePathExtraField := decToHex 1 1 ++ decToHex (Crc32.crc32 (name f)) 4 ++ name f in
    [117; 112] ++ decToHex (len unicodePathExtraField) 2 ++ unicodePathExtraField
  else [].

Definition bitflag (f : zfile) : Z := if useUTF8 f then 2048 else 0.

(** [dir ? 0x10 : 0], the DOS attributes being [null & 0x3F]. *)
Definition extFileAttr (f : zfile) : Z := if dir f then 16 else 0.

Definition header (f : zfile) : list Z :=
  [10; 0] ++ decToHex (bitflag f) 2 ++ [0; 0]
  ++ decToHex (dosTime f) 2 ++ decToHex (dosDate f) 2
  ++ decToHex (Crc32.crc32 (data f)) 4
  ++ decToHex (len (data f)) 4 ++ decToHex (len (data f)) 4
  ++ decToHex (len (name f)) 2 ++ decToHex (len (extraFields f)) 2.

Definition fileRecord (f : zfile) : list Z :=
  LOCAL_FILE_HEADER ++ header f ++ name f ++ extraFields f.

(** Version made by [0x0014] (DOS, 2.0); no comment; disk 0; internal
    attributes 0. *)
Definition dirRecord (f : zfile) (offset : Z) : list Z :=
  CENTRAL_FILE_HEADER ++ decToHex 20 2 ++ header f ++ decToHex 0 2 ++ [0; 0] ++ [0; 0]
  ++ decToHex (extFileAttr f) 4 ++ decToHex offset 4 ++ name f ++ extraFields f.

(** The local parts and the central directory, [offset] being the number
    of bytes already written. *)
Fixpoint write_entries (offset : Z) (fs : list zfile) : list Z * list Z :=
  match fs with
  | [] => ([], [])
  | f :: fs' =>
      let local := fileRecord f ++ data f in
      let '(locals, dirs) := write_entries (offset + len local) fs' in
      (local ++ locals, dirRecord f offset ++ dirs)
  end.

Definition dirEnd (entriesCount centralDirLength localDirLength : Z) : list Z :=
  CENTRAL_DIRECTORY_END ++ [0; 0] ++ [0; 0]
  ++ decToHex entriesCount 2 ++ decToHex entriesCount 2
  ++ decToHex centralDirLength 4 ++ decToHex localDirLength 4 ++ decToHex 0 2.

Definition generate (fs : list zfile) : list Z :=
  let '(locals, dirs) := write_entries 0 fs in
  locals ++ dirs ++ dirEnd (len fs) (len dirs) (len locals).

(** ** Reading an archive *)

Definition bind {A B} (o : option A) (k : A -> option B) : option B :=
  match o with Some a => k a | None => None end.

Declare Scope zip_scope.
Local Open Scope zip_scope.
Notation "'let?' p ':=' o 'in' k" := (bind o (fun p => k))
  (at level 10, p pattern, o at level 100, k at level 200) : zip_scope.

Fixpoint le_value (l : list Z) : Z :=
  match l with [] => 0 | b :: r => b + 256 * le_value r end.

Definition take (n : nat) (l : list Z) : option (list Z * list Z) :=
  if (n <=? length l)%nat then Some (firstn n l, skipn n l) else None.

(** A little-endian number of [n] bytes. *)
Definition rd (n : nat) (l : list Z) : option (Z * list Z) :=
  let? (p, r) := take n l in Some (le_value p, r).

Fixpoint bytes_eqb (a b : list Z) : bool :=
  match a, b with
  | [], [] => true
  | x :: a', y :: b' => (x =? y) && bytes_eqb a' b'
  | _, _ => false
  end.

Definition expect (sig l : list Z) : option (list Z) :=
  let? (p, r) := take (length sig) l in if bytes_eqb p sig then Some r else None.

Record cd_entry : Type := mkCd {
  cd_name : list Z;
  cd_crc : Z;
  cd_size : Z;
  cd_offset : Z
}.

Definition read_cd_entry (l : list Z) : option (cd_entry * list Z) :=
  let? r := expect CENTRAL_FILE_HEADER l in
  let? (_, r) := rd 2 r in      (* version made by *)
  let? (_, r) := rd 2 r in      (* version needed *)
  let? (_, r) := rd 2 r in      (* flags *)
  let? (_, r) := rd 2 r in      (* method *)
  let? (_, r) := rd 2 r in      (* time *)
  let? (_, r) := rd 2 r in      (* date *)
  let? (crc, r) := rd 4 r in
  let? (csize, r) := rd 4 r in
  let? (_, r) := rd 4 r in      (* uncompressed size *)
  let? (nlen, r) := rd 2 r in
  let? (xlen, r) := rd 2 r in
  let? (clen, r) := rd 2 r in
  let? (_, r) := rd 2 r in      (* disk *)
  let? (_, r) := rd 2 r in      (* internal attributes *)
  let? (_, r) := rd 4 r in      (* external attributes *)
  let? (off, r) := rd 4 r in
  let? (nm, r) := take (Z.to_nat nlen) r in
  let? (_, r) := take (Z.to_nat xlen) r in
  let? (_, r) := take (Z.to_nat clen) r in
  Some (mkCd nm crc csize off, r).

Fixpoint read_cd (n : nat) (l : list Z) : option (list cd_entry) :=
  match n with
  | O => Some []
  | S n' =>
      let? (e, r) := read_cd_entry l in
      let? es := read_cd n' r in
      Some (e :: es)
  end.

(** The entry a central record points to: its local header must agree
    with the record, be stored (method 0) and carry the right CRC-32. *)
Definition read_local (z : list Z) (e : cd_entry) : option (list Z * list Z) :=
  let? r := expect LOCAL_FILE_HEADER (skipn (Z.to_nat (cd_offset e)) z) in
  let? (_, r) := rd 2 r in      (* version needed *)
  let? (_, r) := rd 2 r in      (* flags *)
  let? (method, r) := rd 2 r in
  let? (_, r) := rd 2 r in      (* time *)
  let? (_, r) := rd 2 r in      (* date *)
  let? (crc, r) := rd 4 r in
  let? (csize, r) := rd 4 r in
  let? (usize, r) := rd 4 r in
  let? (nlen, r) := rd 2 r in
  let? (xlen, r) := rd 2 r in
  let? (nm, r) := take (Z.to_nat nlen) r in
  let? (_, r) := take (Z.to_nat xlen) r in
  let? (content, _) := take (Z.to_nat (cd_size e)) r in
  if (method =? 0) && (crc =? cd_crc e) && (Crc32.crc32 content =? crc)
     && (csize =? cd_size e) && (usize =? len content) && bytes_eqb nm (cd_name e)
  then Some (nm, content) else None.

Fixpoint map_option {A B} (f : A -> option B) (l : list A) : option (list B) :=
  match l with
  | [] => Some []
  | x :: l' => let? y := f x in let? ys := map_option f l' in Some (y :: ys)
  end.

(** The archive's entries, as names and contents, in directory order. *)
Definition read_zip (z : list Z) : option (list (list Z * list Z)) :=
  if (length z <? 22)%nat then None else
  let? r := expect CENTRAL_DIRECTORY_END (skipn (length z - 22) z) in
  let? (_, r) := rd 2 r in
  let? (_, r) := rd 2 r in
  let? (_, r) := rd 2 r in
  let? (count, r) := rd 2 r in
  let? (_, r) := rd 4 r in
  let? (cdoff, r) := rd 4 r in
  let? (clen, _) := rd 2 r in
  if clen =? 0 then
    let? es := read_cd (Z.to_nat count) (skipn (Z.to_nat cdoff) z) in
    map_option (read_local z) es
  else None.

(** ** Lemmas *)

(** The fields every entry must fit for the archive to be read back. *)
Definition wf_file (f : zfile) : Prop :=
  0 <= dosTime f < 2 ^ 16 /\ 0 <= dosDate f < 2 ^ 16 /\
  len (data f) < 2 ^ 32 /\ len (name f) < 2 ^ 16 /\ len (extraFields f) < 2 ^ 16.

Lemma take_app a r : take (length a) (a ++ r) = Some (a, r).
Proof.
  unfold take. rewrite length_app.
  destruct (Nat.leb_spec (length a) (length a + length r)); [|lia].
  rewrite firstn_app, skipn_app, Nat.sub_diag, firstn_all, skipn_all. simpl.
  rewrite app_nil_r. reflexivity.
Qed.

Lemma take_len a r : take (Z.to_nat (len a)) (a ++ r) = Some (a, r).
Proof. unfold len. rewrite Nat2Z.id. apply take_app. Qed.

Lemma bytes_eqb_refl a : bytes_eqb a a = true.
Proof. induction a; simpl; [reflexivity|]. rewrite Z.eqb_refl. assumption. Qed.

Lemma expect_app sig r : expect sig (sig ++ r) = Some r.
Proof. unfold expect. rewrite take_app. simpl. rewrite bytes_eqb_refl. reflexivity. Qed.

Lemma length_decToHex d k : length (decToHex d k) = k.
Proof. revert d. induction k; intros d; simpl; auto. Qed.

Lemma le_value_decToHex k d :
  0 <= d < 2 ^ 32 -> le_value (decToHex d k) = d mod 2 ^ (8 * Z.of_nat k).
Proof.
  revert d. induction k as [|k IH]; intros d Hd; [simpl; rewrite Z.mod_1_r; reflexivity|].
  cbn [decToHex le_value]. rewrite Z.mod_small with (a := d) by lia.
  rewrite Z.shiftr_div_pow2 by lia. change (2 ^ 8) with 256.
  rewrite IH by (split; [apply Z.div_pos | apply Z.div_lt_upper_bound]; lia).
  change 255 with (Z.ones 8). rewrite Z.land_ones by lia. change (2 ^ 8) with 256.
  replace (8 * Z.of_nat (S k)) with (8 + 8 * Z.of_nat k) by lia.
  rewrite Z.pow_add_r by lia. change (2 ^ 8) with 256.
  rewrite Z.rem_mul_r by (try apply Z.pow_pos_nonneg; lia). reflexivity.
Qed.

Lemma rd_decToHex k d r :
  0 <= d < 2 ^ (8 * Z.of_nat k) -> d < 2 ^ 32 -> rd k (decToHex d k ++ r) = Some (d, r).
Proof.
  intros Hd H32. unfold rd. rewrite <- (length_decToHex d k) at 1. rewrite take_app. simpl.
  rewrite le_value_decToHex, Z.mod_small by lia. reflexivity.
Qed.

Lemma bind_rd_decToHex {B} k d r (f : Z * list Z -> option B) :
  0 <= d < 2 ^ (8 * Z.of_nat k) -> d < 2 ^ 32 -> bind (rd k (decToHex d k ++ r)) f = f (d, r).
Proof. intros Hd H32. rewrite rd_decToHex by assumption. reflexivity. Qed.

Lemma lxor_range32 a b : 0 <= a < 2 ^ 32 -> 0 <= b < 2 ^ 32 -> 0 <= Z.lxor a b < 2 ^ 32.
Proof.
  intros Ha Hb. split; [apply Z.lxor_nonneg; lia|].
  destruct (Z.eq_dec (Z.lxor a b) 0) as [->|Hne]; [lia|].
  apply Z.log2_lt_pow2; [apply Z.le_neq; split; [apply Z.lxor_nonneg; lia | auto]|].
  eapply Z.le_lt_trans; [apply Z.log2_lxor; lia|].
  apply Z.max_lub_lt; (destruct (Z.eq_dec a 0), (Z.eq_dec b 0);
    [subst; simpl; lia | ..]); try (subst; simpl; lia);
    apply Z.log2_lt_pow2; lia.
Qed.

Lemma table_range i : 0 <= nth i Crc32.table 0 < 2 ^ 32.
Proof.
  assert (H : forallb (fun t => (0 <=? t) && (t <? 2 ^ 32)) Crc32.table = true) by by_compute.
  destruct (Nat.lt_ge_cases i (length Crc32.table)) as [Hi|Hi].
  - rewrite forallb_forall in H. specialize (H _ (nth_In _ 0 Hi)).
    apply andb_prop in H as [H1 H2]. lia.
  - rewrite nth_overflow by exact Hi. lia.
Qed.

Lemma crc32_range data : 0 <= Crc32.crc32 data < 2 ^ 32.
Proof.
  unfold Crc32.crc32. apply lxor_range32; [|unfold Crc32.mask32; lia].
  assert (H : forall c, 0 <= c < 2 ^ 32 -> 0 <= fold_left Crc32.crc_byte_table data c < 2 ^ 32).
  { induction data as [|b data IH]; intros c Hc; [exact Hc|]. apply IH.
    unfold Crc32.crc_byte_table. apply lxor_range32; [|apply table_range].
    rewrite Z.shiftr_div_pow2 by lia.
    split; [apply Z.div_pos | apply Z.div_lt_upper_bound]; lia. }
  apply H. unfold Crc32.mask32. lia.
Qed.

Lemma bind_expect {B} sig r (k : list Z -> option B) : bind (expect sig (sig ++ r)) k = k r.
Proof. rewrite expect_app. reflexivity. Qed.

Lemma bind_take_len {B} a r (k : list Z * list Z -> option B) :
  bind (take (Z.to_nat (len a)) (a ++ r)) k = k (a, r).
Proof. rewrite take_len. reflexivity. Qed.

Lemma bind_take_zero {B} r (k : list Z * list Z -> option B) : bind (take (Z.to_nat 0) r) k = k ([], r).
Proof. reflexivity. Qed.

Lemma bind_rd_lit {B} a b r (k : Z * list Z -> option B) :
  bind (rd 2 ([a; b] ++ r)) k = k (a + 256 * b, r).
Proof. unfold rd, take. cbn -[Z.mul Z.add]. rewrite Z.mul_0_r, Z.add_0_r. reflexivity. Qed.

Ltac bnd :=
  unfold wf_file, len, bitflag, extFileAttr in *;
  change (2 ^ (8 * Z.of_nat 2)) with 65536 in *; change (2 ^ (8 * Z.of_nat 4)) with 4294967296 in *;
  change (2 ^ 16) with 65536 in *; change (2 ^ 32) with 4294967296 in *;
  repeat match goal with |- context [if ?b then _ else _] => destruct b end; lia.

(** Consume one field of a record being read back. *)
Ltac read_field :=
  first [ rewrite bind_expect | rewrite bind_rd_decToHex by bnd | rewrite bind_rd_lit
        | rewrite bind_take_len | rewrite bind_take_zero ];
  cbv beta iota.

Lemma read_cd_entry_dirRecord f off r :
  wf_file f -> 0 <= off < 2 ^ 32 ->
  read_cd_entry (dirRecord f off ++ r)
  = Some (mkCd (name f) (Crc32.crc32 (data f)) (len (data f)) off, r).
Proof.
  intros Hf Hoff. pose proof (crc32_range (data f)).
  unfold read_cd_entry, dirRecord, header. rewrite <- !app_assoc.
  repeat read_field. reflexivity.
Qed.

(** The central directory [generate] writes, as the reader decodes it. *)
Fixpoint cd_entries (offset : Z) (fs : list zfile) : list cd_entry :=
  match fs with
  | [] => []
  | f :: fs' =>
      mkCd (name f) (Crc32.crc32 (data f)) (len (data f)) offset
        :: cd_entries (offset + len (fileRecord f ++ data f)) fs'
  end.

Lemma len_app {A} (a b : list A) : len (a ++ b) = len a + len b.
Proof. unfold len. rewrite length_app. lia. Qed.

Lemma len_nonneg {A} (a : list A) : 0 <= len a.
Proof. unfold len. lia. Qed.

Lemma read_cd_write fs off r :
  Forall wf_file fs -> 0 <= off -> off + len (fst (write_entries off fs)) < 2 ^ 32 ->
  read_cd (length fs) (snd (write_entries off fs) ++ r) = Some (cd_entries off fs).
Proof.
  intros Hfs. revert off. induction Hfs as [|f fs Hf Hfs IH]; intros off Hoff Hlen; [reflexivity|].
  cbn [write_entries] in *.
  destruct (write_entries (off + len (fileRecord f ++ data f)) fs) as [L D] eqn:E.
  cbn [fst snd length read_cd] in *. rewrite len_app in Hlen.
  pose proof (len_nonneg (fileRecord f ++ data f)). pose proof (len_nonneg L).
  rewrite <- app_assoc, read_cd_entry_dirRecord by (auto; lia). cbv beta iota delta [bind].
  specialize (IH (off + len (fileRecord f ++ data f))). rewrite E in IH. cbn [fst snd] in IH.
  rewrite IH by lia. reflexivity.
Qed.

Lemma skipn_len {A} (pre rest : list A) : skipn (Z.to_nat (len pre)) (pre ++ rest) = rest.
Proof. unfold len. rewrite Nat2Z.id, skipn_app, Nat.sub_diag, skipn_all. reflexivity. Qed.

Lemma read_local_fileRecord f pre rest :
  wf_file f ->
  read_local (pre ++ (fileRecord f ++ data f) ++ rest)
             (mkCd (name f) (Crc32.crc32 (data f)) (len (data f)) (len pre))
  = Some (name f, data f).
Proof.
  intros Hf. pose proof (crc32_range (data f)).
  unfold read_local. cbn [cd_offset cd_size cd_crc cd_name].
  rewrite skipn_len. unfold fileRecord, header. rewrite <- !app_assoc.
  repeat read_field.
  rewrite !Z.eqb_refl, bytes_eqb_refl. reflexivity.
Qed.

Lemma read_locals fs pre rest :
  Forall wf_file fs ->
  map_option (read_local (pre ++ fst (write_entries (len pre) fs) ++ rest)) (cd_entries (len pre) fs)
  = Some (map (fun f => (name f, data f)) fs).
Proof.
  intros Hfs. revert pre. induction Hfs as [|f fs Hf Hfs IH]; intros pre; [reflexivity|].
  cbn [write_entries cd_entries].
  destruct (write_entries (len pre + len (fileRecord f ++ data f)) fs) as [L D] eqn:E.
  cbn [fst map_option]. rewrite <- app_assoc, read_local_fileRecord by exact Hf.
  cbv beta iota delta [bind].
  specialize (IH (pre ++ (fileRecord f ++ data f))). rewrite len_app, E in IH. cbn [fst] in IH.
  rewrite <- app_assoc in IH. rewrite IH. reflexivity.
Qed.

Lemma length_dirEnd c d l : length (dirEnd c d l) = 22%nat.
Proof. unfold dirEnd. rewrite !length_app, !length_decToHex. reflexivity. Qed.

Lemma read_generate_wf fs :
  Forall wf_file fs -> len fs < 2 ^ 16 ->
  len (fst (write_entries 0 fs)) < 2 ^ 32 -> len (snd (write_entries 0 fs)) < 2 ^ 32 ->
  read_zip (generate fs) = Some (map (fun f => (name f, data f)) fs).
Proof.
  intros Hfs Hn HL HD. unfold generate.
  pose proof (read_cd_write fs 0 (dirEnd (len fs) (len (snd (write_entries 0 fs)))
                                    (len (fst (write_entries 0 fs)))) Hfs ltac:(lia) ltac:(lia)) as Hcd.
  pose proof (read_locals fs [] (snd (write_entries 0 fs) ++ dirEnd (len fs) (len (snd (write_entries 0 fs)))
                                  (len (fst (write_entries 0 fs)))) Hfs) as Hloc.
  cbn [len length Z.of_nat app] in Hloc.
  destruct (write_entries 0 fs) as [L D]. cbn [fst snd] in *.
  pose proof (len_nonneg L). pose proof (len_nonneg D). pose proof (len_nonneg fs).
  unfold read_zip. rewrite !length_app, length_dirEnd.
  destruct (Nat.ltb_spec (length L + (length D + 22)) 22); [lia|].
  replace (length L + (length D + 22) - 22)%nat with (length (L ++ D)) by (rewrite length_app; lia).
  rewrite app_assoc, skipn_app, Nat.sub_diag, skipn_all. cbn [app skipn].
  unfold dirEnd. rewrite <- !app_assoc. repeat read_field. cbn [Z.eqb].
  replace (rd 2 (decToHex 0 2)) with (Some (0, @nil Z)) by reflexivity.
  cbv beta iota delta [bind]. rewrite Z.eqb_refl, skipn_len.
  change (Z.to_nat (len fs)) with (Z.to_nat (Z.of_nat (length fs))). rewrite Nat2Z.id.
  unfold dirEnd in Hcd, Hloc.
  rewrite Hcd. exact Hloc.
Qed.

(** The header fields of an entry fit their 16 bits. *)
Definition fits (f : zfile) : Prop :=
  0 <= dosTime f < 2 ^ 16 /\ 0 <= dosDate f < 2 ^ 16 /\
  len (name f) < 2 ^ 16 /\ len (extraFields f) < 2 ^ 16.

Lemma data_le_locals off fs f :
  In f fs -> len (data f) <= len (fst (write_entries off fs)).
Proof.
  revert off. induction fs as [|g fs IH]; intros off Hin; [destruct Hin|].
  cbn [write_entries]. destruct (write_entries (off + len (fileRecord g ++ data g)) fs) as [L D] eqn:E.
  cbn [fst]. rewrite !len_app. pose proof (len_nonneg (fileRecord g)). pose proof (len_nonneg L).
  destruct Hin as [<- | Hin]; [lia|].
  specialize (IH (off + len (fileRecord g ++ data g)) Hin). rewrite E in IH. simpl in IH.
  pose proof (len_nonneg (data g)). lia.
Qed.

Lemma len_generate fs :
  len (generate fs) = len (fst (write_entries 0 fs)) + len (snd (write_entries 0 fs)) + 22.
Proof.
  unfold generate. destruct (write_entries 0 fs) as [L D]. cbn [fst snd].
  rewrite !len_app. unfold len at 3. rewrite length_dirEnd. lia.
Qed.

(** ** Theorems *)

(** reading the bytes JSZip writes gives back every entry, in order,
    with its exact name and content, and nothing else, as long as the
    archive has fewer than 65536 entries and stays under 4 GiB, and every
    name, extra field, DOS time and date fits its 16-bit field. *)
Theorem read_generate fs :
  Forall fits fs -> len fs < 2 ^ 16 -> len (generate fs) < 2 ^ 32 ->
  read_zip (generate fs) = Some (map (fun f => (name f, data f)) fs).
Proof.
  intros Hfs Hn Hz. rewrite len_generate in Hz.
  pose proof (len_nonneg (fst (write_entries 0 fs))). pose proof (len_nonneg (snd (write_entries 0 fs))).
  apply read_generate_wf; [|lia ..].
  apply Forall_forall. intros f Hin. rewrite Forall_forall in Hfs.
  destruct (Hfs f Hin) as (Ht & Hd & Hnm & Hx). pose proof (data_le_locals 0 fs f Hin).
  repeat split; lia.
Qed.

(** A folder, an ASCII file and a file whose name is not ASCII. *)
Definition sample : list zfile :=
  [mkZFile [115; 114; 99; 47] [] true 0 0;
   mkZFile [97; 46; 106; 115] [104; 105] false 27000 22000;
   mkZFile [99; 97; 102; 195; 169] [111; 107] false 1 2].

Lemma read_generate_witness :
  read_zip (generate sample)
  = Some [([115; 114; 99; 47], []); ([97; 46; 106; 115], [104; 105]);
          ([99; 97; 102; 195; 169], [111; 107])].
Proof.
  apply (read_generate sample);
    [repeat constructor; unfold fits; vm_compute; repeat split; try reflexivity;
     intro; discriminate | reflexivity ..].
Defined.

End ZipFormat.
