(* ===== verification/Pipeline.v ===== *)
(** * [generatePortfolio]: the archive, its name and the download

    [build_zip] is the synchronous part of [generatePortfolio] (lines
    5-39 of [src/src/utils/generatePortfolio.js]): three [folder] calls and
    fourteen [file] calls, written against the [Zip.ZipApi] interface.
    [output_files] is the spec's output mapping (path, text) of the
    fourteen files; [build_zip_refines] shows the archive holds exactly
    those files, from the [Zip.ZipLaws] alone.

    The asynchronous part (lines 42-43) is [generatePortfolio] in a small
    state-and-error monad [M] over the trace of downloads: serialization
    ([generateAsync], may fail) is a parameter, and the download ([saveAs]
    with the slugged name, which returns nothing) is appended to the
    trace. *)

From S2P Require Import Prelude JsString Template Content Sections Static Zip ZipFormat.
From stdpp Require Import base gmap strings.
From Stdlib Require Import String Ascii List Bool ZArith Lia.
From Corelib Require Import SpecFloat.
Import ListNotations.
Import Template Zip.

Module Pipeline.

Local Open Scope string_scope.

(** The archive's file name (line 43). *)
Definition archive_name (fd : Form.formData) : string :=
  Content.slug (Form.name fd) ++ "-portfolio.zip".

Section Build.

Context {Arch : Type} `{ZipApi Arch}.
Context (show_number : spec_float -> string) (rng : nat -> spec_float).

(** Lines 5-39, one [let] per statement; a folder call returns the new
    handle and the archive. *)
Definition build_zip (fd : Form.formData) : Arch :=
  let zip := zip_new in
  let (src, zip) := zip_folder top "src" zip in
  let (components, zip) := zip_folder src "components" zip in
  let (utils, zip) := zip_folder src "utils" zip in
  let appContent := render (Sections.generateAppContent fd) in
  let zip := zip_file src "App.jsx" appContent zip in
  let zip := zip_file components "Hero.jsx" (render (Sections.generateHeroContent fd)) zip in
  let zip := zip_file components "About.jsx" (render (Sections.generateAboutContent fd)) zip in
  let zip := zip_file components "Projects.jsx"
               (render (Sections.generateProjectsContent show_number fd)) zip in
  let zip := zip_file components "Skills.jsx"
               (render (Sections.generateSkillsContent show_number rng fd)) zip in
  let zip := zip_file components "Contact.jsx" (render (Sections.generateContactContent fd)) zip in
  let zip := zip_file components "Navbar.jsx" Static.getNavbarComponent zip in
  let zip := zip_file components "CustomCursor.jsx" Static.getCustomCursorComponent zip in
  let zip := zip_file components "ScrollProgress.jsx" Static.getScrollProgressComponent zip in
  let zip := zip_file components "ThreeBackground.jsx" Static.getThreeBackgroundComponent zip in
  let zip := zip_file top "package.json" (render (Sections.generatePackageJson (Form.name fd))) zip in
  let zip := zip_file top "README.md" (render (Sections.generateReadme fd)) zip in
  let zip := zip_file src "index.css" Static.getCSSContent zip in
  let zip := zip_file src "main.jsx" Static.getMainContent zip in
  zip.

(** The spec's output mapping: the fixed layout and each file's text. *)
Definition output_files (fd : Form.formData) : list (string * string) :=
  [("src/App.jsx", render (Sections.generateAppContent fd));
   ("src/components/Hero.jsx", render (Sections.generateHeroContent fd));
   ("src/components/About.jsx", render (Sections.generateAboutContent fd));
   ("src/components/Projects.jsx", render (Sections.generateProjectsContent show_number fd));
   ("src/components/Skills.jsx", render (Sections.generateSkillsContent show_number rng fd));
   ("src/components/Contact.jsx", render (Sections.generateContactContent fd));
   ("src/components/Navbar.jsx", Static.getNavbarComponent);
   ("src/components/CustomCursor.jsx", Static.getCustomCursorComponent);
   ("src/components/ScrollProgress.jsx", Static.getScrollProgressComponent);
   ("src/components/ThreeBackground.jsx", Static.getThreeBackgroundComponent);
   ("package.json", render (Sections.generatePackageJson (Form.name fd)));
   ("README.md", render (Sections.generateReadme fd));
   ("src/index.css", Static.getCSSContent);
   ("src/main.jsx", Static.getMainContent)].

End Build.

(** ** The asynchronous part: serialization and download *)

(** The only failure the code can report: [generateAsync] rejects.  The
    spec's [DeliveryError] has no counterpart, since [saveAs] returns
    nothing and reports no refusal. *)
Inductive failure : Type :=
| SerializationError.

Inductive outcome (A : Type) : Type :=
| Done (a : A)
| Failed (e : failure).

Arguments Done {A} a.
Arguments Failed {A} e.

(** A download the browser was asked to start. *)
Record download (Blob : Type) : Type := mkDownload { file_name : string; blob : Blob }.

Arguments mkDownload {Blob} file_name blob.

(** Computations that may fail and append downloads to the trace. *)
Definition M (Blob A : Type) : Type := list (download Blob) -> outcome A * list (download Blob).

Definition ret {Blob A} (a : A) : M Blob A := fun tr => (Done a, tr).

Definition bind {Blob A B} (m : M Blob A) (k : A -> M Blob B) : M Blob B :=
  fun tr => match m tr with
            | (Done a, tr') => k a tr'
            | (Failed e, tr') => (Failed e, tr')
            end.

Declare Scope pipeline_scope.
Notation "x <- m ;; k" := (bind m (fun x => k))
  (at level 100, m at next level, right associativity) : pipeline_scope.
Local Open Scope pipeline_scope.

Section Delivery.

Context {Arch : Type} `{ZipApi Arch}.
Context {Blob : Type}.
(** [zip.generateAsync({ type: 'blob' })]: [None] when serialization fails. *)
Context (generateAsync : Arch -> option Blob).
Context (show_number : spec_float -> string) (rng : nat -> spec_float).

Definition zip_generateAsync (z : Arch) : M Blob Blob :=
  fun tr => match generateAsync z with
            | Some b => (Done b, tr)
            | None => (Failed SerializationError, tr)
            end.

(** [saveAs(content, name)]: file-saver returns nothing; the call asks
    the browser for the download and the async function then resolves. *)
Definition save (b : Blob) (name : string) : M Blob unit :=
  fun tr => (Done tt, tr ++ [mkDownload name b])%list.

(** [generatePortfolio(formData)] (lines 4-44). *)
Definition generatePortfolio (fd : Form.formData) : M Blob unit :=
  let zip := build_zip show_number rng fd in
  content <- zip_generateAsync zip ;;
  save content (archive_name fd).

End Delivery.

(** ** The archive holds exactly the output files *)

Section Refinement.

Context {Arch : Type} `{ZipLaws Arch}.
Context (show_number : spec_float -> string) (rng : nat -> spec_float).

(** The fourteen [file] calls of [build_zip], with the folder handles
    they write through. *)
Definition file_writes (fd : Form.formData) : list (handle * string * string) :=
  let src := mkHandle "src/" in
  let components := mkHandle "src/components/" in
  [(src, "App.jsx", render (Sections.generateAppContent fd));
   (components, "Hero.jsx", render (Sections.generateHeroContent fd));
   (components, "About.jsx", render (Sections.generateAboutContent fd));
   (components, "Projects.jsx", render (Sections.generateProjectsContent show_number fd));
   (components, "Skills.jsx", render (Sections.generateSkillsContent show_number rng fd));
   (components, "Contact.jsx", render (Sections.generateContactContent fd));
   (components, "Navbar.jsx", Static.getNavbarComponent);
   (components, "CustomCursor.jsx", Static.getCustomCursorComponent);
   (components, "ScrollProgress.jsx", Static.getScrollProgressComponent);
   (components, "ThreeBackground.jsx", Static.getThreeBackgroundComponent);
   (top, "package.json", render (Sections.generatePackageJson (Form.name fd)));
   (top, "README.md", render (Sections.generateReadme fd));
   (src, "index.css", Static.getCSSContent);
   (src, "main.jsx", Static.getMainContent)].

Definition write_entry (w : handle * string * string) : string * string :=
  let '(h, n, c) := w in (root h ++ n, c).

(** The three [folder] calls create no file, and the handles they return
    are the [src/] and [src/components/] roots. *)
Lemma build_zip_writes fd :
  exists z0, (forall p, ends_with_slash p = false -> zip_read p z0 = None) /\
             build_zip show_number rng fd = run_writes (file_writes fd) z0.
Proof.
  unfold build_zip.
  destruct (zip_folder top "src" zip_new) as [src z1] eqn:E1.
  pose proof (folder_root_eq _ _ _ _ _ E1) as R1. simpl in R1. subst src.
  destruct (zip_folder _ "components" z1) as [comp z2] eqn:E2.
  pose proof (folder_root_eq _ _ _ _ _ E2) as R2. simpl in R2. subst comp.
  destruct (zip_folder _ "utils" z2) as [ut z3] eqn:E3.
  exists z3. split; [|reflexivity].
  intros p Hp. rewrite (read_folder_eq _ _ _ _ _ _ E3 Hp), (read_folder_eq _ _ _ _ _ _ E2 Hp),
    (read_folder_eq _ _ _ _ _ _ E1 Hp). apply read_new.
Qed.

Lemma file_writes_output fd :
  map write_entry (file_writes fd) = output_files show_number rng fd.
Proof. reflexivity. Qed.

Lemma file_writes_keys fd :
  map wkey (file_writes fd) =
  ["src/App.jsx"; "src/components/Hero.jsx"; "src/components/About.jsx";
   "src/components/Projects.jsx"; "src/components/Skills.jsx"; "src/components/Contact.jsx";
   "src/components/Navbar.jsx"; "src/components/CustomCursor.jsx";
   "src/components/ScrollProgress.jsx"; "src/components/ThreeBackground.jsx";
   "package.json"; "README.md"; "src/index.css"; "src/main.jsx"].
Proof. reflexivity. Qed.

Lemma file_writes_nodup fd : NoDup (map wkey (rev (file_writes fd))).
Proof.
  rewrite map_rev. apply NoDup_rev. rewrite file_writes_keys.
  apply str_nodupb_NoDup. by_compute.
Qed.

Lemma file_writes_not_dir fd : Forall (fun w => ends_with_slash (wkey w) = false) (file_writes fd).
Proof. repeat constructor. Qed.

(** Every output file is in the archive with its text. *)
Lemma build_zip_output fd path text :
  In (path, text) (output_files show_number rng fd) ->
  zip_read path (build_zip show_number rng fd) = Some (File text).
Proof.
  destruct (build_zip_writes fd) as [z0 [Hz0 ->]].
  rewrite <- file_writes_output. intros Hin. apply in_map_iff in Hin as [w [Hw Hin]].
  assert (Hk : wkey w = path) by (destruct w as [[h n] c]; now injection Hw).
  assert (Hd := proj1 (Forall_forall _ _) (file_writes_not_dir fd) w Hin).
  rewrite read_run_writes; [| rewrite <- Hk; exact Hd | apply file_writes_not_dir].
  rewrite <- Hk, find_key_nodup by (auto using file_writes_nodup; now apply in_rev).
  destruct w as [[h n] c]. now injection Hw as _ ->.
Qed.

(** C1: Refinement of the spec's output mapping (spec sections 3 and 6): every
    output file is in the archive with its text, and no other path holds
    a file. *)
Theorem build_zip_refines fd :
  (forall path text, In (path, text) (output_files show_number rng fd) ->
     zip_read path (build_zip show_number rng fd) = Some (File text)) /\
  (forall p, ends_with_slash p = false -> ~ In p (map fst (output_files show_number rng fd)) ->
     zip_read p (build_zip show_number rng fd) = None).
Proof.
  split; [apply build_zip_output|].
  destruct (build_zip_writes fd) as [z0 [Hz0 ->]]. rewrite <- file_writes_output.
  intros p Hp Hn. rewrite read_run_writes by auto using file_writes_not_dir.
  rewrite find_key_none; [auto|].
  rewrite map_rev. intros Hin. apply in_rev in Hin. apply Hn. rewrite map_map.
  erewrite map_ext; [exact Hin|]. intros [[h n] c]. reflexivity.
Qed.

End Refinement.

(** Related lists of writes find related writes. *)
Lemma find_Forall2 {A} (R : A -> A -> Prop) (f : A -> bool) (l1 l2 : list A) :
  Forall2 (fun x y => R x y /\ f x = f y) l1 l2 ->
  match find f l1, find f l2 with
  | Some x, Some y => R x y
  | None, None => True
  | _, _ => False
  end.
Proof.
  induction 1 as [|x y l1 l2 [Hxy Hf] _ IH]; simpl; [exact I|].
  rewrite Hf. destruct (f y); assumption.
Qed.

Section Random.

Context {Arch : Type} `{ZipLaws Arch}.
Context (show_number : spec_float -> string).

(** C16: the draws of [Math.random] reach only [src/components/Skills.jsx]:
    every other file of the archive is the same whatever they are. *)
Theorem rng_only_skills rng1 rng2 fd p :
  ends_with_slash p = false -> p <> "src/components/Skills.jsx" ->
  zip_read p (build_zip show_number rng1 fd) = zip_read p (build_zip show_number rng2 fd).
Proof.
  intros Hp Hs.
  destruct (build_zip_writes show_number rng1 fd) as [z1 [Hz1 ->]].
  destruct (build_zip_writes show_number rng2 fd) as [z2 [Hz2 ->]].
  rewrite !read_run_writes by auto using file_writes_not_dir.
  set (R := fun w1 w2 : handle * string * string =>
              wkey w1 = wkey w2 /\ (wkey w1 <> "src/components/Skills.jsx" -> w1 = w2)).
  assert (HR : Forall2 (fun x y => R x y /\ (wkey x =? p)%string = (wkey y =? p)%string)
                 (rev (file_writes show_number rng1 fd)) (rev (file_writes show_number rng2 fd))).
  { cbn [file_writes rev app]. unfold R.
    repeat constructor; intros Hne; first [reflexivity | exfalso; apply Hne; reflexivity]. }
  pose proof (find_Forall2 R _ _ _ HR) as HF.
  destruct (find _ (rev (file_writes show_number rng1 fd))) as [[[h1 n1] c1]|] eqn:E1;
  destruct (find _ (rev (file_writes show_number rng2 fd))) as [[[h2 n2] c2]|] eqn:E2;
  try contradiction.
  - destruct HF as [_ HF].
    apply find_some in E1 as [_ Hk]. apply String.eqb_eq in Hk. simpl in Hk.
    subst p. injection (HF Hs) as -> -> ->. reflexivity.
  - now rewrite Hz1, Hz2.
Qed.

End Random.

Lemma rng_only_skills_witness :
  zip_read "src/components/Hero.jsx"
    (build_zip (Arch := gmap string entry) (fun _ => "0") (fun _ => Content.f64 0) Content.ada)
  = zip_read "src/components/Hero.jsx"
    (build_zip (Arch := gmap string entry) (fun _ => "0") (fun _ => Content.last_draw) Content.ada).
Proof. apply rng_only_skills; [reflexivity | discriminate]. Defined.

Lemma build_zip_refines_witness :
  zip_read "README.md"
    (build_zip (Arch := gmap string entry) (fun _ => "80") (fun _ => Content.f64 0) Content.ada)
  = Some (File (render (Sections.generateReadme Content.ada))).
Proof.
  apply (proj1 (build_zip_refines (Arch := gmap string entry) (fun _ => "80")
                  (fun _ => Content.f64 0) Content.ada)).
  do 11 right. left. reflexivity.
Defined.

(** ** The paths of the JSZip archive *)

(** The spec's layout: three folders (the utilities folder empty) and the
    fourteen files. *)
Definition archive_paths : list string :=
  ["src/"; "src/components/"; "src/utils/";
   "src/App.jsx"; "src/components/Hero.jsx"; "src/components/About.jsx";
   "src/components/Projects.jsx"; "src/components/Skills.jsx"; "src/components/Contact.jsx";
   "src/components/Navbar.jsx"; "src/components/CustomCursor.jsx";
   "src/components/ScrollProgress.jsx"; "src/components/ThreeBackground.jsx";
   "package.json"; "README.md"; "src/index.css"; "src/main.jsx"].

(** The paths JSZip ends with do not depend on the form, the draws or
    the number printer. *)
Lemma build_zip_same_paths sn1 rng1 fd1 sn2 rng2 fd2 :
  JSZip.same_paths (build_zip (Arch := gmap string entry) sn1 rng1 fd1)
                   (build_zip (Arch := gmap string entry) sn2 rng2 fd2).
Proof.
  cbv beta iota zeta delta [build_zip zip_folder zip_file zip_new JSZip.jszip_api].
  repeat apply JSZip.fileAdd_same_paths. reflexivity.
Qed.

(** C2: the JSZip archive holds exactly the spec's layout: the [src/],
    [src/components/] and (empty) [src/utils/] folders and the fourteen
    files, nothing else. *)
Theorem build_zip_paths show_number rng fd :
  dom (build_zip (Arch := gmap string entry) show_number rng fd) = list_to_set archive_paths.
Proof.
  rewrite (build_zip_same_paths show_number rng fd (fun _ => "0") (fun _ => Content.f64 0) Form.initial).
  by_compute.
Qed.

(** ** The bytes of the archive *)

(** The UTF-8 bytes of a text (the model's strings are byte strings). *)
Definition bytes_of (s : string) : list Z :=
  map (fun a => Z.of_nat (nat_of_ascii a)) (list_ascii_of_string s).

Definition contents (e : entry) : list Z :=
  match e with File c => bytes_of c | Dir => [] end.

Definition is_dir (e : entry) : bool := match e with Dir => true | File _ => false end.

(** One entry of JSZip's [files] as [generateZipParts] sees it; [stamp]
    gives the DOS time and date JSZip derives from the entry's [date]. *)
Definition zfile_of (stamp : string -> Z * Z) (pe : string * entry) : ZipFormat.zfile :=
  ZipFormat.mkZFile (bytes_of pe.1) (contents pe.2) (is_dir pe.2) (stamp pe.1).1 (stamp pe.1).2.

(** [zip.generateAsync({type: 'blob'})] (line 42) on the archive whose
    entries JSZip lists in the order [l]. *)
Definition archive_bytes (stamp : string -> Z * Z) (l : list (string * entry)) : list Z :=
  ZipFormat.generate (map (zfile_of stamp) l).

Definition sample_archive : gmap string entry :=
  build_zip (Arch := gmap string entry) (fun _ => "0") (fun _ => Content.f64 0) Form.initial.

Lemma build_zip_dom_sample sn rng fd :
  dom (build_zip (Arch := gmap string entry) sn rng fd) = dom sample_archive.
Proof. apply (build_zip_same_paths sn rng fd). Qed.

Lemma build_zip_key sn rng fd p e :
  build_zip (Arch := gmap string entry) sn rng fd !! p = Some e -> In p archive_paths.
Proof.
  intros Hp. apply elem_of_dom_2 in Hp. rewrite build_zip_dom_sample in Hp.
  assert (Hd : dom sample_archive = list_to_set archive_paths) by by_compute.
  rewrite Hd, elem_of_list_to_set, list_elem_of_In in Hp. exact Hp.
Qed.

Lemma archive_paths_fit stamp e p :
  (0 <= (stamp p).1 < 2 ^ 16 /\ 0 <= (stamp p).2 < 2 ^ 16)%Z ->
  In p archive_paths -> ZipFormat.fits (zfile_of stamp (p, e)).
Proof.
  intros [Ht Hd] Hp. unfold ZipFormat.fits, zfile_of; cbn [ZipFormat.dosTime ZipFormat.dosDate fst snd].
  split; [exact Ht|]. split; [exact Hd|].
  assert (H : forallb (fun p => (ZipFormat.len (bytes_of p) <? 2 ^ 16)%Z
                                && negb (existsb (fun b => 128 <=? b)%Z (bytes_of p))) archive_paths = true)
    by by_compute.
  rewrite forallb_forall in H. specialize (H p Hp). apply andb_prop in H as [H1 H2].
  unfold ZipFormat.extraFields, ZipFormat.useUTF8; cbn [ZipFormat.name].
  apply negb_true_iff in H2. rewrite H2. apply Z.ltb_lt in H1. split; [exact H1 | reflexivity].
Qed.

Lemma build_zip_size sn rng fd : length (map_to_list (build_zip (Arch := gmap string entry) sn rng fd)) = 17%nat.
Proof.
  rewrite length_map_to_list, <- size_dom, build_zip_dom_sample. by_compute.
Qed.

(** The bytes [generateAsync] produces for the portfolio archive, in
    whatever order JSZip lists its entries, read back as exactly those
    entries, as long as the archive stays under 4 GiB and the entries' DOS
    dates fit 16 bits (years 1980-2107). *)
Lemma archive_bytes_reads stamp show_number rng fd l :
  l ≡ₚ map_to_list (build_zip (Arch := gmap string entry) show_number rng fd) ->
  (forall p, 0 <= (stamp p).1 < 2 ^ 16 /\ 0 <= (stamp p).2 < 2 ^ 16)%Z ->
  (ZipFormat.len (archive_bytes stamp l) < 2 ^ 32)%Z ->
  ZipFormat.read_zip (archive_bytes stamp l) = Some (map (fun pe => (bytes_of pe.1, contents pe.2)) l) /\
  (forall p c, In (p, c) (map (fun pe => (bytes_of pe.1, contents pe.2)) l) <->
     exists q e, build_zip (Arch := gmap string entry) show_number rng fd !! q = Some e /\
                 p = bytes_of q /\ c = contents e).
Proof.
  intros Hl Hstamp Hlen. split.
  - unfold archive_bytes in *. rewrite ZipFormat.read_generate, map_map; [reflexivity | | |exact Hlen].
    + apply Forall_forall. intros f Hf. apply in_map_iff in Hf as ([p e] & <- & Hin).
      apply archive_paths_fit; [apply Hstamp|].
      apply list_elem_of_In in Hin. rewrite Hl, elem_of_map_to_list in Hin.
      eapply build_zip_key; eauto.
    + unfold ZipFormat.len. rewrite length_map, (Permutation_length Hl), build_zip_size. reflexivity.
  - intros p c. rewrite in_map_iff. split.
    + intros ([q e] & Heq & Hin). injection Heq as <- <-. exists q, e.
      apply list_elem_of_In in Hin. rewrite Hl, elem_of_map_to_list in Hin. auto.
    + intros (q & e & Hq & -> & ->). exists (q, e). split; [reflexivity|].
      apply list_elem_of_In. rewrite Hl, elem_of_map_to_list. exact Hq.
Qed.



(** ** The whole pipeline with JSZip's serializer *)

Lemma zip_read_lookup p (z : gmap string entry) : zip_read p z = z !! p.
Proof. reflexivity. Qed.

(** [zip.generateAsync({ type: 'blob' })] with JSZip's defaults: the STORE
    bytes of the archive's entries, in the order [order] in which JSZip
    lists them. *)
Definition jszip_store (stamp : string -> Z * Z) (order : gmap string entry -> list (string * entry))
    (z : gmap string entry) : option (list Z) :=
  Some (archive_bytes stamp (order z)).

(** C3: end to end, [generatePortfolio] with JSZip's serializer asks for
    exactly one download, named
    [archive_name], whose bytes read back as a ZIP archive holding every
    output file at its path with its text, and nothing but the entries of
    the JSZip archive; in whatever order JSZip lists its entries, as long
    as the archive stays under 4 GiB and the DOS dates fit 16 bits. *)
Theorem delivered_archive stamp order show_number rng fd tr :
  (forall z, order z ≡ₚ map_to_list z) ->
  (forall p, 0 <= (stamp p).1 < 2 ^ 16 /\ 0 <= (stamp p).2 < 2 ^ 16)%Z ->
  (ZipFormat.len (archive_bytes stamp (order (build_zip show_number rng fd))) < 2 ^ 32)%Z ->
  exists b entries,
    generatePortfolio (jszip_store stamp order) show_number rng fd tr
      = (Done tt, tr ++ [mkDownload (archive_name fd) b])%list /\
    ZipFormat.read_zip b = Some entries /\
    (forall path text, In (path, text) (output_files show_number rng fd) ->
       In (bytes_of path, bytes_of text) entries) /\
    (forall p c, In (p, c) entries ->
       exists q e, build_zip show_number rng fd !! q = Some e /\ p = bytes_of q /\ c = contents e).
Proof.
  intros Hord Hst Hlen.
  set (l := order (build_zip show_number rng fd)) in *.
  destruct (archive_bytes_reads stamp show_number rng fd l (Hord _) Hst Hlen) as [Hr Hin].
  exists (archive_bytes stamp l), (map (fun pe => (bytes_of pe.1, contents pe.2)) l).
  split; [|split; [exact Hr | split]].
  - unfold generatePortfolio, bind, zip_generateAsync, jszip_store, save. cbv zeta. fold l.
    reflexivity.
  - intros path text Hpt. apply Hin. exists path, (File text). split; [|auto].
    pose proof (build_zip_output show_number rng fd path text Hpt) as E.
    rewrite zip_read_lookup in E. exact E.
  - intros p c H. apply Hin, H.
Qed.

Lemma delivered_archive_witness_len :
  (ZipFormat.len (archive_bytes (fun _ => (0, 33)%Z)
     (map_to_list (build_zip (Arch := gmap string entry) (fun _ => "0") (fun _ => Content.f64 0) Content.ada)))
   < 2 ^ 32)%Z.
Proof. by_compute. Qed.

Lemma delivered_archive_witness :
  exists b entries,
    generatePortfolio (jszip_store (fun _ => (0, 33)%Z) map_to_list)
      (fun _ => "0") (fun _ => Content.f64 0) Content.ada []
      = (Done tt, [mkDownload (archive_name Content.ada) b]) /\
    ZipFormat.read_zip b = Some entries.
Proof.
  destruct (delivered_archive (fun _ => (0, 33)%Z) map_to_list (fun _ => "0")
              (fun _ => Content.f64 0) Content.ada [] ltac:(reflexivity) ltac:(intros; simpl; lia)
              ltac:(by_compute)) as (b & e & H1 & H2 & _).
  exists b, e. split; [exact H1 | exact H2].
Defined.

(** the spec's examples of the archive name: lower-cased, whitespace
    runs replaced by one hyphen, other punctuation kept. *)
Theorem archive_name_examples :
  archive_name (Form.mkForm "Jane Q. Public" "" "" "" "" "" "" "" "" [] "" None)
    = "jane-q.-public-portfolio.zip" /\
  archive_name Content.ada = "ada-lovelace-portfolio.zip" /\
  archive_name (Form.mkForm " Ada
  Lovelace " "" "" "" "" "" "" "" "" [] "" None) = "-ada-lovelace--portfolio.zip".
Proof. repeat split; by_compute. Qed.

(** the package name of [package.json] is the archive name's stem: the
    same slug followed by [-portfolio]. *)
Theorem package_name_matches_archive name :
  exists rest,
    render (Sections.generatePackageJson name) =
      Sections.pkg_1 ++ Content.slug name ++ "-portfolio" ++ rest /\
    archive_name (Form.mkForm name "" "" "" "" "" "" "" "" [] "" None) =
      Content.slug name ++ "-portfolio.zip".
Proof.
  eexists. split; [|reflexivity].
  unfold Sections.generatePackageJson. simpl. rewrite str_app_nil_r. reflexivity.
Qed.

End Pipeline.
