(* ===== verification/Build.v ===== *)
(** * The generated project as a build input

    What [npm install] and [vite] read from the archive: the manifest
    [package.json] written by [generatePackageJson] (lines 161-197 of
    [src/src/utils/generatePortfolio.js]), and the import declarations of
    the fourteen files [generatePortfolio] writes (lines 5-39).

    - [Manifest] gives the object the manifest text denotes
      ([package_json]) and shows that the text is exactly
      [JSON.stringify(package_json, null, 2)] whenever the name's slug
      needs no JSON escape, so [JSON.parse] reads it back; a slug with a
      double quote breaks the text or changes its keys.
    - [Imports] reads the import declarations of each JavaScript module
      (the block of lines before the first blank line, one declaration
      per line, the specifier between single quotes), resolves relative
      specifiers the way Vite does (the path itself, then the path with
      each of Vite's default extensions) and bare ones to their package,
      and shows that every import of the generated project resolves: to a
      file of the archive, or to a package the manifest depends on. *)

From S2P Require Import Prelude JsString Template Json Content Sections Static Pipeline.
From Stdlib Require Import String Ascii List Bool Arith ZArith Lia.
From Corelib Require Import SpecFloat.
Import ListNotations.
Import Template.

Module Manifest.

Local Open Scope string_scope.

(** The members of lines 167-171, 172-186 and 187-195. *)
Definition scripts : list (string * string) :=
  [("dev", "vite"); ("build", "vite build"); ("preview", "vite preview")].

Definition dependencies : list (string * string) :=
  [("react", "^18.2.0"); ("react-dom", "^18.2.0"); ("three", "^0.160.0");
   ("@react-three/fiber", "^8.15.0"); ("@react-three/drei", "^9.92.0");
   ("framer-motion", "^10.16.0"); ("@splinetool/react-spline", "^2.2.6");
   ("@aceternity/ui", "^0.1.0"); ("lucide-react", "^0.303.0"); ("clsx", "^2.1.0");
   ("tailwind-merge", "^2.2.0"); ("react-intersection-observer", "^9.5.3");
   ("react-parallax-tilt", "^1.7.175")].

Definition devDependencies : list (string * string) :=
  [("@types/react", "^18.2.0"); ("@types/react-dom", "^18.2.0");
   ("@vitejs/plugin-react", "^4.2.0"); ("autoprefixer", "^10.4.16");
   ("postcss", "^8.4.32"); ("tailwindcss", "^3.4.0"); ("vite", "^5.0.0")].

Definition str_members (l : list (string * string)) : list (string * json) :=
  map (fun kv => (fst kv, JStr (snd kv))) l.

(** The object the text of [generatePackageJson] writes, for the slug
    [s] of the name (line 163). *)
Definition package_json (s : string) : json :=
  JObj [("name", JStr (s ++ "-portfolio")); ("private", JBool true);
        ("version", JStr "1.0.0"); ("type", JStr "module");
        ("scripts", JObj (str_members scripts));
        ("dependencies", JObj (str_members dependencies));
        ("devDependencies", JObj (str_members devDependencies))].

(** A string that JSON writes as it is: no double quote, no backslash, no
    control character. *)
Definition json_plain (s : string) : bool :=
  forallb (fun a => negb (Ascii.eqb a dq) && negb (Ascii.eqb a "092"%char) && (32 <=? nat_of_ascii a)%nat)
    (list_ascii_of_string s).

(** The package names a manifest value depends on: the keys of its
    [dependencies] member ([JSON.parse] keeps the last of duplicate
    keys). *)
Definition dependency_names (v : json) : list string :=
  match v with
  | JObj kvs =>
      match find (fun kv => String.eqb (fst kv) "dependencies") (rev kvs) with
      | Some (_, JObj deps) => map fst deps
      | _ => []
      end
  | _ => []
  end.

(** ** Lemmas *)

Lemma json_escape_app a b : json_escape (a ++ b) = json_escape a ++ json_escape b.
Proof. induction a as [|c a IH]; simpl; [reflexivity|]. rewrite IH. apply str_app_assoc. Qed.

Lemma json_escape_plain s : json_plain s = true -> json_escape s = s.
Proof.
  unfold json_plain. induction s as [|a s IH]; simpl; [reflexivity|].
  intros H. apply andb_prop in H as [Ha H]. rewrite (IH H).
  destruct a as [[] [] [] [] [] [] [] []]; simpl in Ha |- *; try discriminate; reflexivity.
Qed.

Lemma json_quote_app_r s x :
  json_quote (s ++ x) = String dq "" ++ json_escape s ++ json_escape x ++ String dq "".
Proof. unfold json_quote. rewrite json_escape_app. simpl. rewrite <- str_app_assoc. reflexivity. Qed.

Lemma render_package name :
  render (Sections.generatePackageJson name) = Sections.pkg_1 ++ Content.slug name ++ Sections.pkg_2.
Proof. unfold Sections.generatePackageJson. simpl. rewrite str_app_nil_r. reflexivity. Qed.

(** One code unit is written by JSON as itself, or as an escape of at
    least two characters. *)
Lemma json_escape_char_length a :
  let plain := negb (Ascii.eqb a dq) && negb (Ascii.eqb a "092"%char) && (32 <=? nat_of_ascii a)%nat in
  (plain = true -> String.length (json_escape_char a) = 1) /\
  (plain = false -> 2 <= String.length (json_escape_char a)).
Proof. destruct a as [[] [] [] [] [] [] [] []]; vm_compute; split; intros; (lia || discriminate). Qed.

(** Escaping lengthens every string that is not [json_plain]. *)
Lemma json_escape_longer s :
  String.length s <= String.length (json_escape s) /\
  (json_plain s = false -> String.length s < String.length (json_escape s)).
Proof.
  unfold json_plain. induction s as [|a s [IH1 IH2]]; [simpl; split; [lia | discriminate]|].
  cbn [json_escape list_ascii_of_string forallb]. rewrite str_length_app. cbn [String.length].
  destruct (json_escape_char_length a) as [H1 H2].
  destruct (_ && _ && _)%bool; simpl; [specialize (H1 eq_refl) | specialize (H2 eq_refl)];
    split; intros; try specialize (IH2 ltac:(assumption)); lia.
Qed.

(** ** Theorems *)

(** C5: the text [generatePackageJson] writes is
    [JSON.stringify(package_json, null, 2)] of the manifest object (name,
    private, version, type, scripts, dependencies, devDependencies)
    exactly when the name's slug needs no JSON escape (no double quote, no
    backslash, no control character): the slug is written between double
    quotes unescaped.  For those names [JSON.parse] reads the object back;
    a name with a quote makes the file unreadable ([Jane "JD" Doe]) or
    injects members ([a","x":"y] gives the package name [a]). *)
Theorem package_json_reads_back sn name :
  (render (Sections.generatePackageJson name) = stringify sn (package_json (Content.slug name)) <->
   json_plain (Content.slug name) = true) /\
  (json_plain (Content.slug name) = true ->
   Json.parse_json (render (Sections.generatePackageJson name)) = Some (package_json (Content.slug name))).
Proof.
  assert (stringify_package : forall sn s,
    stringify sn (package_json s) = Sections.pkg_1 ++ json_escape s ++ Sections.pkg_2).
  { intros sn' s. unfold stringify, package_json. cbn [stringify_at].
    rewrite map_cons, Json.join_cons_ne by discriminate. cbn [fst snd stringify_at].
    rewrite json_quote_app_r. generalize (json_escape s) as e. intros e.
    autorewrite with js_rw. vm_compute. reflexivity. }
  rewrite render_package, stringify_package. generalize (Content.slug name) as s. intros s.
  assert (Hp : json_plain s = true -> s = json_escape s) by (intros Hs; symmetry; apply json_escape_plain, Hs).
  split; [split|].
  - intros E. apply (f_equal String.length) in E. rewrite !str_length_app in E.
    destruct (json_plain s) eqn:Hs; [reflexivity|].
    destruct (json_escape_longer s) as [_ Hlt]. specialize (Hlt Hs). lia.
  - intros Hs. now rewrite <- Hp.
  - intros Hs. rewrite (Hp Hs) at 1. rewrite <- (stringify_package (fun _ => "")).
    apply Json.parse_json_stringify. reflexivity.
Qed.

Lemma package_json_reads_back_witness :
  json_plain (Content.slug "Ada Lovelace") = true /\
  Json.parse_json (render (Sections.generatePackageJson "Ada Lovelace"))
    = Some (package_json "ada-lovelace") /\
  render (Sections.generatePackageJson (q "a~,~x~:~y")) <>
    stringify (fun _ => "") (package_json (Content.slug (q "a~,~x~:~y"))).
Proof.
  split; [vm_compute; reflexivity|]. split.
  - exact (proj2 (package_json_reads_back (fun _ => "") "Ada Lovelace") eq_refl).
  - intros E. apply (proj1 (proj1 (package_json_reads_back (fun _ => "") (q "a~,~x~:~y")))) in E.
    vm_compute in E. discriminate.
Defined.

(** The injection of the C5 example: the member [x] appears in the object
    [JSON.parse] returns, and the package is named [a]. *)
Example package_json_injected_member :
  exists rest,
    Json.parse_json (render (Sections.generatePackageJson (q "a~,~x~:~y")))
      = Some (JObj (("name", JStr "a") :: ("x", JStr "y-portfolio") :: rest)).
Proof. eexists; vm_compute; reflexivity. Qed.

End Manifest.

Module Imports.

Local Open Scope string_scope.

Definition lf : ascii := "010"%char.
Definition sq : ascii := "'"%char.

(** The declaration block of a module: its text before the first blank
    line. *)
Fixpoint header (s : string) : string :=
  match s with
  | EmptyString => EmptyString
  | String a s' =>
      match s' with
      | String b _ => if Ascii.eqb a lf && Ascii.eqb b lf then EmptyString else String a (header s')
      | EmptyString => String a EmptyString
      end
  end.

Fixpoint has_blank (s : string) : bool :=
  match s with
  | EmptyString => false
  | String a s' => (Ascii.eqb a lf && Json.head_is lf s') || has_blank s'
  end.

(** The text between the first two single quotes of a line. *)
Fixpoint until_quote (s : string) : option string :=
  match s with
  | EmptyString => None
  | String a s' => if Ascii.eqb a sq then Some EmptyString else option_map (String a) (until_quote s')
  end.

Fixpoint quoted (s : string) : option string :=
  match s with
  | EmptyString => None
  | String a s' => if Ascii.eqb a sq then until_quote s' else quoted s'
  end.

(** One declaration per line: [import ... from '<spec>';],
    [import '<spec>';] (the semicolon is optional). *)
Definition import_spec (line : string) : option string :=
  if String.prefix "import " line then quoted line else None.

Fixpoint all_some {A} (l : list (option A)) : option (list A) :=
  match l with
  | [] => Some []
  | Some x :: l' => option_map (cons x) (all_some l')
  | None :: _ => None
  end.

(** The specifiers a module imports; [None] when a line of its
    declaration block is not an import declaration. *)
Definition imports (text : string) : option (list string) :=
  all_some (map import_spec (Js.split lf (header text))).

(** The folder of a path, with its trailing slash. *)
Fixpoint dirname (p : string) : string :=
  match p with
  | EmptyString => EmptyString
  | String a p' =>
      if Js.has_char "/"%char p' then String a (dirname p')
      else if Ascii.eqb a "/"%char then "/" else EmptyString
  end.

(** Vite's default [resolve.extensions]. *)
Definition extensions : list string := [".mjs"; ".js"; ".mts"; ".ts"; ".jsx"; ".tsx"; ".json"].

Definition candidates (p : string) : list string := p :: map (String.append p) extensions.

(** The package of a bare specifier: its first segment, or its first two
    for a scoped ([@scope/name]) package. *)
Definition package_name (spec : string) : string :=
  match Js.split "/"%char spec with
  | scope :: name :: _ => if String.prefix "@" scope then scope ++ "/" ++ name else scope
  | [seg] => seg
  | [] => spec
  end.

Definition mem (x : string) (l : list string) : bool := existsb (String.eqb x) l.

(** [s] without the prefix [p], when it starts with it. *)
Fixpoint strip_prefix (p s : string) : option string :=
  match p, s with
  | EmptyString, _ => Some s
  | String a p', String b s' => if Ascii.eqb a b then strip_prefix p' s' else None
  | String _ _, EmptyString => None
  end.

(** A bare specifier names a package: it is neither empty nor relative
    nor absolute. *)
Definition bare (spec : string) : bool :=
  negb (String.prefix "." spec) && negb (String.prefix "/" spec) && negb (String.eqb spec "").

(** An import of the module at [file] resolves: a [./] specifier to a
    file of [paths] (the path itself or with one of the extensions), a
    bare specifier to a package of [deps].  Parent ([../]) and absolute
    specifiers are not used by the generator and are not accepted. *)
Definition import_ok (paths deps : list string) (file spec : string) : bool :=
  match strip_prefix "./" spec with
  | Some rest => existsb (fun c => mem c paths) (candidates (dirname file ++ rest))
  | None => bare spec && mem (package_name spec) deps
  end.

Definition has_suffix (suf p : string) : bool :=
  (String.length suf <=? String.length p)%nat &&
  String.eqb (substring (String.length p - String.length suf) (String.length suf) p) suf.

Definition is_module (path : string) : bool := has_suffix ".jsx" path || has_suffix ".js" path.

(** The checker: every JavaScript module of [files] has a declaration
    block of imports only, and each of them resolves. *)
Definition project_closed (files : list (string * string)) (deps : list string) : bool :=
  forallb (fun f => negb (is_module (fst f)) ||
                    match imports (snd f) with
                    | Some specs => forallb (import_ok (map fst files) deps (fst f)) specs
                    | None => false
                    end) files.

(** What resolving means. *)
Inductive resolves (paths deps : list string) (file : string) : string -> Prop :=
| resolves_local rest c :
    In c (candidates (dirname file ++ rest)) -> In c paths -> resolves paths deps file ("./" ++ rest)
| resolves_package spec :
    bare spec = true -> In (package_name spec) deps -> resolves paths deps file spec.

(** ** Lemmas *)

Lemma header_cons2 a b s :
  header (String a (String b s)) = if Ascii.eqb a lf && Ascii.eqb b lf then "" else String a (header (String b s)).
Proof. reflexivity. Qed.

Lemma has_blank_cons2 a b s :
  has_blank (String a (String b s)) = (Ascii.eqb a lf && Ascii.eqb b lf) || has_blank (String b s).
Proof. reflexivity. Qed.

(** Text after a blank line does not change the declaration block. *)
Lemma header_app h t : has_blank h = true -> header (h ++ t) = header h.
Proof.
  induction h as [|a h IH]; [discriminate|]. intros H.
  destruct h as [|b h'].
  - simpl in H. rewrite andb_false_r in H. discriminate.
  - change (String a (String b h') ++ t) with (String a (String b (h' ++ t))).
    rewrite has_blank_cons2 in H. rewrite !header_cons2.
    destruct (Ascii.eqb a lf && Ascii.eqb b lf); [reflexivity|].
    change (String b (h' ++ t)) with (String b h' ++ t). rewrite (IH H). reflexivity.
Qed.

Lemma imports_render x t : has_blank x = true -> imports (render (Lit x :: t)) = imports x.
Proof. intros H. unfold imports. rewrite render_cons. cbn [piece_text]. rewrite header_app by exact H. reflexivity. Qed.

Lemma mem_In x l : mem x l = true -> In x l.
Proof. unfold mem. rewrite existsb_exists. intros [y [Hy E]]. apply String.eqb_eq in E. subst. exact Hy. Qed.

Lemma strip_prefix_app p s r : strip_prefix p s = Some r -> s = p ++ r.
Proof.
  revert s. induction p as [|a p IH]; intros [|b s] H; simpl in H; try discriminate.
  - injection H as <-. reflexivity.
  - injection H as <-. reflexivity.
  - destruct (Ascii.eqb_spec a b); [subst|discriminate].
    change (String b p ++ r) with (String b (p ++ r)). f_equal. apply IH, H.
Qed.

Lemma import_ok_sound paths deps file spec :
  import_ok paths deps file spec = true -> resolves paths deps file spec.
Proof.
  unfold import_ok. destruct (strip_prefix "./" spec) as [rest|] eqn:E.
  - rewrite existsb_exists. intros [c [Hc Hm]].
    rewrite (strip_prefix_app _ _ _ E). apply (resolves_local _ _ _ rest c Hc), mem_In, Hm.
  - intros H. apply andb_prop in H as [Hb Hm]. apply resolves_package; [exact Hb | apply mem_In, Hm].
Qed.

(** The checker is sound: what it accepts has only resolving imports. *)
Lemma project_closed_sound files deps :
  project_closed files deps = true ->
  forall path text, In (path, text) files -> is_module path = true ->
  exists specs, imports text = Some specs /\ Forall (resolves (map fst files) deps path) specs.
Proof.
  unfold project_closed. rewrite forallb_forall. intros H path text Hin Hm.
  specialize (H _ Hin). cbn [fst snd] in H. rewrite Hm in H. cbn [negb orb] in H.
  destruct (imports text) as [specs|]; [|discriminate]. exists specs. split; [reflexivity|].
  rewrite forallb_forall in H. apply Forall_forall. intros spec Hs. apply import_ok_sound, H, Hs.
Qed.

(** ** Theorems *)

(** C4: the generated project's imports all resolve, for every form, draw
    and number printer: each JavaScript module of the archive opens with a
    block of import declarations only, each [./] import names a file of
    the archive (directly or with one of Vite's extensions), and each bare
    import names a package the manifest lists under [dependencies]. *)
Theorem generated_imports_resolve sn rng fd path text :
  In (path, text) (Pipeline.output_files sn rng fd) -> is_module path = true ->
  exists specs, imports text = Some specs /\
    Forall (resolves (map fst (Pipeline.output_files sn rng fd))
                     (Manifest.dependency_names (Manifest.package_json (Content.slug (Form.name fd))))
                     path) specs.
Proof.
  apply project_closed_sound.
  unfold project_closed, Pipeline.output_files, Sections.generateAppContent, Sections.generateHeroContent,
    Sections.generateAboutContent, Sections.generateProjectsContent, Sections.generateSkillsContent,
    Sections.generateContactContent.
  cbn [forallb map fst snd app].
  rewrite !imports_render by reflexivity.
  vm_compute. reflexivity.
Qed.

Lemma generated_imports_resolve_witness :
  In ("src/main.jsx", Static.getMainContent)
     (Pipeline.output_files (fun _ => "") (fun _ => Content.f64 0%Z) Content.ada) /\
  is_module "src/main.jsx" = true /\
  exists specs, imports Static.getMainContent = Some specs /\
    Forall (resolves (map fst (Pipeline.output_files (fun _ => "") (fun _ => Content.f64 0%Z) Content.ada))
                     (Manifest.dependency_names (Manifest.package_json (Content.slug (Form.name Content.ada))))
                     "src/main.jsx") specs.
Proof.
  assert (Hin : In ("src/main.jsx", Static.getMainContent)
                   (Pipeline.output_files (fun _ => "") (fun _ => Content.f64 0%Z) Content.ada))
    by (simpl; tauto).
  split; [exact Hin|]. split; [reflexivity|].
  exact (generated_imports_resolve _ _ _ _ _ Hin eq_refl).
Defined.

End Imports.
