(* ===== verification/Modal.v ===== *)
(** * The clone modal: form state and submission

    [src/src/components/CloneModal.jsx] keeps [isGenerating] and
    [formData] in React state; [isOpen] is the parent's
    [showCloneModal] ([App.jsx]).  The handlers:

    - each input's [onChange] replaces one field ([set_field]);
    - [addProject] appends an empty project, [updateProject(index,
      field, value)] writes one project field (an index past the end
      throws a [TypeError]: [None]);
    - [handleSubmit] sets [isGenerating] and starts [generatePortfolio]
      on the current form; when it resolves, a 3000 ms timer is armed
      whose callback clears [isGenerating] and calls [onClose]; when it
      rejects, [isGenerating] is cleared at once.

    The pending continuations of [handleSubmit] are the list [jobs]:
    [Generating fd] while [generatePortfolio(fd)] runs, [Closing] while
    the timer is armed.  [step] is the relation of everything that can
    happen next (a user event or a continuation running); the submit
    button is [disabled={isGenerating}] and the browser refuses a submit
    whose [required] inputs are empty, which are the guards of
    [step_submit].

    [generatePortfolio] reads the projects only in its synchronous part,
    before its first [await], so the snapshot [fd] kept in
    [Generating fd] is exactly what it reads, even though
    [updateProject] mutates the project objects the snapshot shares. *)

From S2P Require Import Prelude JsString Content.
From Stdlib Require Import String List Bool Arith Lia Relations.
Import ListNotations.

Module Modal.


(** A continuation of [handleSubmit] waiting to run. *)
Inductive job : Type :=
| Generating (fd : Form.formData)
| Closing.

Record state : Type := mkState {
  isOpen : bool;
  isGenerating : bool;
  formData : Form.formData;
  jobs : list job
}.

(** [useState(false)], [useState({...})], and the modal closed. *)
Definition initial : state := mkState false false Form.initial [].

(** The top-level inputs of the form. *)
Inductive field : Type :=
| FName | FTitle | FEmail | FPhone | FLocation | FAbout
| FGithub | FLinkedin | FTwitter | FSkills.

(** [setFormData({ ...formData, [field]: e.target.value })]. *)
Definition set_form_field (f : field) (v : string) (fd : Form.formData) : Form.formData :=
  let '(Form.mkForm n ti e ph lo ab gh li tw pr sk re) := fd in
  match f with
  | FName => Form.mkForm v ti e ph lo ab gh li tw pr sk re
  | FTitle => Form.mkForm n v e ph lo ab gh li tw pr sk re
  | FEmail => Form.mkForm n ti v ph lo ab gh li tw pr sk re
  | FPhone => Form.mkForm n ti e v lo ab gh li tw pr sk re
  | FLocation => Form.mkForm n ti e ph v ab gh li tw pr sk re
  | FAbout => Form.mkForm n ti e ph lo v gh li tw pr sk re
  | FGithub => Form.mkForm n ti e ph lo ab v li tw pr sk re
  | FLinkedin => Form.mkForm n ti e ph lo ab gh v tw pr sk re
  | FTwitter => Form.mkForm n ti e ph lo ab gh li v pr sk re
  | FSkills => Form.mkForm n ti e ph lo ab gh li tw pr v re
  end.

Definition with_projects (pr : list Project.project) (fd : Form.formData) : Form.formData :=
  let '(Form.mkForm n ti e ph lo ab gh li tw _ sk re) := fd in
  Form.mkForm n ti e ph lo ab gh li tw pr sk re.

Definition with_resume (r : option string) (fd : Form.formData) : Form.formData :=
  let '(Form.mkForm n ti e ph lo ab gh li tw pr sk _) := fd in
  Form.mkForm n ti e ph lo ab gh li tw pr sk r.

Definition with_form (fd : Form.formData) (s : state) : state :=
  mkState (isOpen s) (isGenerating s) fd (jobs s).

Definition set_field (f : field) (v : string) (s : state) : state :=
  with_form (set_form_field f v (formData s)) s.

(** The fields of a project. *)
Inductive pfield : Type := PTitle | PDescription | PTech | PLink | PGithub.

Definition set_project_field (f : pfield) (v : string) (p : Project.project) : Project.project :=
  let '(Project.mkProject ti de te li gh) := p in
  match f with
  | PTitle => Project.mkProject v de te li gh
  | PDescription => Project.mkProject ti v te li gh
  | PTech => Project.mkProject ti de v li gh
  | PLink => Project.mkProject ti de te v gh
  | PGithub => Project.mkProject ti de te li v
  end.

(** The resume input (line 249): [resume: e.target.files[0]], the first
    selected file, [undefined] when the selection was cancelled. *)
Definition set_resume (files : list string) (s : state) : state :=
  with_form (with_resume (hd_error files) (formData s)) s.

(** [addProject] (lines 39-44). *)
Definition addProject (s : state) : state :=
  with_form (with_projects (Form.projects (formData s) ++ [Project.empty]) (formData s)) s.

(** [updateProject] (lines 46-50): [updatedProjects[index][field] = value]
    throws when [index] is past the end. *)
Definition updateProject (index : nat) (f : pfield) (v : string) (s : state) : option state :=
  let ps := Form.projects (formData s) in
  match nth_error ps index with
  | None => None
  | Some p =>
      Some (with_form (with_projects (replace_nth index (set_project_field f v p) ps) (formData s)) s)
  end.

(** The inputs marked [required] (lines 82-246): name, title, email,
    about and skills. *)
Definition required_ok (fd : Form.formData) : bool :=
  Js.truthy (Form.name fd) && Js.truthy (Form.title fd) && Js.truthy (Form.email fd)
  && Js.truthy (Form.about fd) && Js.truthy (Form.skills fd).

(** [handleSubmit] up to its [await] (lines 23-28). *)
Definition handleSubmit (s : state) : state :=
  mkState (isOpen s) true (formData s) (jobs s ++ [Generating (formData s)]).

(** The [await] resolved: the timer is armed (lines 29-32). *)
Definition on_resolved (l1 l2 : list job) (s : state) : state :=
  mkState (isOpen s) (isGenerating s) (formData s) (l1 ++ Closing :: l2).

(** The [await] rejected: the [catch] block (lines 33-36). *)
Definition on_rejected (l1 l2 : list job) (s : state) : state :=
  mkState (isOpen s) false (formData s) (l1 ++ l2).

(** The timer's callback: [setIsGenerating(false); onClose()]. *)
Definition on_timer (l1 l2 : list job) (s : state) : state :=
  mkState false false (formData s) (l1 ++ l2).

Definition open_modal (s : state) : state := mkState true (isGenerating s) (formData s) (jobs s).
Definition close_modal (s : state) : state := mkState false (isGenerating s) (formData s) (jobs s).

(** Where a click lands in the open modal. *)
Inductive click : Type := Backdrop | Dialog | CloseButton.

(** The backdrop's [onClick={onClose}] (line 60); a click inside the
    dialog stops at its [e.stopPropagation()] (line 66); the X button
    calls [onClose] (line 72) before its click reaches the dialog. *)
Definition on_click (c : click) (s : state) : state :=
  match c with
  | Backdrop | CloseButton => close_modal s
  | Dialog => s
  end.

(** The submit button's text (lines 265-276). *)
Definition submit_label (s : state) : string :=
  if isGenerating s then "Generating Your Portfolio..." else "Generate My Portfolio".

Inductive step : state -> state -> Prop :=
| step_open s : step s (open_modal s)
| step_click s c : isOpen s = true -> step s (on_click c s)
| step_resume s files : isOpen s = true -> step s (set_resume files s)
| step_edit s f v : isOpen s = true -> step s (set_field f v s)
| step_add s : isOpen s = true -> step s (addProject s)
| step_update s i f v s' :
    isOpen s = true -> updateProject i f v s = Some s' -> step s s'
| step_submit s :
    isOpen s = true -> isGenerating s = false -> required_ok (formData s) = true ->
    step s (handleSubmit s)
| step_resolved s l1 fd l2 : jobs s = l1 ++ Generating fd :: l2 -> step s (on_resolved l1 l2 s)
| step_rejected s l1 fd l2 : jobs s = l1 ++ Generating fd :: l2 -> step s (on_rejected l1 l2 s)
| step_timer s l1 l2 : jobs s = l1 ++ Closing :: l2 -> step s (on_timer l1 l2 s).

Definition reachable (s : state) : Prop := clos_refl_trans_n1 state step initial s.

(** What holds in every reachable state. *)
Definition inv (s : state) : Prop :=
  1 <= length (Form.projects (formData s)) /\
  length (jobs s) <= 1 /\
  (isGenerating s = true <-> jobs s <> []) /\
  (forall fd, In (Generating fd) (jobs s) -> required_ok fd = true).

(** ** Lemmas *)

Lemma projects_set_form_field f v fd : Form.projects (set_form_field f v fd) = Form.projects fd.
Proof. destruct fd, f; reflexivity. Qed.

Lemma projects_with_resume r fd : Form.projects (with_resume r fd) = Form.projects fd.
Proof. now destruct fd. Qed.

Lemma projects_with_projects pr fd : Form.projects (with_projects pr fd) = pr.
Proof. now destruct fd. Qed.

(** A list of at most one job that has a job in it is that job. *)
Lemma single_job (l1 : list job) j l2 : length (l1 ++ j :: l2) <= 1 -> l1 = [] /\ l2 = [].
Proof.
  rewrite length_app. simpl. destruct l1, l2; simpl; intros; split; auto; lia.
Qed.

Lemma inv_initial : inv initial.
Proof.
  repeat split; simpl; auto; try discriminate.
Qed.

Ltac inv_unchanged Hinv :=
  destruct Hinv as (Hp & Hj & Hg & Hr); repeat split; simpl;
  rewrite ?projects_set_form_field, ?projects_with_resume; auto; try apply Hg.

(** Close the goals of [inv] on a state whose job list is concrete. *)
Ltac close_inv :=
  repeat split; auto; try discriminate;
  try (intros ? [?|[]]; discriminate); try (intros H'; now contradiction H').

Lemma inv_step s s' : inv s -> step s s' -> inv s'.
Proof.
  intros Hinv Hs. destruct Hs as [s|s [] _|s files _|s f v _|s _|s i f v s' _ Hu|s _ Hgen Hreq
                                 |s l1 fd l2 Hj'|s l1 fd l2 Hj'|s l1 l2 Hj'].
  - inv_unchanged Hinv.
  - inv_unchanged Hinv.
  - exact Hinv.
  - inv_unchanged Hinv.
  - unfold set_resume, with_form. inv_unchanged Hinv.
  - unfold set_field, with_form. inv_unchanged Hinv.
  - unfold addProject, with_form. inv_unchanged Hinv.
    rewrite projects_with_projects, length_app. lia.
  - unfold updateProject in Hu. destruct (nth_error _ i) as [p|] eqn:E; [|discriminate].
    injection Hu as <-. destruct Hinv as (Hp & Hj & Hg & Hr).
    assert (i < length (Form.projects (formData s))) by (apply nth_error_Some; congruence).
    unfold inv, with_form. cbn [formData jobs isGenerating isOpen]. rewrite projects_with_projects.
    rewrite length_replace_nth by assumption. repeat split; auto; apply Hg.
  - destruct Hinv as (Hp & Hj & Hg & Hr).
    assert (jobs s = []) as Hnil.
    { destruct (jobs s); [reflexivity|]. exfalso. apply Bool.diff_true_false.
      rewrite <- Hgen. symmetry. apply Hg. discriminate. }
    unfold handleSubmit. repeat split; simpl; rewrite ?Hnil; simpl; auto; try discriminate.
    intros fd [Hfd|[]]. now injection Hfd as <-.
  - destruct Hinv as (Hp & Hj & Hg & Hr).
    assert (isGenerating s = true) as Hgen by (apply Hg; rewrite Hj'; now destruct l1).
    rewrite Hj' in Hj. destruct (single_job _ _ _ Hj) as [-> ->].
    unfold inv, on_resolved. simpl. rewrite Hgen. close_inv.
  - destruct Hinv as (Hp & Hj & Hg & Hr). rewrite Hj' in Hj.
    destruct (single_job _ _ _ Hj) as [-> ->]. unfold inv, on_rejected. simpl. close_inv.
  - destruct Hinv as (Hp & Hj & Hg & Hr). rewrite Hj' in Hj.
    destruct (single_job _ _ _ Hj) as [-> ->]. unfold inv, on_timer. simpl. close_inv.
Qed.

(** ** Theorems *)

(** C11: in every reachable state of the modal the form has at least one
    project, at most one generation (or its closing timer) is pending,
    [isGenerating] is set exactly while one is, and every generation
    started on a form whose required fields were filled. *)
Theorem modal_invariant s : reachable s -> inv s.
Proof.
  induction 1 as [|s1 s2 Hst _ IH]; [apply inv_initial | eapply inv_step; eauto].
Qed.

Lemma jobs_single s l1 j l2 : reachable s -> jobs s = l1 ++ j :: l2 -> l1 = [] /\ l2 = [].
Proof.
  intros Hr Hj. destruct (modal_invariant s Hr) as (_ & Hl & _). rewrite Hj in Hl.
  now apply (single_job l1 j l2).
Qed.

(** C12: when [generatePortfolio] rejects, the modal leaves the generating
    state at once, keeps the form as it is and nothing is pending, so the
    user can submit the same data again. *)
Theorem rejected_allows_retry s l1 fd l2 :
  reachable s -> jobs s = l1 ++ Generating fd :: l2 ->
  let s' := on_rejected l1 l2 s in
  isGenerating s' = false /\ jobs s' = [] /\ formData s' = formData s /\ isOpen s' = isOpen s /\
  (isOpen s = true -> required_ok (formData s) = true -> step s' (handleSubmit s')).
Proof.
  intros Hr Hj. destruct (jobs_single s _ _ _ Hr Hj) as [-> ->]. simpl.
  repeat split; auto. intros Ho Hq. now apply step_submit.
Qed.

(** C20: when it resolves, the armed timer closes the modal and leaves it
    idle: after the timer runs, the modal is closed, not generating, and
    nothing is pending. *)
Theorem resolved_then_closes s l1 fd l2 :
  reachable s -> jobs s = l1 ++ Generating fd :: l2 ->
  let s1 := on_resolved l1 l2 s in
  step s s1 /\ jobs s1 = [Closing] /\
  let s2 := on_timer [] [] s1 in
  step s1 s2 /\ isOpen s2 = false /\ isGenerating s2 = false /\ jobs s2 = [].
Proof.
  intros Hr Hj. destruct (jobs_single s _ _ _ Hr Hj) as [-> ->]. simpl.
  split; [eapply step_resolved; exact Hj|]. split; [reflexivity|].
  repeat split. now apply (step_timer _ [] []).
Qed.

(** C27: [updateProject(index, field, value)] at an index of the rendered
    list writes [value] into that project's [field] and nothing else: the
    project's other four fields, the other projects, their number, the
    other form fields and the modal's flags are unchanged; past the end
    it throws. *)
Theorem updateProject_spec s i f v :
  match nth_error (Form.projects (formData s)) i with
  | Some p => exists s' p', updateProject i f v s = Some s' /\
      isOpen s' = isOpen s /\ isGenerating s' = isGenerating s /\ jobs s' = jobs s /\
      formData s' = with_projects (Form.projects (formData s')) (formData s) /\
      length (Form.projects (formData s')) = length (Form.projects (formData s)) /\
      (forall j, j <> i -> nth_error (Form.projects (formData s')) j = nth_error (Form.projects (formData s)) j) /\
      nth_error (Form.projects (formData s')) i = Some p' /\
      Project.title p' = match f with PTitle => v | _ => Project.title p end /\
      Project.description p' = match f with PDescription => v | _ => Project.description p end /\
      Project.tech p' = match f with PTech => v | _ => Project.tech p end /\
      Project.link p' = match f with PLink => v | _ => Project.link p end /\
      Project.github p' = match f with PGithub => v | _ => Project.github p end
  | None => updateProject i f v s = None
  end.
Proof.
  unfold updateProject. destruct (nth_error _ i) as [p|] eqn:E; [|reflexivity].
  assert (i < length (Form.projects (formData s))) by (apply nth_error_Some; congruence).
  eexists _, (set_project_field f v p). split; [reflexivity|]. cbn [formData isOpen isGenerating jobs with_form].
  rewrite projects_with_projects. do 3 (split; [reflexivity|]).
  split; [destruct (formData s); reflexivity|].
  split; [now apply length_replace_nth|]. split; [intros j Hj; now apply nth_replace_nth_other|].
  split; [now apply nth_replace_nth|]. destruct p, f; repeat split.
Qed.

(** ** A run of the modal *)

Definition filled : state :=
  set_field FSkills "C++, Math" (set_field FAbout "Builder." (set_field FEmail "a@example.com"
    (set_field FTitle "Engineer" (set_field FName "Ada Lovelace" (open_modal initial))))).

Lemma filled_reachable : reachable filled.
Proof.
  unfold filled.
  repeat (eapply Relation_Operators.rtn1_trans; [apply step_edit; reflexivity|]).
  eapply Relation_Operators.rtn1_trans; [apply step_open|]. apply Relation_Operators.rtn1_refl.
Defined.

Lemma submitted_reachable : reachable (handleSubmit filled).
Proof. eapply Relation_Operators.rtn1_trans; [apply step_submit; reflexivity | apply filled_reachable]. Defined.

Lemma rejected_allows_retry_witness :
  isGenerating (on_rejected [] [] (handleSubmit filled)) = false.
Proof.
  exact (proj1 (rejected_allows_retry (handleSubmit filled) [] (formData filled) []
                  submitted_reachable eq_refl)).
Defined.

Lemma resolved_then_closes_witness :
  isOpen (on_timer [] [] (on_resolved [] [] (handleSubmit filled))) = false.
Proof.
  exact (proj1 (proj2 (proj2 (proj2 (resolved_then_closes (handleSubmit filled) [] (formData filled) []
                  submitted_reachable eq_refl))))).
Defined.

Lemma modal_invariant_witness : length (jobs (handleSubmit filled)) <= 1.
Proof. exact (proj1 (proj2 (modal_invariant _ submitted_reachable))). Defined.

End Modal.
