(* ===== verification/Carousel.v ===== *)
(** * The project carousel

    [src/src/components/Projects.jsx] keeps the index [currentProject]
    ([useState(0)], line 13) into its [projects] array and moves it with
    [nextProject] ([(prev + 1) % projects.length], lines 45-47),
    [prevProject] ([(prev - 1 + projects.length) % projects.length],
    lines 49-51) and the dots ([setCurrentProject(index)] for each index
    of [projects.map], line 85).  The generated [Projects.jsx] carries the
    same two functions (lines 313-319 of the generator's template).

    JavaScript's [%] on integers is the truncated remainder [Z.rem]; with
    an empty array it is [NaN] ([None]). *)

From S2P Require Import Prelude.
From Stdlib Require Import ZArith Lia Relations.

Module Carousel.

Local Open Scope Z_scope.

(** [a % n]: [NaN] when [n] is 0. *)
Definition js_rem (a n : Z) : option Z := if n =? 0 then None else Some (Z.rem a n).

Definition nextProject (len prev : Z) : option Z := js_rem (prev + 1) len.

Definition prevProject (len prev : Z) : option Z := js_rem (prev - 1 + len) len.

Inductive step (len : Z) : Z -> Z -> Prop :=
| step_next c c' : nextProject len c = Some c' -> step len c c'
| step_prev c c' : prevProject len c = Some c' -> step len c c'
| step_select c index : 0 <= index < len -> step len c index.

Definition reachable (len c : Z) : Prop := clos_refl_trans_n1 Z (step len) 0 c.

(** [n] presses of the next button. *)
Fixpoint press_next (len : Z) (k : nat) (c : Z) : option Z :=
  match k with
  | O => Some c
  | S k' => match nextProject len c with Some c' => press_next len k' c' | None => None end
  end.

(** ** Lemmas *)

Lemma js_rem_range a n : 0 <= a -> 0 < n -> js_rem a n = Some (a mod n) /\ 0 <= a mod n < n.
Proof.
  intros Ha Hn. unfold js_rem. destruct (Z.eqb_spec n 0); [lia|].
  rewrite Z.rem_mod_nonneg by lia. split; [reflexivity | apply Z.mod_pos_bound; lia].
Qed.

Lemma nextProject_in_range len c :
  0 <= c < len -> nextProject len c = Some ((c + 1) mod len) /\ 0 <= (c + 1) mod len < len.
Proof. intros H. apply js_rem_range; lia. Qed.

Lemma prevProject_in_range len c :
  0 <= c < len -> prevProject len c = Some ((c - 1 + len) mod len) /\ 0 <= (c - 1 + len) mod len < len.
Proof. intros H. apply js_rem_range; lia. Qed.

Lemma step_in_range len c c' : 0 <= c < len -> step len c c' -> 0 <= c' < len.
Proof.
  intros Hc Hs. destruct Hs as [c c' E|c c' E|c i Hi]; [| |exact Hi].
  - destruct (nextProject_in_range len c Hc) as [E' R]. congruence.
  - destruct (prevProject_in_range len c Hc) as [E' R]. congruence.
Qed.

(** ** Theorems *)

(** C25: with a non-empty project list every reachable index is in range,
    so [projects[currentProject]] is always a project. *)
Theorem carousel_in_range len c : 0 < len -> reachable len c -> 0 <= c < len.
Proof.
  intros Hlen. induction 1 as [|c1 c2 Hs _ IH]; [lia|].
  eapply step_in_range; eauto.
Qed.

Lemma carousel_in_range_witness : 0 <= 2 < 3.
Proof.
  apply (carousel_in_range 3 2); [lia|].
  eapply Relation_Operators.rtn1_trans; [apply (step_prev 3 0 2); reflexivity|].
  apply Relation_Operators.rtn1_refl.
Defined.

(** C26: [prevProject] undoes [nextProject], and [len] presses of next come
    back to the start; with no project both give [NaN]. *)
Theorem carousel_cycle len c :
  0 <= c < len ->
  (forall c', nextProject len c = Some c' -> prevProject len c' = Some c) /\
  press_next len (Z.to_nat len) c = Some c /\
  nextProject 0 c = None /\ prevProject 0 c = None.
Proof.
  intros Hc. split; [|split; [|split; reflexivity]].
  - intros c' E. destruct (nextProject_in_range len c Hc) as [E' R].
    rewrite E in E'. injection E' as ->.
    destruct (prevProject_in_range len ((c + 1) mod len) R) as [-> _]. f_equal.
    replace ((c + 1) mod len - 1 + len) with ((c + 1) mod len + (len - 1)) by lia.
    rewrite Z.add_mod_idemp_l by lia.
    replace (c + 1 + (len - 1)) with (c + 1 * len) by lia.
    rewrite Z.mod_add by lia. apply Z.mod_small. exact Hc.
  - assert (Hk : forall k, press_next len k c = Some ((c + Z.of_nat k) mod len)).
    { intros k. revert c Hc. induction k as [|k IH]; intros c Hc; simpl.
      - f_equal. rewrite Z.add_0_r. symmetry. apply Z.mod_small. exact Hc.
      - destruct (nextProject_in_range len c Hc) as [-> R]. rewrite IH by exact R.
        f_equal. rewrite Z.add_mod_idemp_l by lia. f_equal. lia. }
    rewrite Hk, Z2Nat.id by lia. f_equal.
    replace (c + len) with (c + 1 * len) by lia. rewrite Z.mod_add by lia.
    apply Z.mod_small. exact Hc.
Qed.

Lemma carousel_cycle_witness : press_next 3 3 1 = Some 1.
Proof. exact (proj1 (proj2 (carousel_cycle 3 1 ltac:(lia)))). Defined.

End Carousel.
