(* ===== verification/Page.v ===== *)
(** * The page shell: loading screen, navigation bar, scroll indicator

    [src/src/App.jsx] shows a loading screen for 2000 ms
    ([setTimeout(() => setIsLoading(false), 2000)], line 20) and only then
    mounts the [Navbar] and the [CloneModal] (lines 30-47); the
    [ScrollProgress] indicator is mounted from the start (line 26).

    - [ScrollProgress] ([src/src/components/ScrollProgress.jsx]) listens to
      [scroll] and stores [(scrollY / (scrollHeight - innerHeight)) * 100]
      (lines 8-13), drawn as a bar of [scaleX: p / 100], a ring of
      [strokeDashoffset: 176 - (176 * p) / 100] and the label
      [Math.round(p)%] (lines 23, 43, 53).  All of it is IEEE double
      arithmetic, computed here with [SpecFloat].  The ring's two circles
      and SVG's dash painting rule are stated in real numbers, to show
      which points of the circle the computed offset paints.
    - [Navbar] ([src/src/components/Navbar.jsx]) keeps [isScrolled]
      ([scrollY > 20] on each [scroll], line 11) and [isMobileMenuOpen]
      (the menu button toggles it, line 71; a menu link closes it, line
      92); both "Make This Site Yours" buttons call [onClone], which is
      [() => setShowCloneModal(true)] (App.jsx line 36).
    - [App] composes them with the [Modal] model: [step] is everything
      that can happen next on the page, and [app_refines_modal] shows that
      the modal part of every reachable page state is a reachable state of
      [Modal.step]. *)

From S2P Require Import Prelude JsString Content Modal.
From Stdlib Require Import String ZArith Bool List Lia Relations Reals Lra Machin.
From Corelib Require Import SpecFloat.
Import ListNotations.

Module ScrollProgress.

Local Open Scope Z_scope.

Local Abbreviation f64 := Content.f64.
Local Abbreviation SFdiv := (SFdiv Content.prec Content.emax).
Local Abbreviation SFmul := (SFmul Content.prec Content.emax).
Local Abbreviation SFsub := (SFsub Content.prec Content.emax).

(** [updateScrollProgress] (lines 8-13): the new [scrollProgress]. *)
Definition updateScrollProgress (scrollHeight innerHeight scrollY : spec_float) : spec_float :=
  let height := SFsub scrollHeight innerHeight in
  SFmul (SFdiv scrollY height) (f64 100).

(** [Math.round]: the integer nearest [x], halves rounded up, [-0] for
    [-0.5 <= x < 0]; [NaN], infinities, zeros and integers unchanged. *)
Definition js_round (x : spec_float) : spec_float :=
  match x with
  | S754_finite s m e =>
      if 0 <=? e then x
      else
        let num := if s then Z.neg m else Z.pos m in
        let den := 2 ^ (- e) in
        let n := (2 * num + den) / (2 * den) in
        if n =? 0 then S754_zero s else binary_normalize Content.prec Content.emax n 0 false
  | _ => x
  end.

(** The bar ([scaleX], line 23), the ring ([strokeDashoffset], line 43)
    and the label ([Math.round(scrollProgress)], line 53). *)
Definition scaleX (p : spec_float) : spec_float := SFdiv p (f64 100).
Definition strokeDashoffset (p : spec_float) : spec_float :=
  SFsub (f64 176) (SFdiv (SFmul (f64 176) p) (f64 100)).
Definition label (p : spec_float) : spec_float := js_round p.

(** The ring's [svg] (lines 25-51): a [w-16 h-16] box (64 pixels at
    the default root font size) holding the grey track (lines 27-34) and
    the progress circle (lines 35-44), both of centre [(32, 32)], radius
    28 and stroke width 4; only the progress circle is dashed. *)
Record circle : Type := mkCircle { cx : Z; cy : Z; r : Z; strokeWidth : Z; strokeDasharray : option Z }.

Definition box : Z := 64.
Definition trackCircle : circle := mkCircle 32 32 28 4 None.
Definition progressCircle : circle := mkCircle 32 32 28 4 (Some 176).

(** A circle's stroke lies inside the box. *)
Definition fits (c : circle) : bool :=
  (0 <=? cx c - r c - strokeWidth c / 2) && (cx c + r c + strokeWidth c / 2 <=? box) &&
  (0 <=? cy c - r c - strokeWidth c / 2) && (cy c + r c + strokeWidth c / 2 <=? box).

Definition circumference (c : circle) : R := (2 * PI * IZR (r c))%R.

(** SVG dashing with one [stroke-dasharray] value [d]: dashes and gaps of
    length [d] alternate from the path's start, shifted back by the
    [stroke-dashoffset] [o]; the point at length [p] is painted when it
    falls in a dash. *)
Definition painted (d o p : R) : Prop := exists k : Z, (2 * d * IZR k <= p + o < 2 * d * IZR k + d)%R.

(** The real value of a finite double, [m * 2^e] ([None] for NaN and
    infinities). *)
Definition sf_R (x : spec_float) : option R :=
  match x with
  | S754_zero _ => Some 0%R
  | S754_finite s m e =>
      let n := if s then Z.neg m else Z.pos m in
      Some (if 0 <=? e then IZR (n * 2 ^ e) else (IZR n / IZR (2 ^ (- e)))%R)
  | _ => None
  end.

(** The point at length [p] of the progress circle is painted under the
    offset the component computes. *)
Definition ring_painted (offset : spec_float) (p : R) : Prop :=
  match strokeDasharray progressCircle, sf_R offset with
  | Some d, Some o => painted (IZR d) o p
  | _, _ => False
  end.

(** ** Lemmas *)

Lemma PI_le_22_7 : (PI <= 22 / 7)%R.
Proof.
  destruct (PI_2_3_7_ineq 1) as [_ H].
  unfold sum_f_R0, tg_alt, PI_2_3_7_tg, Ratan_seq in H. simpl in H. lra.
Qed.

Lemma IZR_div_exact a b c : a = (c * b)%Z -> b <> 0%Z -> (IZR a / IZR b = IZR c)%R.
Proof. intros -> Hb. rewrite mult_IZR. field. apply not_0_IZR, Hb. Qed.

(** With no offset, the first dash covers the first [d] units. *)
Lemma painted_from_start d p : (0 <= p < d)%R -> painted d 0 p.
Proof. intros H. exists 0%Z. rewrite Rmult_0_r, Rplus_0_r, Rplus_0_l. exact H. Qed.

(** With an offset of one dash, the first [d] units fall in the first gap. *)
Lemma unpainted_after_dash d p : (0 < d)%R -> (0 <= p < d)%R -> ~ painted d d p.
Proof.
  intros Hd Hp [k [H1 H2]].
  assert (Hk : (0 < IZR k)%R) by nra. apply lt_0_IZR in Hk.
  assert (Hk1 : (1 <= IZR k)%R) by (apply IZR_le; lia). nra.
Qed.

Lemma div_eucl_split a b : Z.div_eucl a b = (a / b, a mod b).
Proof. unfold Z.div, Z.modulo. destruct (Z.div_eucl a b); reflexivity. Qed.

(** A positive finite double divided by itself is exactly [1], whatever
    its mantissa and exponent. *)
Lemma SFdiv_self m e : SFdiv (S754_finite false m e) (S754_finite false m e) = f64 1.
Proof.
  unfold SpecFloat.SFdiv, SFdiv_core_binary. rewrite !Z.sub_diag.
  replace (Z.min (fexp Content.prec Content.emax 0) 0) with (-53) by reflexivity.
  change (0 - -53) with 53. cbv zeta.
  rewrite div_eucl_split, Z.shiftl_mul_pow2 by lia.
  rewrite (Z.mul_comm (Z.pos m)), Z.div_mul, Z.mod_mul by lia.
  unfold new_location. destruct (Z.even (Z.pos m)); reflexivity.
Qed.

(** ** Theorems *)

(** C14: at the bottom of a page taller than the window ([scrollY] equal to
    the positive [scrollHeight - innerHeight]) the indicator is exactly
    full: progress and label 100, the bar at scale 1 and the ring's offset
    0, under which every point of the circle is painted (its circumference
    [56 pi] is at most the dash length 176); at the top it is exactly
    empty, with offset 176 under which no point is painted.  Both circles
    fit the 64-pixel box. *)
Theorem scroll_indicator_ends docH innerH m e :
  SFsub docH innerH = S754_finite false m e ->
  (let p := updateScrollProgress docH innerH (S754_finite false m e) in
   p = f64 100 /\ label p = f64 100 /\ scaleX p = f64 1 /\ strokeDashoffset p = f64 0 /\
   forall pt, (0 <= pt < circumference progressCircle)%R -> ring_painted (strokeDashoffset p) pt) /\
  (let p := updateScrollProgress docH innerH (f64 0) in
   p = f64 0 /\ label p = f64 0 /\ scaleX p = f64 0 /\ strokeDashoffset p = f64 176 /\
   forall pt, (0 <= pt < circumference progressCircle)%R -> ~ ring_painted (strokeDashoffset p) pt) /\
  fits trackCircle && fits progressCircle = true.
Proof.
  intros H. unfold updateScrollProgress. cbv zeta. rewrite H, SFdiv_self.
  assert (HC : (circumference progressCircle <= 176)%R)
    by (unfold circumference; cbn [r progressCircle]; pose proof PI_le_22_7; lra).
  split; [|split; [|reflexivity]]; repeat split; try reflexivity; intros pt Hpt;
    unfold ring_painted; vm_compute strokeDashoffset; cbn [sf_R strokeDasharray progressCircle].
  - apply painted_from_start. lra.
  - cbn [Z.leb Z.compare Z.opp]. rewrite (IZR_div_exact _ _ 176) by (vm_compute; congruence).
    apply unpainted_after_dash; lra.
Qed.

Lemma scroll_indicator_ends_witness :
  updateScrollProgress (f64 1800) (f64 800) (f64 1000) = f64 100.
Proof.
  exact (proj1 (proj1 (scroll_indicator_ends (f64 1800) (f64 800) _ _ eq_refl))).
Defined.

(** C15: on a page no taller than the window ([scrollHeight - innerHeight]
    is zero) a scroll event at the top stores [0 / 0 * 100 = NaN]: the
    label reads [NaN%] and the bar's scale and the ring's offset are
    [NaN]. *)
Theorem scroll_indicator_blank_nan docH innerH s s' :
  SFsub docH innerH = S754_zero s ->
  let p := updateScrollProgress docH innerH (S754_zero s') in
  p = S754_nan /\ label p = S754_nan /\ scaleX p = S754_nan /\ strokeDashoffset p = S754_nan.
Proof. intros H. unfold updateScrollProgress. cbv zeta. rewrite H. repeat split. Qed.

Lemma scroll_indicator_blank_nan_witness :
  updateScrollProgress (f64 800) (f64 800) (f64 0) = S754_nan.
Proof. exact (proj1 (scroll_indicator_blank_nan (f64 800) (f64 800) false false eq_refl)). Defined.

End ScrollProgress.

Module Navbar.

Record state : Type := mkNav {
  isScrolled : bool;
  isMobileMenuOpen : bool
}.

(** [useState(false)] twice (lines 6-7). *)
Definition initial : state := mkNav false false.

(** [handleScroll] (lines 10-12): [setIsScrolled(window.scrollY > 20)]. *)
Definition handleScroll (scrollY : spec_float) (s : state) : state :=
  mkNav (SFltb (Content.f64 20) scrollY) (isMobileMenuOpen s).

(** The menu button (line 71): [setIsMobileMenuOpen(!isMobileMenuOpen)]. *)
Definition toggleMenu (s : state) : state := mkNav (isScrolled s) (negb (isMobileMenuOpen s)).

(** A link of the mobile menu (line 92): [setIsMobileMenuOpen(false)]. *)
Definition closeMenu (s : state) : state := mkNav (isScrolled s) false.

(** The bar's classes (lines 29-31): the blurred background once
    scrolled. *)
Definition navClass (s : state) : string :=
  ("fixed top-0 left-0 right-0 z-40 transition-all duration-300 " ++
   (if isScrolled s then "bg-black/80 backdrop-blur-lg border-b border-white/10" else ""))%string.

(** The menu button's icon (line 74). *)
Definition menuIcon (s : state) : string := if isMobileMenuOpen s then "X" else "Menu".

(** The five in-page links (lines 17-23). *)
Definition navItems : list (string * string) :=
  [("Home", "#home"); ("About", "#about"); ("Projects", "#projects");
   ("Skills", "#skills"); ("Contact", "#contact")]%string.

(** The mobile menu (lines 79-107): rendered only while open, with every
    link and the "Make This Site Yours" button. *)
Definition mobileMenu (s : state) : option (list (string * string)) :=
  if isMobileMenuOpen s then Some navItems else None.

End Navbar.

Module App.

Record state : Type := mkApp {
  isLoading : bool;
  nav : Navbar.state;
  scrollProgress : spec_float;
  modal : Modal.state
}.

(** [useState(true)] for [isLoading]; [ScrollProgress]'s [useState(0)];
    the modal closed with its initial form. *)
Definition initial : state := mkApp true Navbar.initial (Content.f64 0) Modal.initial.

Definition with_nav (n : Navbar.state) (a : state) : state :=
  mkApp (isLoading a) n (scrollProgress a) (modal a).
Definition with_modal (m : Modal.state) (a : state) : state :=
  mkApp (isLoading a) (nav a) (scrollProgress a) m.

(** A [scroll] event: [ScrollProgress]'s listener always runs; the
    [Navbar]'s only once it is mounted, after the loading screen. *)
Definition on_scroll (docH innerH scrollY : spec_float) (a : state) : state :=
  mkApp (isLoading a)
        (if isLoading a then nav a else Navbar.handleScroll scrollY (nav a))
        (ScrollProgress.updateScrollProgress docH innerH scrollY)
        (modal a).

(** What can happen next on the page.  The [Navbar] and the [CloneModal]
    exist only after loading (App.jsx lines 30-47); [onClone] is
    [() => setShowCloneModal(true)] (line 36). *)
Inductive step : state -> state -> Prop :=
| step_loaded a : isLoading a = true -> step a (mkApp false (nav a) (scrollProgress a) (modal a))
| step_scroll a docH innerH y : step a (on_scroll docH innerH y a)
| step_toggle a : isLoading a = false -> step a (with_nav (Navbar.toggleMenu (nav a)) a)
| step_menu_link a :
    isLoading a = false -> Navbar.isMobileMenuOpen (nav a) = true ->
    step a (with_nav (Navbar.closeMenu (nav a)) a)
| step_clone a : isLoading a = false -> step a (with_modal (Modal.open_modal (modal a)) a)
| step_modal a m' : isLoading a = false -> Modal.step (modal a) m' -> step a (with_modal m' a).

Definition reachable (a : state) : Prop := clos_refl_trans_n1 state step initial a.

(** ** Theorems *)

(** C13: the page refines the modal: the modal part of every reachable page
    state is a reachable state of [Modal.step], so every modal invariant
    holds on the page; and while the loading screen shows, the modal is
    closed with its initial form and the navigation bar untouched. *)
Theorem app_refines_modal a :
  reachable a ->
  Modal.reachable (modal a) /\
  (isLoading a = true -> modal a = Modal.initial /\ nav a = Navbar.initial).
Proof.
  induction 1 as [|a1 a2 Hst _ [IHm IHl]].
  - split; [apply Relation_Operators.rtn1_refl | auto].
  - destruct Hst as [a Hl|a dh ih y|a Hl|a Hl Ho|a Hl|a m' Hl Hm]; simpl;
      try (split; [exact IHm | congruence]).
    + split; [exact IHm|]. destruct (isLoading a); [auto | discriminate].
    + split; [|congruence]. eapply Relation_Operators.rtn1_trans; [apply Modal.step_open | exact IHm].
    + split; [|congruence]. eapply Relation_Operators.rtn1_trans; [exact Hm | exact IHm].
Qed.

Lemma app_refines_modal_witness :
  Modal.reachable (modal (with_modal (Modal.open_modal Modal.initial)
                           (mkApp false Navbar.initial (Content.f64 0) Modal.initial))).
Proof.
  refine (proj1 (app_refines_modal _ _)).
  eapply Relation_Operators.rtn1_trans; [apply step_clone; reflexivity|].
  eapply Relation_Operators.rtn1_trans; [apply (step_loaded initial); reflexivity|].
  apply Relation_Operators.rtn1_refl.
Defined.

End App.
