(* ===== verification/Site.v ===== *)
(** * The presentation components

    The site's sections carry little logic, but what they have is modelled
    here from their sources under [src/src/components]:

    - [Cursor] ([CustomCursor.jsx]): the pointer position and the hover
      flag, driven by the window's [mousemove], [mouseover] and [mouseout]
      events;
    - [InView]: the [useInView({threshold, triggerOnce: true})] hook of
      [react-intersection-observer] used by [About], [Projects], [Skills]
      and [Contact] to start their entrance animations, as a latch over the
      observer's reports (a library, modelled from its documentation);
    - [Markup]: the data the sections render (the hero's words, the about
      cards, the skills and their categories, the contact entries), read
      by the motion declarations of [Motion];
    - [ContactForm] ([Contact.jsx]): the message form, its three inputs and
      [handleSubmit]. *)

From S2P Require Import Prelude JsString Content.
From Stdlib Require Import String Ascii ZArith Bool List Lia Relations.
From Corelib Require Import SpecFloat.
Import ListNotations.

Module Cursor.

Local Open Scope string_scope.

(** [mousePosition] and [isHovering] (lines 5-6); pointer coordinates are
    whole pixels. *)
Record state : Type := mkCursor {
  x : Z;
  y : Z;
  isHovering : bool
}.

Definition initial : state := mkCursor 0 0 false.

(** [updateMousePosition] (lines 9-11). *)
Definition updateMousePosition (clientX clientY : Z) (s : state) : state :=
  mkCursor clientX clientY (isHovering s).

(** [handleMouseOver] (lines 13-17): only a link or a button sets the
    flag; nothing clears it. *)
Definition handleMouseOver (tagName : string) (s : state) : state :=
  if String.eqb tagName "A" || String.eqb tagName "BUTTON" then mkCursor (x s) (y s) true else s.

(** [handleMouseOut] (lines 19-21). *)
Definition handleMouseOut (s : state) : state := mkCursor (x s) (y s) false.

(** The window events the component listens to (lines 23-25). *)
Inductive event : Type :=
| MouseMove (clientX clientY : Z)
| MouseOver (tagName : string)
| MouseOut.

Definition handle (e : event) (s : state) : state :=
  match e with
  | MouseMove cx cy => updateMousePosition cx cy s
  | MouseOver t => handleMouseOver t s
  | MouseOut => handleMouseOut s
  end.

Definition run (es : list event) (s : state) : state := fold_left (fun s e => handle e s) es s.

(** The pointer moving onto a new innermost element, given by the tags
    from it up to the root: the browser fires [mouseout] at the element
    left, then [mouseover] at the one entered, and both bubble to the
    window's listeners. *)
Definition enter (path : list string) (s : state) : state :=
  run [MouseOut; MouseOver (hd "" path)] s.

(** The pointer is over a link or a button when one is on its path. *)
Definition over_interactive (path : list string) : bool :=
  existsb (fun t => String.eqb t "A" || String.eqb t "BUTTON") path.

(** The ring's offset and scale (lines 38-42) and the dot's offset
    (lines 47-50): each centred on the pointer. *)
Definition ring (s : state) : Z * Z * bool := ((x s - 16)%Z, (y s - 16)%Z, isHovering s).
Definition dot (s : state) : Z * Z := ((x s - 4)%Z, (y s - 4)%Z).

(** C28: after the pointer enters an element, the hover flag says whether
    that innermost element is itself a link or a button, whatever came
    before; so on the icon inside a button (the navigation bar's
    "Make This Site Yours" has one) the cursor is not enlarged although the
    pointer is over the button. *)
Theorem cursor_hover_innermost path s :
  isHovering (enter path s) = (String.eqb (hd "" path) "A" || String.eqb (hd "" path) "BUTTON") /\
  over_interactive ["svg"; "BUTTON"; "DIV"; "NAV"] = true /\
  isHovering (enter ["svg"; "BUTTON"; "DIV"; "NAV"] (enter ["BUTTON"; "DIV"; "NAV"] s)) = false.
Proof.
  split; [|split; reflexivity].
  unfold enter, run, handle, handleMouseOver, handleMouseOut. cbn [fold_left].
  destruct (String.eqb (hd "" path) "A" || String.eqb (hd "" path) "BUTTON"); reflexivity.
Qed.

End Cursor.

Module InView.

(** What the hook exposes ([inView]) and whether the element is still
    observed. *)
Record state : Type := mkInView {
  inView : bool;
  observing : bool
}.

(** [useState({inView: !!initialInView})], then [observe(ref, ...)]. *)
Definition initial : state := mkInView false true.

(** An observer report for the element: [inView] is [isIntersecting] and
    the ratio reaching the threshold; with [triggerOnce] the element is no
    longer observed once it is in view. *)
Definition report (threshold : spec_float) (isIntersecting : bool) (ratio : spec_float)
    (s : state) : state :=
  if observing s then
    let v := isIntersecting && SFleb threshold ratio in mkInView v (negb v)
  else s.

Fixpoint run (threshold : spec_float) (rs : list (bool * spec_float)) (s : state) : state :=
  match rs with
  | [] => s
  | r :: rs' => run threshold rs' (report threshold (fst r) (snd r) s)
  end.

(** A JavaScript literal [0.d]: the double nearest [d / 10]. *)
Definition tenth (d : Z) : spec_float := SFdiv Content.prec Content.emax (Content.f64 d) (Content.f64 10).

(** The thresholds of [About.jsx] (line 10) and of [Projects.jsx],
    [Skills.jsx] and [Contact.jsx] (lines 9, 8 and 9). *)
Definition aboutThreshold : spec_float := tenth 3.
Definition sectionThreshold : spec_float := tenth 2.

(** [animate={inView ? target : {}}]: the target once in view, no
    animation ([{}], the element stays at [initial]) before. *)
Definition animate {A} (s : state) (target : A) : option A := if inView s then Some target else None.

Definition hit (threshold : spec_float) (r : bool * spec_float) : bool := fst r && SFleb threshold (snd r).

Lemma run_stopped threshold rs s : observing s = false -> run threshold rs s = s.
Proof.
  intros Ho. induction rs as [|r rs IH]; [reflexivity|].
  cbn [run]. unfold report. rewrite Ho. exact IH.
Qed.

Lemma run_latch threshold rs s :
  observing s = negb (inView s) ->
  inView (run threshold rs s) = inView s || existsb (hit threshold) rs /\
  observing (run threshold rs s) = negb (inView (run threshold rs s)).
Proof.
  revert s. induction rs as [|r rs IH]; intros s Hs; cbn [run existsb].
  - rewrite orb_false_r. auto.
  - destruct (observing s) eqn:Ho.
    + assert (Hv : inView s = false) by (destruct (inView s); simpl in Hs; congruence).
      set (v := fst r && SFleb threshold (snd r)).
      assert (E : report threshold (fst r) (snd r) s = mkInView v (negb v))
        by (unfold report; rewrite Ho; reflexivity).
      destruct (IH (mkInView v (negb v))) as [H1 H2]; [reflexivity|].
      rewrite E, H2, H1, Hv. cbn [inView orb]. unfold hit, v. auto.
    + assert (Hv : inView s = true) by (destruct (inView s); simpl in Hs; congruence).
      assert (E : report threshold (fst r) (snd r) s = s) by (unfold report; rewrite Ho; reflexivity).
      rewrite E, run_stopped by exact Ho. rewrite Hv, Ho. auto.
Qed.

Lemma run_app threshold rs rs' s : run threshold (rs ++ rs') s = run threshold rs' (run threshold rs s).
Proof. revert s. induction rs; intros s; [reflexivity|]. apply IHrs. Qed.

End InView.

Module Markup.

Local Open Scope string_scope.

(** [Hero.jsx] lines 8-13: the typewriter's words. *)
Definition heroWords : list (string * string) :=
  [("Hi,", "text-white"); ("We are", "text-white"); ("John", "text-purple-500"); ("Doe", "text-purple-500")].

(** [About.jsx] lines 14-30: the cards (title, description). *)
Definition aboutCards : list (string * string) :=
  [("Clean Code", "Writing maintainable and scalable code with best practices");
   ("Creative Design", "Bringing ideas to life with stunning visual experiences");
   ("Performance", "Optimizing for speed and exceptional user experience")].

Record skill : Type := mkSkill { skill_name : string; level : Z; category : string }.

(** [Skills.jsx] lines 12-19. *)
Definition skills : list skill :=
  [mkSkill "React" 95 "Frontend"; mkSkill "Three.js" 85 "3D Graphics";
   mkSkill "Node.js" 90 "Backend"; mkSkill "TypeScript" 88 "Language";
   mkSkill "MongoDB" 82 "Database"; mkSkill "GraphQL" 78 "API"].

(** [Skills.jsx] lines 21-52: title, description, link. *)
Definition skillCategories : list (string * string * string) :=
  [("Frontend Development", "React, Vue, Angular, Next.js", "#");
   ("Backend Development", "Node.js, Express, Python, Django", "#");
   ("3D & Animation", "Three.js, Spline, Blender, WebGL", "#");
   ("Database & Cloud", "MongoDB, PostgreSQL, AWS, Docker", "#");
   ("Design Tools", "Figma, Adobe XD, Photoshop, Illustrator", "#");
   ("DevOps & Tools", "Git, CI/CD, Kubernetes, Testing", "#")].

(** The bar of a skill card (lines 94-101): [width: `${skill.level}%`]. *)
Definition skill_width (sk : skill) : string := Content.nat_to_string (Z.to_nat (level sk)) ++ "%".

(** [Contact.jsx] lines 24-34. *)
Definition socialLinks : list (string * string) :=
  [("https://github.com", "GitHub"); ("https://linkedin.com", "LinkedIn"); ("https://twitter.com", "Twitter")].
Definition contactInfo : list string :=
  ["john.doe@example.com"; "+1 (555) 123-4567"; "San Francisco, CA"].

End Markup.

Module ContactForm.

Local Open Scope string_scope.

(** [formData] (lines 13-17) and what [console.log] has printed. *)
Record state : Type := mkContact {
  name : string;
  email : string;
  message : string;
  console : list (string * string * string)
}.

Definition initial : state := mkContact "" "" "" [].

Inductive field : Type := FName | FEmail | FMessage.

(** The inputs' [onChange] (lines 98, 108, 118). *)
Definition onChange (f : field) (v : string) (s : state) : state :=
  match f with
  | FName => mkContact v (email s) (message s) (console s)
  | FEmail => mkContact (name s) v (message s) (console s)
  | FMessage => mkContact (name s) (email s) v (console s)
  end.

(** [handleSubmit] (lines 19-22): [preventDefault] and
    [console.log('Form submitted:', formData)]. *)
Definition handleSubmit (s : state) : state :=
  mkContact (name s) (email s) (message s) ((console s ++ [(name s, email s, message s)])%list).

Section Submit.

(** The browser's check of an [type="email"] input. *)
Variable valid_email : string -> bool.

(** Pressing "Send Message": the browser blocks the submission while a
    [required] field is empty or the email is not an address ([None]);
    otherwise [onSubmit] runs. *)
Definition submit (s : state) : option state :=
  if Js.truthy (name s) && Js.truthy (email s) && Js.truthy (message s) && valid_email (email s)
  then Some (handleSubmit s) else None.

Inductive step : state -> state -> Prop :=
| step_change f v s : step s (onChange f v s)
| step_submit s s' : submit s = Some s' -> step s s'.

Definition reachable (s : state) : Prop := clos_refl_trans_n1 state step initial s.

Definition entry_ok (e : string * string * string) : Prop :=
  let '(n, em, m) := e in n <> "" /\ em <> "" /\ m <> "" /\ valid_email em = true.

Lemma submit_spec s s' :
  submit s = Some s' ->
  s' = handleSubmit s /\ entry_ok (name s, email s, message s).
Proof.
  unfold submit. intros H.
  destruct (Js.truthy (name s)) eqn:Hn, (Js.truthy (email s)) eqn:He,
           (Js.truthy (message s)) eqn:Hm, (valid_email (email s)) eqn:Hv; try discriminate.
  injection H as <-. apply Js.truthy_true in Hn, He, Hm. unfold entry_ok. auto.
Qed.

End Submit.

Section Theorems.

Variable valid_email : string -> bool.

(** C30: in every reachable state of the form each console line holds three
    non-empty fields and an email the browser accepted. *)
Theorem contact_console_valid s :
  reachable valid_email s -> Forall (entry_ok valid_email) (console s).
Proof.
  induction 1 as [|s1 s2 Hst _ IH]; [constructor|].
  destruct Hst as [f v s|s s' Hs].
  - destruct f; exact IH.
  - apply submit_spec in Hs as [-> Hok]. simpl. apply Forall_app. auto.
Qed.

End Theorems.


Lemma contact_console_valid_witness :
  Forall (entry_ok (fun e => Js.truthy e)) [("Ada", "ada@example.com", "Hello")].
Proof.
  apply (contact_console_valid (fun e => Js.truthy e) (mkContact "Ada" "ada@example.com" "Hello" [("Ada", "ada@example.com", "Hello")])).
  eapply Relation_Operators.rtn1_trans; [apply (step_submit _ (mkContact "Ada" "ada@example.com" "Hello" [])); reflexivity|].
  eapply Relation_Operators.rtn1_trans;
    [exact (step_change _ FMessage "Hello" (mkContact "Ada" "ada@example.com" "" []))|].
  eapply Relation_Operators.rtn1_trans;
    [exact (step_change _ FEmail "ada@example.com" (mkContact "Ada" "" "" []))|].
  eapply Relation_Operators.rtn1_trans; [exact (step_change _ FName "Ada" initial)|].
  apply Relation_Operators.rtn1_refl.
Defined.

End ContactForm.
