(* ===== verification/Motion.v ===== *)
(** * Entrance animations

    Every section of the site animates its elements in with framer-motion's
    [motion.*] components: an element is declared with an [initial] frame
    (the values it is first drawn with), an [animate] target and a
    [transition] (delay, duration, repetition).  [About.jsx],
    [Skills.jsx] and [Contact.jsx] pass [animate={inView ? target : {}}]:
    with the empty target [{}] framer-motion animates nothing and the
    element stays at its initial frame.

    This file transcribes those declarations ([Hero], [About], [Skills], [Contact],
    [Navbar]) as [motion] records, with the numbers as the doubles the
    JavaScript literals and expressions ([0.6 + index * 0.1]) evaluate to,
    and gives framer-motion's settling rule as [settled]: a key of the
    target takes its (last) target value, a key absent from the target
    keeps its initial value.  The interpolation between the two (springs,
    easing curves) is framer-motion's and is not modelled. *)

From S2P Require Import Prelude JsString Content Page Site.
From Stdlib Require Import String ZArith Bool List Lia.
From Corelib Require Import SpecFloat.
Import ListNotations.

Module Motion.

Local Open Scope string_scope.

Local Abbreviation f64 := Content.f64.
Local Abbreviation tenth := InView.tenth.
Local Abbreviation SFadd := (SFadd Content.prec Content.emax).
Local Abbreviation SFmul := (SFmul Content.prec Content.emax).

(** An animated value: a number, a CSS string ([`${level}%`], ['auto'])
    or keyframes ([y: [0, 10, 0]]). *)
Inductive value : Type :=
| Num (x : spec_float)
| Css (s : string)
| Keys (xs : list spec_float).

Definition frame : Type := list (string * value).

(** The [transition] prop. *)
Record timing : Type := mkTiming {
  delay : spec_float;
  duration : option spec_float;
  repeat : bool
}.

Record motion : Type := mkMotion {
  initial : frame;
  animate : option frame;
  transition : timing
}.

(** [transition={{ delay, duration }}]; an absent delay is [0]. *)
Definition tr (d : spec_float) (du : option spec_float) : timing := mkTiming d du false.

Definition get (k : string) (f : frame) : option value :=
  option_map snd (find (fun kv => String.eqb (fst kv) k) f).

(** The value a target settles at: keyframes end at their last frame. *)
Definition final (v : value) : value :=
  match v with
  | Keys xs => Num (last xs (f64 0))
  | _ => v
  end.

(** What the element shows once its animation is over. *)
Definition settled (m : motion) : frame :=
  match animate m with
  | None => initial m
  | Some a =>
      (map (fun kv => (fst kv, match get (fst kv) a with Some v => final v | None => snd kv end)) (initial m)
       ++ map (fun kv => (fst kv, final (snd kv)))
              (filter (fun kv => match get (fst kv) (initial m) with Some _ => false | None => true end) a))%list
  end.

Definition num_is (v : value) (x : Z) : bool :=
  match v with Num y => SFeqb y (f64 x) | _ => false end.

(** A frame that draws nothing: transparent, scaled to nothing or of zero
    width. *)
Definition hidden (f : frame) : bool :=
  existsb (fun kv => (String.eqb (fst kv) "opacity" || String.eqb (fst kv) "scale" ||
                      String.eqb (fst kv) "width") && num_is (snd kv) 0) f.

(** A frame at full presence: opaque, at scale one, at its place, with a
    CSS width. *)
Definition shown (f : frame) : bool :=
  forallb (fun kv =>
             if String.eqb (fst kv) "opacity" || String.eqb (fst kv) "scale" then num_is (snd kv) 1
             else if String.eqb (fst kv) "x" || String.eqb (fst kv) "y" then num_is (snd kv) 0
             else if String.eqb (fst kv) "width" then match snd kv with Css _ => true | _ => false end
             else false) f.

(** [index * 0.1] and [c + index * 0.1], as JavaScript computes them. *)
Definition stagger (c : spec_float) (index : nat) : spec_float :=
  SFadd c (SFmul (f64 (Z.of_nat index)) (tenth 1)).

Definition fade_up (dy : Z) : frame := [("opacity", Num (f64 0)); ("y", Num (f64 dy))].
Definition fade_side (dx : Z) : frame := [("opacity", Num (f64 0)); ("x", Num (f64 dx))].
Definition at_rest_y : frame := [("opacity", Num (f64 1)); ("y", Num (f64 0))].
Definition at_rest_x : frame := [("opacity", Num (f64 1)); ("x", Num (f64 0))].

(** ** [Hero.jsx] *)

(** Lines 24-28, 30-35, 39-44 and 55-58. *)
Definition heroContent : motion := mkMotion (fade_up 20) (Some at_rest_y) (tr (f64 0) (Some (tenth 8))).
Definition heroSubtitle : motion :=
  mkMotion [("opacity", Num (f64 0))] (Some [("opacity", Num (f64 1))]) (tr (f64 1) (Some (tenth 8))).
Definition heroButtons : motion :=
  mkMotion [("opacity", Num (f64 0))] (Some [("opacity", Num (f64 1))]) (tr (tenth 15) (Some (tenth 8))).
Definition heroChevron : motion :=
  mkMotion [] (Some [("y", Keys [f64 0; f64 10; f64 0])]) (mkTiming (f64 0) (Some (f64 2)) true).

Definition heroMotions : list motion := [heroContent; heroSubtitle; heroButtons; heroChevron].

(** ** [About.jsx], driven by its [useInView] state *)

Section About.
Variable s : InView.state.

(** Lines 34-39, 45-49, 62-67 and 79-83. *)
Definition aboutContent : motion := mkMotion (fade_up 50) (InView.animate s at_rest_y) (tr (f64 0) (Some (tenth 8))).
Definition aboutText : motion := mkMotion (fade_side (-50)) (InView.animate s at_rest_x) (tr (tenth 2) (Some (tenth 8))).
Definition aboutScene : motion := mkMotion (fade_side 50) (InView.animate s at_rest_x) (tr (tenth 4) (Some (tenth 8))).
Definition aboutCard (index : nat) : motion :=
  mkMotion (fade_up 50) (InView.animate s at_rest_y) (tr (stagger (tenth 6) index) (Some (tenth 8))).

Definition aboutMotions : list motion :=
  ([aboutContent; aboutText; aboutScene] ++ Js.mapi (fun i _ => aboutCard i) Markup.aboutCards)%list.

End About.

(** ** [Skills.jsx], driven by its [useInView] state *)

Section Skills.
Variable s : InView.state.

(** Lines 56-61 and 68-73 ([type: "spring"]). *)
Definition skillsContent : motion := mkMotion (fade_up 50) (InView.animate s at_rest_y) (tr (f64 0) (Some (tenth 8))).
Definition skillsTitle : motion :=
  mkMotion [("scale", Num (f64 0))] (InView.animate s [("scale", Num (f64 1))]) (tr (f64 0) (Some (f64 1))).

(** A skill's card (lines 82-88) and its bar (lines 94-99). *)
Definition skillCard (index : nat) : motion :=
  mkMotion [("opacity", Num (f64 0)); ("scale", Num (tenth 8))]
           (InView.animate s [("opacity", Num (f64 1)); ("scale", Num (f64 1))])
           (tr (stagger (f64 0) index) (Some (tenth 5))).
Definition skillBar (index : nat) (sk : Markup.skill) : motion :=
  mkMotion [("width", Num (f64 0))] (InView.animate s [("width", Css (Markup.skill_width sk))])
           (tr (stagger (tenth 5) index) (Some (f64 1))).

Definition skillsMotions : list motion :=
  ([skillsContent; skillsTitle] ++ concat (Js.mapi (fun i sk => [skillCard i; skillBar i sk]) Markup.skills))%list.

End Skills.

(** ** [Contact.jsx], driven by its [useInView] state *)

Section Contact.
Variable s : InView.state.

(** Lines 39-43 (the content block), 50-53 (the text, details and social
    column) and 86-89 (the message form). *)
Definition contactContent : motion := mkMotion (fade_up 50) (InView.animate s at_rest_y) (tr (f64 0) (Some (tenth 8))).
Definition contactDetails : motion :=
  mkMotion (fade_side (-50)) (InView.animate s at_rest_x) (tr (tenth 2) (Some (tenth 8))).
Definition contactForm : motion := mkMotion (fade_side 50) (InView.animate s at_rest_x) (tr (tenth 4) (Some (tenth 8))).

Definition contactMotions : list motion := [contactContent; contactDetails; contactForm].

End Contact.

(** ** [Navbar.jsx] *)

(** Lines 26-28, 35-39, 45-52 (one per link, [delay: index * 0.1]) and
    58-64. *)
Definition navBar : motion := mkMotion [("y", Num (f64 (-100)))] (Some [("y", Num (f64 0))]) (tr (f64 0) None).
Definition navLogo : motion := mkMotion (fade_side (-20)) (Some at_rest_x) (tr (f64 0) None).
Definition navLink (index : nat) : motion := mkMotion (fade_up (-20)) (Some at_rest_y) (tr (stagger (f64 0) index) None).
Definition navClone : motion :=
  mkMotion [("opacity", Num (f64 0)); ("scale", Num (tenth 8))]
           (Some [("opacity", Num (f64 1)); ("scale", Num (f64 1))]) (tr (tenth 5) None).

Definition navMotions : list motion :=
  ([navBar; navLogo] ++ Js.mapi (fun i _ => navLink i) Page.Navbar.navItems ++ [navClone])%list.

(** Start times strictly increasing, in double comparison. *)
Fixpoint increasing (l : list spec_float) : bool :=
  match l with
  | x :: (y :: _) as t => SFltb x y && increasing t
  | _ => true
  end.

Definition starts (ms : list motion) : list spec_float := map (fun m => delay (transition m)) ms.

(** What an element shows once settled, given its section's [inView]
    flag. *)
Definition gate (v : bool) (m : motion) : bool := if v then shown (settled m) else hidden (settled m).

(** ** Lemmas *)

Lemma Forall_of_forallb {A} (f : A -> bool) l : forallb f l = true -> Forall (fun x => f x = true) l.
Proof. rewrite forallb_forall, Forall_forall. exact id. Qed.

Lemma run_inView threshold rs :
  InView.inView (InView.run threshold rs InView.initial) = existsb (InView.hit threshold) rs.
Proof. exact (proj1 (InView.run_latch threshold rs InView.initial eq_refl)). Qed.

Lemma gate_spec v (ms : list motion) :
  Forall (fun m => gate v m = true) ms ->
  if v then Forall (fun m => shown (settled m) = true) ms else Forall (fun m => hidden (settled m) = true) ms.
Proof. destruct v; exact id. Qed.

(** ** Theorems *)

(** C29: the About, Skills and Contact sections are invisible until their
    observer reports them in view, and fully drawn after: with no report at
    or above the section's threshold, every animated element of the
    section (the whole content block included) stays at an initial frame of
    opacity, scale or width zero; once one report reached it, every element
    settles opaque, at scale one, at its place, each skill bar at a CSS
    width. *)
Theorem sections_reveal_on_view rs rs' rs'' :
  (if existsb (InView.hit InView.aboutThreshold) rs
   then Forall (fun m => shown (settled m) = true)
               (aboutMotions (InView.run InView.aboutThreshold rs InView.initial))
   else Forall (fun m => hidden (settled m) = true)
               (aboutMotions (InView.run InView.aboutThreshold rs InView.initial))) /\
  (if existsb (InView.hit InView.sectionThreshold) rs'
   then Forall (fun m => shown (settled m) = true)
               (skillsMotions (InView.run InView.sectionThreshold rs' InView.initial))
   else Forall (fun m => hidden (settled m) = true)
               (skillsMotions (InView.run InView.sectionThreshold rs' InView.initial))) /\
  (if existsb (InView.hit InView.sectionThreshold) rs''
   then Forall (fun m => shown (settled m) = true)
               (contactMotions (InView.run InView.sectionThreshold rs'' InView.initial))
   else Forall (fun m => hidden (settled m) = true)
               (contactMotions (InView.run InView.sectionThreshold rs'' InView.initial))).
Proof.
  rewrite <- !run_inView. repeat split; apply gate_spec, Forall_of_forallb;
    [destruct (InView.run InView.aboutThreshold rs InView.initial) as [[] o] |
     destruct (InView.run InView.sectionThreshold rs' InView.initial) as [[] o] |
     destruct (InView.run InView.sectionThreshold rs'' InView.initial) as [[] o]];
    vm_compute; reflexivity.
Qed.

(** each section reveals its elements in document order: the hero's
    content, subtitle and buttons start at 0, 1 and 1.5 s; About's block,
    text, scene and three cards at 0, 0.2, 0.4, 0.6, 0.7 and 0.8 s after it
    comes into view (the doubles [0.6 + index * 0.1]); the navigation
    bar's links at [index * 0.1] (the fourth at 0.30000000000000004) and
    its clone button after them, at 0.5 s. *)
Theorem entrance_order s :
  starts heroMotions = [f64 0; f64 1; tenth 15; f64 0] /\ increasing (firstn 3 (starts heroMotions)) = true /\
  increasing (starts (aboutMotions s)) = true /\
  starts (aboutMotions s) = [f64 0; tenth 2; tenth 4; tenth 6; tenth 7; tenth 8] /\
  increasing (tl (tl (starts navMotions))) = true.
Proof. destruct s as [v o]. vm_compute. repeat split. Qed.

End Motion.
